(** * The data-access layer of the FastAPI/MySQL application

    A shallow embedding of [db/core.py], [db/users.py], [db/posts.py] and
    [db/product.py]: the connection factory, the three query primitives with
    their [try]/[except]/[finally] blocks, the per-entity facades, the
    dynamic [UPDATE] builder and the schema bootstrap, followed by
    [from_env], [clean_db], the route handlers of [routes/] and the command
    line of [src/init_db.py].

    The storage engine and its driver ([mysql.connector]) are not part of the
    repository.  They are modelled in [Module Engine] by a small relational
    store that understands the statement texts the facades issue, and by a
    per-call environment [Env] that says which driver calls fail.  One client
    talks to the engine at a time.  Calls to [logging] write to the process
    log only and are not modelled. *)

From Stdlib Require Import ZArith List String Ascii Bool Lia.
Import ListNotations.
Open Scope string_scope.
Open Scope Z_scope.

(** ** Python values, rows and exceptions *)

(** Values bound as query parameters or read back from a row.  A price is a
    fixed-point number of hundredths, as in the column type DECIMAL(10, 2). *)
Inductive value : Type :=
| VNone
| VInt (z : Z)
| VStr (s : string)
| VDec (hundredths : Z).

(** A row as returned by a cursor opened with [dictionary=True]:
    column name and value, in column order. *)
Definition row : Type := list (string * value).

Fixpoint row_get (r : row) (col : string) : option value :=
  match r with
  | [] => None
  | (k, v) :: r' => if String.eqb k col then Some v else row_get r' col
  end.

(** Subclasses of [mysql.connector.Error] that the model raises. *)
Inductive mysql_error : Type :=
| CR_CONN_HOST_ERROR        (* 2003: engine unreachable *)
| ER_ACCESS_DENIED_ERROR    (* 1045: authentication rejected *)
| ER_BAD_DB_ERROR           (* 1049: unknown database *)
| CR_SERVER_LOST            (* 2013: link lost during a call *)
| ER_NO_DB_ERROR            (* 1046: no database selected *)
| ER_PARSE_ERROR            (* 1064: statement not understood *)
| ER_NO_SUCH_TABLE          (* 1146 *)
| ER_DUP_ENTRY              (* 1062: primary or unique key *)
| ER_NO_REFERENCED_ROW      (* 1452: foreign key has no target *)
| ER_ROW_IS_REFERENCED      (* 1451: foreign key still points here *)
| ER_BAD_NULL_ERROR         (* 1048: NULL in a NOT NULL column *)
| ER_DATA_TOO_LONG          (* 1406 *)
| ER_WRONG_VALUE            (* 1366: value of the wrong type for a column *)
| ER_OUT_OF_RANGE           (* 1264: number outside the column's range *)
| ParamsMismatch            (* ProgrammingError: parameters and %s differ in number *)
| NoResultSet.              (* InterfaceError: no result set to fetch from *)

Inductive exn : Type :=
| Error (e : mysql_error)             (* mysql.connector.Error *)
| PermissionError (msg : string)
| UnboundLocalError (name : string).

Inductive outcome (A : Type) : Type :=
| Return (a : A)
| Raise (e : exn).
Arguments Return {A} a.
Arguments Raise {A} e.

(** ** The storage engine *)

Module Engine.

(** *** Tables, as created by [initialize_database] *)

Record user : Type := mkUser {
  user_id : Z;              (* INT AUTO_INCREMENT PRIMARY KEY *)
  user_name : string;       (* VARCHAR(255) NOT NULL *)
  user_email : string;      (* VARCHAR(255) NOT NULL UNIQUE *)
  user_password : string    (* VARCHAR(255) NOT NULL *)
}.

Record post : Type := mkPost {
  post_id : Z;              (* INT AUTO_INCREMENT PRIMARY KEY *)
  post_title : string;      (* VARCHAR(255) NOT NULL *)
  post_content : string;    (* TEXT NOT NULL *)
  post_user_id : Z          (* INT NOT NULL, FOREIGN KEY REFERENCES users(id) *)
}.

Record product : Type := mkProduct {
  product_id : Z;           (* INT AUTO_INCREMENT PRIMARY KEY *)
  product_name : string;    (* VARCHAR(255) NOT NULL *)
  product_description : string;  (* TEXT NOT NULL *)
  product_price : Z;        (* DECIMAL(10, 2) NOT NULL, in hundredths *)
  product_quantity : Z      (* INT NOT NULL *)
}.

Record table (R : Type) : Type := mkTable {
  rows : list R;
  auto_increment : Z        (* the id the next inserted row receives *)
}.
Arguments mkTable {R} rows auto_increment.
Arguments rows {R} t.
Arguments auto_increment {R} t.

Definition empty_table {R : Type} : table R := mkTable [] 1.

(** The one database the configuration names; a table is [None] until it is
    created. *)
Record schema : Type := mkSchema {
  users : option (table user);
  posts : option (table post);
  products : option (table product)
}.

Definition empty_schema : schema := mkSchema None None None.

(** [None]: the database does not exist (never created, or dropped). *)
Definition server : Type := option schema.

Definition user_row (u : user) : row :=
  [("id", VInt (user_id u)); ("name", VStr (user_name u));
   ("email", VStr (user_email u)); ("password", VStr (user_password u))].

Definition post_row (p : post) : row :=
  [("id", VInt (post_id p)); ("title", VStr (post_title p));
   ("content", VStr (post_content p)); ("user_id", VInt (post_user_id p))].

Definition product_row (p : product) : row :=
  [("id", VInt (product_id p)); ("name", VStr (product_name p));
   ("description", VStr (product_description p));
   ("price", VDec (product_price p)); ("quantity", VInt (product_quantity p))].

(** *** Statement texts: tokens *)

Inductive token : Type :=
| TWord (w : string)
| TComma
| TEq
| TStar
| TLParen
| TRParen
| TParam                 (* the placeholder %s *)
| TOther (c : ascii).

Definition token_eqb (a b : token) : bool :=
  match a, b with
  | TWord x, TWord y => String.eqb x y
  | TComma, TComma | TEq, TEq | TStar, TStar
  | TLParen, TLParen | TRParen, TRParen | TParam, TParam => true
  | TOther x, TOther y => Ascii.eqb x y
  | _, _ => false
  end.

Fixpoint tokens_eqb (a b : list token) : bool :=
  match a, b with
  | [], [] => true
  | x :: a', y :: b' => token_eqb x y && tokens_eqb a' b'
  | _, _ => false
  end.

Definition word_chars : list ascii :=
  list_ascii_of_string
    "abcdefghijklmnopqrstuvwxyzABCDEFGHIJKLMNOPQRSTUVWXYZ0123456789_".

Definition is_word_char (c : ascii) : bool := existsb (Ascii.eqb c) word_chars.

Definition is_space (c : ascii) : bool :=
  Ascii.eqb c " " || Ascii.eqb c "010" || Ascii.eqb c "009" || Ascii.eqb c "013".

Definition flush (w : string) (k : list token) : list token :=
  match w with
  | EmptyString => k
  | _ => TWord w :: k
  end.

(** [lex w s]: the tokens of [s], where [w] is the word read so far. *)
Fixpoint lex (w : string) (s : string) : list token :=
  match s with
  | EmptyString => flush w []
  | String c s' =>
      if is_word_char c then lex (w ++ String c EmptyString) s'
      else
        flush w
          (if is_space c then lex EmptyString s'
           else if Ascii.eqb c "," then TComma :: lex EmptyString s'
           else if Ascii.eqb c "=" then TEq :: lex EmptyString s'
           else if Ascii.eqb c "*" then TStar :: lex EmptyString s'
           else if Ascii.eqb c "(" then TLParen :: lex EmptyString s'
           else if Ascii.eqb c ")" then TRParen :: lex EmptyString s'
           else if Ascii.eqb c "%" then
             match s' with
             | String c' s'' =>
                 if Ascii.eqb c' "s" then TParam :: lex EmptyString s''
                 else TOther c :: lex EmptyString s'
             | EmptyString => [TOther c]
             end
           else TOther c :: lex EmptyString s')
  end.

Definition tokens (s : string) : list token := lex EmptyString s.

(** *** Statements of the fragment *)

Inductive tname : Type := Users | Posts | Products.

Inductive ucol : Type := UId | UName | UEmail | UPassword.

Definition ucol_name (c : ucol) : string :=
  match c with
  | UId => "id" | UName => "name" | UEmail => "email" | UPassword => "password"
  end.

Definition ucol_of (w : string) : option ucol :=
  if String.eqb w "id" then Some UId
  else if String.eqb w "name" then Some UName
  else if String.eqb w "email" then Some UEmail
  else if String.eqb w "password" then Some UPassword
  else None.

(** Right-hand side of an assignment in [UPDATE users SET ...]: a bound
    parameter or another column of the same row. *)
Inductive expr : Type :=
| EParam
| ECol (c : ucol).

Inductive stmt : Type :=
| SelectAll (t : tname)
| SelectById (t : tname)
| SelectUserByEmail
| SelectPostsByUserId
| InsertUser
| InsertPost
| InsertProduct
| UpdateUser (assignments : list (ucol * expr))
| UpdateProduct
| DeleteById (t : tname).

(** The statement texts with a fixed shape; a text is recognised when it has
    the same tokens as one of these. *)
Definition fixed_statements : list (string * stmt) :=
  [ ("SELECT * FROM users", SelectAll Users);
    ("SELECT * FROM posts", SelectAll Posts);
    ("SELECT * FROM products", SelectAll Products);
    ("SELECT * FROM users WHERE id = %s", SelectById Users);
    ("SELECT * FROM posts WHERE id = %s", SelectById Posts);
    ("SELECT * FROM products WHERE id = %s", SelectById Products);
    ("SELECT * FROM users WHERE email = %s", SelectUserByEmail);
    ("SELECT * FROM posts WHERE user_id = %s", SelectPostsByUserId);
    ("INSERT INTO users (name, email, password) VALUES (%s, %s, %s)", InsertUser);
    ("INSERT INTO posts (title, content, user_id) VALUES (%s, %s, %s)", InsertPost);
    ("INSERT INTO products (name, description, price, quantity) VALUES (%s, %s, %s, %s)",
     InsertProduct);
    ("UPDATE products SET name = %s, description = %s, price = %s, quantity = %s WHERE id = %s",
     UpdateProduct);
    ("DELETE FROM users WHERE id = %s", DeleteById Users);
    ("DELETE FROM posts WHERE id = %s", DeleteById Posts);
    ("DELETE FROM products WHERE id = %s", DeleteById Products) ].

Fixpoint lookup_fixed (ts : list token) (l : list (string * stmt)) : option stmt :=
  match l with
  | [] => None
  | (text, st) :: l' =>
      if tokens_eqb ts (tokens text) then Some st else lookup_fixed ts l'
  end.

Definition expr_of (t : token) : option expr :=
  match t with
  | TParam => Some EParam
  | TWord w => option_map ECol (ucol_of w)
  | _ => None
  end.

(** A non-empty, comma-separated list [col = expr, ...]; returns the
    assignments and the tokens after them. *)
Fixpoint parse_assignments (ts : list token)
  : option (list (ucol * expr) * list token) :=
  match ts with
  | TWord w :: TEq :: rhs :: rest =>
      match ucol_of w, expr_of rhs with
      | Some c, Some e =>
          match rest with
          | TComma :: rest' =>
              match parse_assignments rest' with
              | Some (l, tl) => Some ((c, e) :: l, tl)
              | None => None
              end
          | _ => Some ([(c, e)], rest)
          end
      | _, _ => None
      end
  | _ => None
  end.

Definition parse_update_users (ts : list token) : option stmt :=
  match ts with
  | TWord u :: TWord t :: TWord s :: rest =>
      if String.eqb u "UPDATE" && String.eqb t "users" && String.eqb s "SET" then
        match parse_assignments rest with
        | Some (l, tl) =>
            if tokens_eqb tl (tokens "WHERE id = %s") then Some (UpdateUser l)
            else None
        | None => None
        end
      else None
  | _ => None
  end.

Definition parse (text : string) : option stmt :=
  let ts := tokens text in
  match lookup_fixed ts fixed_statements with
  | Some st => Some st
  | None => parse_update_users ts
  end.

Fixpoint count_params (l : list (ucol * expr)) : nat :=
  match l with
  | [] => O
  | (_, EParam) :: l' => S (count_params l')
  | (_, ECol _) :: l' => count_params l'
  end.

(** Number of [%s] placeholders of a statement. *)
Definition placeholders (st : stmt) : nat :=
  match st with
  | SelectAll _ => 0
  | SelectById _ | SelectUserByEmail | SelectPostsByUserId | DeleteById _ => 1
  | InsertUser | InsertPost => 3
  | InsertProduct => 4
  | UpdateProduct => 5
  | UpdateUser l => S (count_params l)
  end%nat.

(** *** Column checks (strict SQL mode)

    Text is compared exactly.  A text column takes a string, an integer
    column an integer, the price a decimal or an integer; a parameter of
    another type is answered with an error. *)

Definition bindE {A B : Type} (x : mysql_error + A) (f : A -> mysql_error + B)
  : mysql_error + B :=
  match x with
  | inl e => inl e
  | inr a => f a
  end.

Notation "x <-! c ; k" := (bindE c (fun x => k))
  (at level 61, c at next level, right associativity).

Definition varchar (v : value) : mysql_error + string :=
  match v with
  | VStr s => if Z.of_nat (String.length s) <=? 255 then inr s else inl ER_DATA_TOO_LONG
  | VNone => inl ER_BAD_NULL_ERROR
  | _ => inl ER_WRONG_VALUE
  end.

Definition text (v : value) : mysql_error + string :=
  match v with
  | VStr s => if Z.of_nat (String.length s) <=? 65535 then inr s else inl ER_DATA_TOO_LONG
  | VNone => inl ER_BAD_NULL_ERROR
  | _ => inl ER_WRONG_VALUE
  end.

Definition int (v : value) : mysql_error + Z :=
  match v with
  | VInt z =>
      if (-2147483648 <=? z) && (z <=? 2147483647) then inr z
      else inl ER_OUT_OF_RANGE
  | VNone => inl ER_BAD_NULL_ERROR
  | _ => inl ER_WRONG_VALUE
  end.

Definition decimal_10_2 (v : value) : mysql_error + Z :=
  match v with
  | VDec h =>
      if (-9999999999 <=? h) && (h <=? 9999999999) then inr h
      else inl ER_OUT_OF_RANGE
  | VInt z =>
      if (-99999999 <=? z) && (z <=? 99999999) then inr (100 * z)
      else inl ER_OUT_OF_RANGE
  | VNone => inl ER_BAD_NULL_ERROR
  | VStr _ => inl ER_WRONG_VALUE
  end.

(** [WHERE id = %s] and [WHERE email = %s] for one row. *)
Definition id_is (v : value) (id : Z) : bool :=
  match v with
  | VInt z => Z.eqb id z
  | _ => false
  end.

Definition text_is (v : value) (s : string) : bool :=
  match v with
  | VStr t => String.eqb s t
  | _ => false
  end.

Fixpoint distinct {A : Type} (eqb : A -> A -> bool) (l : list A) : bool :=
  match l with
  | [] => true
  | x :: l' => negb (existsb (eqb x) l') && distinct eqb l'
  end.

(** *** Replies *)

Record reply : Type := mkReply {
  rowcount : Z;                       (* rows changed; -1 after a SELECT *)
  result_set : option (list row)      (* [None]: the statement returns no rows *)
}.

Definition selected (l : list row) : reply := mkReply (-1) (Some l).
Definition affected (n : nat) : reply := mkReply (Z.of_nat n) None.

(** *** UPDATE users SET ... *)

Definition ucol_value (c : ucol) (u : user) : value :=
  match c with
  | UId => VInt (user_id u)
  | UName => VStr (user_name u)
  | UEmail => VStr (user_email u)
  | UPassword => VStr (user_password u)
  end.

Definition set_ucol (c : ucol) (v : value) (u : user) : mysql_error + user :=
  match c with
  | UId => z <-! int v ; inr (mkUser z (user_name u) (user_email u) (user_password u))
  | UName => s <-! varchar v ; inr (mkUser (user_id u) s (user_email u) (user_password u))
  | UEmail => s <-! varchar v ; inr (mkUser (user_id u) (user_name u) s (user_password u))
  | UPassword => s <-! varchar v ; inr (mkUser (user_id u) (user_name u) (user_email u) s)
  end.

(** Assignments are evaluated from left to right; a column on the right
    reads the row as the earlier assignments left it. *)
Fixpoint assign (l : list (ucol * expr)) (args : list value) (u : user)
  : mysql_error + user :=
  match l with
  | [] => inr u
  | (c, EParam) :: l' =>
      match args with
      | v :: args' => u' <-! set_ucol c v u ; assign l' args' u'
      | [] => inl ParamsMismatch
      end
  | (c, ECol c') :: l' =>
      u' <-! set_ucol c (ucol_value c' u) u ; assign l' args u'
  end.

Fixpoint update_rows (l : list (ucol * expr)) (args : list value) (id : value)
    (us : list user) : mysql_error + list user :=
  match us with
  | [] => inr []
  | u :: us' =>
      u' <-! (if id_is id (user_id u) then assign l args u else inr u) ;
      rest <-! update_rows l args id us' ;
      inr (u' :: rest)
  end.

Definition user_eqb (a b : user) : bool :=
  Z.eqb (user_id a) (user_id b) && String.eqb (user_name a) (user_name b)
  && String.eqb (user_email a) (user_email b)
  && String.eqb (user_password a) (user_password b).

Definition product_eqb (a b : product) : bool :=
  Z.eqb (product_id a) (product_id b) && String.eqb (product_name a) (product_name b)
  && String.eqb (product_description a) (product_description b)
  && Z.eqb (product_price a) (product_price b)
  && Z.eqb (product_quantity a) (product_quantity b).

Fixpoint changed {R : Type} (eqb : R -> R -> bool) (old new : list R) : nat :=
  match old, new with
  | a :: old', b :: new' =>
      ((if eqb a b then 0 else 1) + changed eqb old' new')%nat
  | _, _ => 0%nat
  end.

Definition referenced (d : schema) (id : Z) : bool :=
  match posts d with
  | Some t => existsb (fun p => Z.eqb (post_user_id p) id) (rows t)
  | None => false
  end.

(** A user whose id changes must not be the target of a post. *)
Fixpoint moved_while_referenced (d : schema) (old new : list user) : bool :=
  match old, new with
  | a :: old', b :: new' =>
      (negb (Z.eqb (user_id a) (user_id b)) && referenced d (user_id a))
      || moved_while_referenced d old' new'
  | _, _ => false
  end.

Definition split_last (l : list value) : option (list value * value) :=
  match rev l with
  | [] => None
  | x :: r => Some (rev r, x)
  end.

Definition with_table {R A : Type} (t : option (table R))
    (k : table R -> mysql_error + A) : mysql_error + A :=
  match t with
  | Some tb => k tb
  | None => inl ER_NO_SUCH_TABLE
  end.

Definition update_users (l : list (ucol * expr)) (args : list value) (d : schema)
  : mysql_error + (reply * schema) :=
  with_table (users d) (fun t =>
    match split_last args with
    | None => inl ParamsMismatch
    | Some (vals, id) =>
        new <-! update_rows l vals id (rows t) ;
        if negb (distinct Z.eqb (map user_id new)) then inl ER_DUP_ENTRY
        else if negb (distinct String.eqb (map user_email new)) then inl ER_DUP_ENTRY
        else if moved_while_referenced d (rows t) new then inl ER_ROW_IS_REFERENCED
        else inr (affected (changed user_eqb (rows t) new),
                  mkSchema (Some (mkTable new (auto_increment t))) (posts d) (products d))
    end).

(** *** The other statements *)

Definition select_from (tn : tname) (keep_user : user -> bool)
    (keep_post : post -> bool) (keep_product : product -> bool) (d : schema)
  : mysql_error + (reply * schema) :=
  match tn with
  | Users => with_table (users d) (fun t =>
      inr (selected (map user_row (filter keep_user (rows t))), d))
  | Posts => with_table (posts d) (fun t =>
      inr (selected (map post_row (filter keep_post (rows t))), d))
  | Products => with_table (products d) (fun t =>
      inr (selected (map product_row (filter keep_product (rows t))), d))
  end.

Definition insert_user (name email password : value) (d : schema)
  : mysql_error + (reply * schema) :=
  with_table (users d) (fun t =>
    n <-! varchar name ; e <-! varchar email ; p <-! varchar password ;
    if existsb (fun u => String.eqb (user_email u) e) (rows t) then inl ER_DUP_ENTRY
    else if existsb (fun u => Z.eqb (user_id u) (auto_increment t)) (rows t)
    then inl ER_DUP_ENTRY
    else inr (affected 1,
              mkSchema (Some (mkTable (rows t ++ [mkUser (auto_increment t) n e p])
                                      (auto_increment t + 1)))
                       (posts d) (products d))).

Definition user_exists (d : schema) (id : Z) : bool :=
  match users d with
  | Some t => existsb (fun u => Z.eqb (user_id u) id) (rows t)
  | None => false
  end.

Definition insert_post (title content uid : value) (d : schema)
  : mysql_error + (reply * schema) :=
  with_table (posts d) (fun t =>
    ti <-! varchar title ; c <-! text content ; u <-! int uid ;
    if negb (user_exists d u) then inl ER_NO_REFERENCED_ROW
    else if existsb (fun p => Z.eqb (post_id p) (auto_increment t)) (rows t)
    then inl ER_DUP_ENTRY
    else inr (affected 1,
              mkSchema (users d)
                       (Some (mkTable (rows t ++ [mkPost (auto_increment t) ti c u])
                                      (auto_increment t + 1)))
                       (products d))).

Definition insert_product (name description price quantity : value) (d : schema)
  : mysql_error + (reply * schema) :=
  with_table (products d) (fun t =>
    n <-! varchar name ; ds <-! text description ;
    p <-! decimal_10_2 price ; q <-! int quantity ;
    if existsb (fun r => Z.eqb (product_id r) (auto_increment t)) (rows t)
    then inl ER_DUP_ENTRY
    else inr (affected 1,
              mkSchema (users d) (posts d)
                       (Some (mkTable (rows t ++ [mkProduct (auto_increment t) n ds p q])
                                      (auto_increment t + 1))))).

Definition update_products (name description price quantity id : value) (d : schema)
  : mysql_error + (reply * schema) :=
  with_table (products d) (fun t =>
    if existsb (fun r => id_is id (product_id r)) (rows t) then
      n <-! varchar name ; ds <-! text description ;
      p <-! decimal_10_2 price ; q <-! int quantity ;
      let new := map (fun r => if id_is id (product_id r)
                               then mkProduct (product_id r) n ds p q else r) (rows t) in
      inr (affected (changed product_eqb (rows t) new),
           mkSchema (users d) (posts d) (Some (mkTable new (auto_increment t))))
    else inr (affected 0, d)).

Definition delete_by_id (tn : tname) (id : value) (d : schema)
  : mysql_error + (reply * schema) :=
  match tn with
  | Users => with_table (users d) (fun t =>
      if existsb (fun u => id_is id (user_id u) && referenced d (user_id u)) (rows t)
      then inl ER_ROW_IS_REFERENCED
      else
        let keep := filter (fun u => negb (id_is id (user_id u))) (rows t) in
        inr (affected (List.length (rows t) - List.length keep)%nat,
             mkSchema (Some (mkTable keep (auto_increment t))) (posts d) (products d)))
  | Posts => with_table (posts d) (fun t =>
      let keep := filter (fun p => negb (id_is id (post_id p))) (rows t) in
      inr (affected (List.length (rows t) - List.length keep)%nat,
           mkSchema (users d) (Some (mkTable keep (auto_increment t))) (products d)))
  | Products => with_table (products d) (fun t =>
      let keep := filter (fun p => negb (id_is id (product_id p))) (rows t) in
      inr (affected (List.length (rows t) - List.length keep)%nat,
           mkSchema (users d) (posts d) (Some (mkTable keep (auto_increment t)))))
  end.

(** [run_stmt st args d]: the statement with its placeholders bound to
    [args].  A statement that fails leaves the schema as it was. *)
Definition run_stmt (st : stmt) (args : list value) (d : schema)
  : mysql_error + (reply * schema) :=
  match st, args with
  | SelectAll tn, [] =>
      select_from tn (fun _ => true) (fun _ => true) (fun _ => true) d
  | SelectById tn, [id] =>
      select_from tn (fun u => id_is id (user_id u)) (fun p => id_is id (post_id p))
                  (fun p => id_is id (product_id p)) d
  | SelectUserByEmail, [e] =>
      select_from Users (fun u => text_is e (user_email u))
                  (fun _ => false) (fun _ => false) d
  | SelectPostsByUserId, [uid] =>
      select_from Posts (fun _ => false) (fun p => id_is uid (post_user_id p))
                  (fun _ => false) d
  | InsertUser, [n; e; p] => insert_user n e p d
  | InsertPost, [t; c; u] => insert_post t c u d
  | InsertProduct, [n; ds; p; q] => insert_product n ds p q d
  | UpdateUser l, _ => update_users l args d
  | UpdateProduct, [n; ds; p; q; id] => update_products n ds p q id d
  | DeleteById tn, [id] => delete_by_id tn id d
  | _, _ => inl ParamsMismatch
  end.

(** [cursor.execute(query, params)] and [cursor.execute(query)] as the
    session sees them.  With parameters the driver replaces each [%s] and
    refuses a wrong number of parameters; without parameters the text goes to
    the server as it is, where a remaining [%s] is a syntax error.  The
    driver treats an empty parameter tuple like no parameters. *)
Definition run_text (query : string) (params : option (list value)) (s : server)
  : mysql_error + (reply * server) :=
  match parse query with
  | None => inl ER_PARSE_ERROR
  | Some st =>
      let args := match params with Some l => l | None => [] end in
      match args with
      | [] =>
          if Nat.eqb (placeholders st) 0 then
            match s with
            | None => inl ER_NO_DB_ERROR
            | Some d => r <-! run_stmt st [] d ; inr (fst r, Some (snd r))
            end
          else inl ER_PARSE_ERROR
      | _ :: _ =>
          if Nat.eqb (placeholders st) (List.length args) then
            match s with
            | None => inl ER_NO_DB_ERROR
            | Some d => r <-! run_stmt st args d ; inr (fst r, Some (snd r))
            end
          else inl ParamsMismatch
      end
  end.

(** *** The statements of [initialize_database]

    Their texts are literals of the source (DDL and multi-row inserts with
    literal values); they are given here in parsed form. *)

Inductive script : Type :=
| CreateDatabaseIfNotExists
| UseDatabase
| CreateTableUsersIfNotExists
| CreateTablePostsIfNotExists
| CreateTableProductsIfNotExists
| InsertUsersOnDuplicateKeyUpdateName (l : list (string * string))
| InsertProducts (l : list (string * string * Z * Z))
| InsertPosts (l : list (string * string * Z)).

(** A DDL statement commits the open transaction. *)
Definition implicit_commit (st : script) : bool :=
  match st with
  | CreateDatabaseIfNotExists | CreateTableUsersIfNotExists
  | CreateTablePostsIfNotExists | CreateTableProductsIfNotExists => true
  | _ => false
  end.

(** One row of [INSERT INTO users ... ON DUPLICATE KEY UPDATE name=VALUES(name)]:
    a row whose email is taken only has its name replaced.  The counter
    moves for every row of the statement. *)
Definition upsert_user (name email password : string) (t : table user)
  : mysql_error + table user :=
  n <-! varchar (VStr name) ; e <-! varchar (VStr email) ;
  p <-! varchar (VStr password) ;
  if existsb (fun u => String.eqb (user_email u) e) (rows t) then
    inr (mkTable
           (map (fun u => if String.eqb (user_email u) e
                          then mkUser (user_id u) n (user_email u) (user_password u)
                          else u) (rows t))
           (auto_increment t + 1))
  else if existsb (fun u => Z.eqb (user_id u) (auto_increment t)) (rows t)
  then inl ER_DUP_ENTRY
  else inr (mkTable (rows t ++ [mkUser (auto_increment t) n e p])
                    (auto_increment t + 1)).

(** [passwords i]: what CONCAT(SUBSTRING(MD5(RAND()), 1, 8),
    SUBSTRING(MD5(RAND()), 1, 8)) yields for the [i]-th row. *)
Fixpoint upsert_users (l : list (string * string)) (passwords : nat -> string)
    (i : nat) (t : table user) : mysql_error + table user :=
  match l with
  | [] => inr t
  | (name, email) :: l' =>
      t' <-! upsert_user name email (passwords i) t ;
      upsert_users l' passwords (S i) t'
  end.

(** A multi-row INSERT: the rows in order; one refused row fails the whole
    statement. *)
Fixpoint insert_products (l : list (string * string * Z * Z)) (d : schema)
  : mysql_error + schema :=
  match l with
  | [] => inr d
  | (name, description, price, quantity) :: l' =>
      r <-! insert_product (VStr name) (VStr description) (VDec price)
                           (VInt quantity) d ;
      insert_products l' (snd r)
  end.

Fixpoint insert_posts (l : list (string * string * Z)) (d : schema)
  : mysql_error + schema :=
  match l with
  | [] => inr d
  | (title, content, uid) :: l' =>
      r <-! insert_post (VStr title) (VStr content) (VInt uid) d ;
      insert_posts l' (snd r)
  end.

(** A statement that needs the database to exist. *)
Definition with_database (s : server) (k : schema -> mysql_error + schema)
  : mysql_error + server :=
  match s with
  | None => inl ER_NO_DB_ERROR
  | Some d => d' <-! k d ; inr (Some d')
  end.

(** One statement of the bootstrap on the session's view of the server.
    The posts table refers to the users table, which must exist when the
    posts table is created. *)
Definition run_script (st : script) (passwords : nat -> string) (s : server)
  : mysql_error + server :=
  match st with
  | CreateDatabaseIfNotExists =>
      inr (match s with None => Some empty_schema | Some d => Some d end)
  | UseDatabase =>
      match s with None => inl ER_BAD_DB_ERROR | Some d => inr (Some d) end
  | CreateTableUsersIfNotExists =>
      with_database s (fun d =>
        inr (match users d with
             | Some _ => d
             | None => mkSchema (Some empty_table) (posts d) (products d)
             end))
  | CreateTablePostsIfNotExists =>
      with_database s (fun d =>
        match posts d, users d with
        | Some _, _ => inr d
        | None, Some _ => inr (mkSchema (users d) (Some empty_table) (products d))
        | None, None => inl ER_NO_SUCH_TABLE
        end)
  | CreateTableProductsIfNotExists =>
      with_database s (fun d =>
        inr (match products d with
             | Some _ => d
             | None => mkSchema (users d) (posts d) (Some empty_table)
             end))
  | InsertUsersOnDuplicateKeyUpdateName l =>
      with_database s (fun d =>
        with_table (users d) (fun t =>
          t' <-! upsert_users l passwords 0 t ;
          inr (mkSchema (Some t') (posts d) (products d))))
  | InsertProducts l => with_database s (insert_products l)
  | InsertPosts l => with_database s (insert_posts l)
  end.

End Engine.

Import Engine.

(** ** The driver, as the Python code sees it *)

(** How the infrastructure behaves during one call of a [DatabaseManager]
    method: which driver calls raise a [mysql.connector.Error], what
    [connection.is_connected()] answers, and what the server's RAND() draws.
    Every combination is possible. *)
Record Env : Type := mkEnv {
  connect_error : option mysql_error;        (* mysql.connector.connect(...) *)
  connected_at_start : bool;                 (* is_connected() after connecting *)
  cursor_error : option mysql_error;         (* connection.cursor(...) *)
  execute_error : nat -> option mysql_error; (* the n-th cursor.execute(...) *)
  finish_error : option mysql_error;         (* commit(), fetchone(), fetchall() *)
  connected_at_exit : bool;                  (* is_connected() in the finally block *)
  random_passwords : nat -> string
}.

(** Resources acquired and released, oldest first. *)
Inductive event : Type :=
| ConnectionOpened
| CursorOpened
| CursorClosed
| ConnectionClosed.

Inductive MySQLConnection : Type := Connection.

(** The state of one method call: the engine, and the locals [connection]
    and [cursor] of the method. *)
Record frame : Type := mkFrame {
  committed : server;          (* what the engine holds durably *)
  connection : option server;  (* unbound, or open with the session's uncommitted view *)
  cursor : option reply;       (* unbound, or a cursor with the reply to its last statement *)
  executed : nat;              (* cursor.execute calls made so far *)
  trace : list event
}.

Definition py (A : Type) : Type := frame -> outcome A * frame.

Definition ret {A : Type} (a : A) : py A := fun f => (Return a, f).

Definition raise {A : Type} (e : exn) : py A := fun f => (Raise e, f).

Definition bind {A B : Type} (m : py A) (k : A -> py B) : py B :=
  fun f =>
    match m f with
    | (Return a, f') => k a f'
    | (Raise e, f') => (Raise e, f')
    end.

Notation "x <- m ;; k" := (bind m (fun x => k))
  (at level 61, m at next level, right associativity).
Notation "m ;; k" := (bind m (fun _ => k))
  (at level 61, right associativity).

(** [try: body / except Error as e: handler e]: other exceptions pass. *)
Definition try_except {A : Type} (body : py A) (handler : mysql_error -> py A)
  : py A :=
  fun f =>
    match body f with
    | (Raise (Error e), f') => handler e f'
    | r => r
    end.

(** [try: body / finally: final]: [final] runs on every exit of [body]; an
    exception of [final] replaces the result of [body]. *)
Definition try_finally {A : Type} (body : py A) (final : py unit) : py A :=
  fun f =>
    let (r, f1) := body f in
    match final f1 with
    | (Return _, f2) => (r, f2)
    | (Raise e, f2) => (Raise e, f2)
    end.

Definition note (e : event) (f : frame) : list event := trace f ++ [e].

(** [mysql.connector.connect(host, port, user, password[, database])] *)
Definition mysql_connect (env : Env) (database : bool) : py MySQLConnection :=
  fun f =>
    match connect_error env with
    | Some e => (Raise (Error e), f)
    | None =>
        match database, committed f with
        | true, None => (Raise (Error ER_BAD_DB_ERROR), f)
        | _, _ =>
            (Return Connection,
             mkFrame (committed f) (Some (committed f)) (cursor f) (executed f)
                     (note ConnectionOpened f))
        end
    end.

(** [cursor = connection.cursor(...)].  Rows are dictionaries in the model
    whether or not [dictionary=True] is passed. *)
Definition connection_cursor (env : Env) : py unit :=
  fun f =>
    match cursor_error env with
    | Some e => (Raise (Error e), f)
    | None =>
        (Return tt,
         mkFrame (committed f) (connection f) (Some (mkReply (-1) None))
                 (executed f) (note CursorOpened f))
    end.

Definition session_view (f : frame) : server :=
  match connection f with
  | Some s => s
  | None => None
  end.

(** [cursor.execute(query, params)]; [params = None] is [cursor.execute(query)]. *)
Definition cursor_execute (env : Env) (query : string)
    (params : option (list value)) : py unit :=
  fun f =>
    match execute_error env (executed f) with
    | Some e =>
        (Raise (Error e),
         mkFrame (committed f) (connection f) (cursor f) (S (executed f)) (trace f))
    | None =>
        match run_text query params (session_view f) with
        | inl e =>
            (Raise (Error e),
             mkFrame (committed f) (connection f) (cursor f) (S (executed f)) (trace f))
        | inr (r, s') =>
            (Return tt,
             mkFrame (committed f) (Some s') (Some r) (S (executed f)) (trace f))
        end
    end.

(** [cursor.execute(text)] for a statement of the bootstrap. *)
Definition cursor_execute_script (env : Env) (st : script) : py unit :=
  fun f =>
    match execute_error env (executed f) with
    | Some e =>
        (Raise (Error e),
         mkFrame (committed f) (connection f) (cursor f) (S (executed f)) (trace f))
    | None =>
        match run_script st (random_passwords env) (session_view f) with
        | inl e =>
            (Raise (Error e),
             mkFrame (committed f) (connection f) (cursor f) (S (executed f)) (trace f))
        | inr s' =>
            (Return tt,
             mkFrame (if implicit_commit st then s' else committed f) (Some s')
                     (Some (mkReply 0 None)) (S (executed f)) (trace f))
        end
    end.

(** [connection.commit()] *)
Definition connection_commit (env : Env) : py unit :=
  fun f =>
    match finish_error env with
    | Some e => (Raise (Error e), f)
    | None =>
        (Return tt,
         mkFrame (session_view f) (connection f) (cursor f) (executed f) (trace f))
    end.

Definition fetch {A : Type} (env : Env) (pick : list row -> A) : py A :=
  fun f =>
    match finish_error env with
    | Some e => (Raise (Error e), f)
    | None =>
        match cursor f with
        | Some (mkReply _ (Some l)) => (Return (pick l), f)
        | _ => (Raise (Error NoResultSet), f)
        end
    end.

(** [cursor.fetchone()]: the first row, or Python's [None]. *)
Definition cursor_fetchone (env : Env) : py (option row) := fetch env (@hd_error row).

(** [cursor.fetchall()] *)
Definition cursor_fetchall (env : Env) : py (list row) := fetch env (fun l => l).

(** [connection.is_connected()] never raises. *)
Definition is_connected (answer : bool) : py bool := ret answer.

(** [cursor.close()]: reading the local [cursor] while it is unbound raises. *)
Definition cursor_close : py unit :=
  fun f =>
    match cursor f with
    | None => (Raise (UnboundLocalError "cursor"), f)
    | Some _ =>
        (Return tt,
         mkFrame (committed f) (connection f) (cursor f) (executed f)
                 (note CursorClosed f))
    end.

(** [connection.close()]: what the session did not commit is lost with it. *)
Definition connection_close : py unit :=
  fun f =>
    (Return tt,
     mkFrame (committed f) (connection f) (cursor f) (executed f)
             (note ConnectionClosed f)).

(** What a method call leaves behind: its result or exception, the engine's
    durable state, and the resources it acquired and released. *)
Record call (A : Type) : Type := mkCall {
  result : outcome A;
  db_after : server;
  events : list event
}.
Arguments mkCall {A} result db_after events.
Arguments result {A} c.
Arguments db_after {A} c.
Arguments events {A} c.

Definition run {A : Type} (m : py A) (s : server) : call A :=
  let (r, f) := m (mkFrame s None None 0 []) in
  mkCall r (committed f) (trace f).

(** ** db/core.py: DatabaseManager *)

(** Truth value of the [params] argument: [None] and the empty tuple are
    false. *)
Definition truthy (params : option (list value)) : bool :=
  match params with
  | Some (_ :: _) => true
  | _ => false
  end.

Definition get_connection_py (env : Env) : py (option MySQLConnection) :=
  try_except
    (connection <- mysql_connect env true ;;
     ret (Some connection))
    (fun e => ret None).

Definition execute_query_py (env : Env) (query : string)
    (params : option (list value)) : py bool :=
  connection <- get_connection_py env ;;
  match connection with
  | None => ret false
  | Some _ =>
      try_finally
        (try_except
           (connection_cursor env ;;
            (if truthy params then cursor_execute env query params
             else cursor_execute env query None) ;;
            connection_commit env ;;
            ret true)
           (fun e => ret false))
        (connected <- is_connected (connected_at_exit env) ;;
         if connected then cursor_close ;; connection_close else ret tt)
  end.

Definition fetch_one_py (env : Env) (query : string)
    (params : option (list value)) : py (option row) :=
  connection <- get_connection_py env ;;
  match connection with
  | None => ret None
  | Some _ =>
      try_finally
        (try_except
           (connection_cursor env ;;
            (if truthy params then cursor_execute env query params
             else cursor_execute env query None) ;;
            result <- cursor_fetchone env ;;
            ret result)
           (fun e => ret None))
        (connected <- is_connected (connected_at_exit env) ;;
         if connected then cursor_close ;; connection_close else ret tt)
  end.

Definition fetch_all_py (env : Env) (query : string)
    (params : option (list value)) : py (list row) :=
  connection <- get_connection_py env ;;
  match connection with
  | None => ret []
  | Some _ =>
      try_finally
        (try_except
           (connection_cursor env ;;
            (if truthy params then cursor_execute env query params
             else cursor_execute env query None) ;;
            result <- cursor_fetchall env ;;
            ret result)
           (fun e => ret []))
        (connected <- is_connected (connected_at_exit env) ;;
         if connected then cursor_close ;; connection_close else ret tt)
  end.

Definition get_connection (env : Env) (s : server) : call (option MySQLConnection) :=
  run (get_connection_py env) s.

Definition execute_query (env : Env) (query : string)
    (params : option (list value)) (s : server) : call bool :=
  run (execute_query_py env query params) s.

Definition fetch_one (env : Env) (query : string)
    (params : option (list value)) (s : server) : call (option row) :=
  run (fetch_one_py env query params) s.

Definition fetch_all (env : Env) (query : string)
    (params : option (list value)) (s : server) : call (list row) :=
  run (fetch_all_py env query params) s.

(** *** initialize_database *)

(** The rows of the three seeding statements: name and email of the users
    (the password is drawn by the server); name, description, price in
    hundredths and quantity of the products; title, content and user_id of
    the posts. *)
Definition seeded_users : list (string * string) :=
  [ ("John Doe", "john.doe@example.com");
    ("Jane Smith", "jane.smith@example.com");
    ("Bob Johnson", "bob.johnson@example.com");
    ("Alice Brown", "alice.brown@example.com");
    ("Charlie Wilson", "charlie.wilson@example.com") ].

Definition seeded_products : list (string * string * Z * Z) :=
  [ ("MacBook Pro 16 inch", "Apple MacBook Pro with M3 chip, 16GB RAM, 512GB SSD",
     249900, 25);
    ("Dell XPS 13", "Ultra-portable laptop with Intel i7, 16GB RAM, 1TB SSD",
     129900, 40);
    ("iPhone 15 Pro", "Latest iPhone with A17 Pro chip, 128GB storage, Titanium design",
     99900, 75);
    ("Samsung Galaxy S24", "Android flagship with 256GB storage and advanced camera system",
     89900, 60);
    ("Sony WH-1000XM5", "Premium noise-canceling wireless headphones", 39900, 120) ].

(** The source binds [load_posts_db_data] twice; these are the rows of the
    second binding, the one in force when the statement is executed. *)
Definition seeded_posts : list (string * string * Z) :=
  [ ("My Journey with FastAPI",
     "John shares his experience building scalable APIs with FastAPI and the lessons learned along the way",
     1);
    ("Designing User-Centric Databases",
     "Jane discusses her approach to creating database schemas that prioritize user experience and performance",
     1);
    ("Advanced Python Patterns I Use Daily",
     "Bob reveals the Python techniques and patterns that have transformed his development workflow",
     3);
    ("Building Modern Web Apps: My Story",
     "Alice walks through her process of creating full-stack applications using cutting-edge technologies",
     4);
    ("How I Secure My APIs",
     "Charlie explains his comprehensive approach to API security and the tools he relies on",
     1) ].

Definition load_users_db_data : script :=
  InsertUsersOnDuplicateKeyUpdateName seeded_users.

Definition load_products_db_data : script := InsertProducts seeded_products.

Definition load_posts_db_data : script := InsertPosts seeded_posts.

(** ["connection" in locals()] *)
Definition connection_in_locals : py bool :=
  fun f =>
    (Return (match connection f with Some _ => true | None => false end), f).

(** Returns [Some true], [Some false], or Python's [None] when the first
    [is_connected()] answers no. *)
Definition initialize_database_py (env : Env) : py (option bool) :=
  try_finally
    (try_except
       (connection <- mysql_connect env false ;;
        connected <- is_connected (connected_at_start env) ;;
        if connected then
          connection_cursor env ;;
          cursor_execute_script env CreateDatabaseIfNotExists ;;
          cursor_execute_script env UseDatabase ;;
          cursor_execute_script env CreateTableUsersIfNotExists ;;
          cursor_execute_script env CreateTablePostsIfNotExists ;;
          cursor_execute_script env CreateTableProductsIfNotExists ;;
          cursor_execute_script env load_users_db_data ;;
          cursor_execute_script env load_products_db_data ;;
          cursor_execute_script env load_posts_db_data ;;
          connection_commit env ;;
          ret (Some true)
        else ret None)
       (fun e => ret (Some false)))
    (bound <- connection_in_locals ;;
     connected <- (if bound then is_connected (connected_at_exit env) else ret false) ;;
     if connected then cursor_close ;; connection_close else ret tt).

Definition initialize_database (env : Env) (s : server) : call (option bool) :=
  run (initialize_database_py env) s.

(** ** db/users.py: UserCRUD *)

(** A Python [dict] with string keys, in insertion order. *)
Definition dict : Type := list (string * value).

Definition keys (data : dict) : list string := map fst data.
Definition values (data : dict) : list value := map snd data.

Definition create_user (env : Env) (name email password : string) (s : server)
  : call bool :=
  execute_query env "INSERT INTO users (name, email, password) VALUES (%s, %s, %s)"
                (Some [VStr name; VStr email; VStr password]) s.

Definition get_user_by_id (env : Env) (user_id : Z) (s : server)
  : call (option row) :=
  fetch_one env "SELECT * FROM users WHERE id = %s" (Some [VInt user_id]) s.

Definition get_user_by_email (env : Env) (email : string) (s : server)
  : call (option row) :=
  fetch_one env "SELECT * FROM users WHERE email = %s" (Some [VStr email]) s.

Definition get_all_users (env : Env) (s : server) : call (list row) :=
  fetch_all env "SELECT * FROM users" None s.

Definition set_clause (data : dict) : string :=
  String.concat ", " (map (fun key => key ++ " = %s") (keys data)).

Definition update_user_query (data : dict) : string :=
  "UPDATE users SET " ++ set_clause data ++ " WHERE id = %s".

Definition update_user_values (user_id : Z) (data : dict) : list value :=
  values data ++ [VInt user_id].

Definition update_user (env : Env) (user_id : Z) (data : dict) (s : server)
  : call bool :=
  execute_query env (update_user_query data) (Some (update_user_values user_id data)) s.

Definition delete_user (env : Env) (user_id : Z) (s : server) : call bool :=
  execute_query env "DELETE FROM users WHERE id = %s" (Some [VInt user_id]) s.

(** ** db/product.py: ProductCRUD *)

Definition get_all_products (env : Env) (s : server) : call (list row) :=
  fetch_all env "SELECT * FROM products" None s.

Definition get_product (env : Env) (product_id : Z) (s : server)
  : call (option row) :=
  fetch_one env "SELECT * FROM products WHERE id = %s" (Some [VInt product_id]) s.

(** [price] is in hundredths. *)
Definition create_product (env : Env) (name description : string)
    (price quantity : Z) (is_admin : bool) (s : server) : call bool :=
  if negb is_admin then
    mkCall (Raise (PermissionError "Admin access required to create products")) s []
  else
    execute_query env
      "INSERT INTO products (name, description, price, quantity) VALUES (%s, %s, %s, %s)"
      (Some [VStr name; VStr description; VDec price; VInt quantity]) s.

Definition update_product (env : Env) (product_id : Z) (name description : string)
    (price quantity : Z) (s : server) : call bool :=
  execute_query env
    "UPDATE products SET name = %s, description = %s, price = %s, quantity = %s WHERE id = %s"
    (Some [VStr name; VStr description; VDec price; VInt quantity; VInt product_id]) s.

Definition delete_product (env : Env) (product_id : Z) (s : server) : call bool :=
  execute_query env "DELETE FROM products WHERE id = %s" (Some [VInt product_id]) s.

(** ** db/posts.py: PostCRUD (it has no update and no delete) *)

Definition get_all_posts (env : Env) (s : server) : call (list row) :=
  fetch_all env "SELECT * FROM posts" None s.

Definition get_post_by_id (env : Env) (post_id : Z) (s : server)
  : call (option row) :=
  fetch_one env "SELECT * FROM posts WHERE id = %s" (Some [VInt post_id]) s.

Definition get_posts_by_user_id (env : Env) (user_id : Z) (s : server)
  : call (list row) :=
  fetch_all env "SELECT * FROM posts WHERE user_id = %s" (Some [VInt user_id]) s.

Definition create_post (env : Env) (title content : string) (user_id : Z)
    (s : server) : call bool :=
  execute_query env "INSERT INTO posts (title, content, user_id) VALUES (%s, %s, %s)"
                (Some [VStr title; VStr content; VInt user_id]) s.

(** ** Environments and states used in examples *)

(** Nothing fails; RAND() draws the same text for every row. *)
Definition calm : Env :=
  mkEnv None true None (fun _ => None) None true (fun _ => "0123456789abcdef").

(** The link is lost while the statement runs. *)
Definition link_lost_at_execute : Env :=
  mkEnv None true None (fun _ => Some CR_SERVER_LOST) None false
        (fun _ => "0123456789abcdef").

(** Cursor creation raises although the connection stays connected. *)
Definition cursor_refused : Env :=
  mkEnv None true (Some CR_SERVER_LOST) (fun _ => None) None true
        (fun _ => "0123456789abcdef").

Definition unreachable : Env :=
  mkEnv (Some CR_CONN_HOST_ERROR) true None (fun _ => None) None true
        (fun _ => "0123456789abcdef").

Definition access_denied : Env :=
  mkEnv (Some ER_ACCESS_DENIED_ERROR) true None (fun _ => None) None true
        (fun _ => "0123456789abcdef").

(** The database after one [initialize_database] on a server without it. *)
Definition seeded : server := db_after (initialize_database calm None).

(** * Vocabulary of the properties *)

(** The parameters that reach [cursor.execute]. *)
Definition sent (params : option (list value)) : option (list value) :=
  if truthy params then params else None.

(** The events of a call that created its cursor. *)
Definition with_cursor (env : Env) : list event :=
  if connected_at_exit env
  then [ConnectionOpened; CursorOpened; CursorClosed; ConnectionClosed]
  else [ConnectionOpened; CursorOpened].

(** The finally block reads [cursor] although [connection.cursor()] raised. *)
Definition cursor_slip (env : Env) : bool :=
  match cursor_error env with
  | Some _ => connected_at_exit env
  | None => false
  end.

(** The connection of [get_connection] opens. *)
Definition opens (env : Env) (s : server) : bool :=
  match connect_error env, s with
  | None, Some _ => true
  | _, _ => false
  end.

(** What a call yields when [connection.cursor()] raises. *)
Definition without_cursor {A : Type} (env : Env) (fallback : A) (s : server)
  : call A :=
  if connected_at_exit env
  then mkCall (Raise (UnboundLocalError "cursor")) s [ConnectionOpened]
  else mkCall (Return fallback) s [ConnectionOpened].

(** The rows a fetch primitive reads when nothing fails; [None] when the
    statement, the link or the fetch fails. *)
Definition rows_read (env : Env) (query : string) (params : option (list value))
    (s : server) : option (list row) :=
  match execute_error env 0, run_text query (sent params) s, finish_error env with
  | None, inr (mkReply _ (Some l), _), None => Some l
  | _, _, _ => None
  end.

(** Release on every exit path: whatever the call opened, it also closed. *)
Definition releases_what_it_acquired {A : Type} (c : call A) : Prop :=
  (In ConnectionOpened (events c) -> In ConnectionClosed (events c)) /\
  (In CursorOpened (events c) -> In CursorClosed (events c)).

(** The release discipline of one call: nothing acquired when the connection
    does not open; cursor and connection closed, in that order, whenever the
    cursor was created and the connection still answers connected; nothing
    closed once the connection no longer answers connected. *)
Definition scoped_release {A : Type} (env : Env) (s : server) (c : call A) : Prop :=
  (opens env s = false -> events c = [] /\ exists a, result c = Return a) /\
  (opens env s = true -> cursor_error env = None -> connected_at_exit env = true ->
     events c = [ConnectionOpened; CursorOpened; CursorClosed; ConnectionClosed] /\
     exists a, result c = Return a) /\
  (opens env s = true -> connected_at_exit env = false ->
     ~ In CursorClosed (events c) /\ ~ In ConnectionClosed (events c) /\
     exists a, result c = Return a).

(** The statement ran and was committed: its reply and the engine's new
    state; [None] when the statement, the link or the commit failed. *)
Definition committed_reply (env : Env) (query : string)
    (params : option (list value)) (s : server) : option (reply * server) :=
  match execute_error env 0, run_text query (sent params) s, finish_error env with
  | None, inr rs, None => Some rs
  | _, _, _ => None
  end.

(** The statement text of [create_product]. *)
Definition insert_product_text : string :=
  "INSERT INTO products (name, description, price, quantity) VALUES (%s, %s, %s, %s)".

(** The tokens of an assignment list whose right-hand sides are all [%s]. *)
Fixpoint assignment_tokens (cols : list ucol) : list token :=
  match cols with
  | [] => []
  | [c] => [TWord (ucol_name c); TEq; TParam]
  | c :: cols' => TWord (ucol_name c) :: TEq :: TParam :: TComma :: assignment_tokens cols'
  end.

(** What one row may look like after the UPDATE built from [data] for [uid]. *)
Definition updated_as (uid : Z) (data : dict) (u u' : user) : Prop :=
  if Z.eqb (user_id u) uid then
    (forall k v, In (k, v) data ->
       exists c, ucol_of k = Some c /\ ucol_value c u' = v) /\
    (forall c, ~ In (ucol_name c) (keys data) -> ucol_value c u' = ucol_value c u)
  else u' = u.

(** A field map with one key that is not a column name. *)
Definition raw_key_map : dict := [("name = email, password", VStr "s3cret-pw")].

(** The statements of the bootstrap, in the order of the calls. *)
Definition bootstrap : list script :=
  [ CreateDatabaseIfNotExists; UseDatabase;
    CreateTableUsersIfNotExists; CreateTablePostsIfNotExists;
    CreateTableProductsIfNotExists;
    load_users_db_data; load_products_db_data; load_posts_db_data ].

(** The statements one after the other; the first error ends the run. *)
Fixpoint run_scripts (l : list script) (passwords : nat -> string) (s : server)
  : mysql_error + server :=
  match l with
  | [] => inr s
  | st :: l' => s' <-! run_script st passwords s ; run_scripts l' passwords s'
  end.

(** The tables of a server; a missing database or table counts as empty. *)
Definition tables_of (s : server) : schema :=
  match s with
  | Some d => d
  | None => empty_schema
  end.

Definition or_empty {R : Type} (t : option (table R)) : table R :=
  match t with
  | Some x => x
  | None => empty_table
  end.

Definition users_of (s : server) : list user := rows (or_empty (users (tables_of s))).
Definition products_of (s : server) : list product :=
  rows (or_empty (products (tables_of s))).
Definition posts_of (s : server) : list post := rows (or_empty (posts (tables_of s))).

(** ON DUPLICATE KEY UPDATE name=VALUES(name), for one row of the table. *)
Definition rename (n e : string) (u : user) : user :=
  if String.eqb (user_email u) e
  then mkUser (user_id u) n (user_email u) (user_password u)
  else u.

(** The table has a row for [e], and every such row is named [n]. *)
Definition named (n e : string) (l : list user) : Prop :=
  In e (map user_email l) /\
  forall u, In u l -> user_email u = e -> user_name u = n.

(** The row carries these column values (the id apart). *)
Definition product_is (key : string * string * Z * Z) (r : product) : bool :=
  let '(n, ds, p, q) := key in
  String.eqb (product_name r) n && String.eqb (product_description r) ds
  && Z.eqb (product_price r) p && Z.eqb (product_quantity r) q.

Definition post_is (key : string * string * Z) (r : post) : bool :=
  let '(t, c, u) := key in
  String.eqb (post_title r) t && String.eqb (post_content r) c
  && Z.eqb (post_user_id r) u.

(** Number of rows of the table that carry the given column values. *)
Definition count_products (key : string * string * Z * Z) (s : server) : nat :=
  List.length (filter (product_is key) (products_of s)).

Definition count_posts (key : string * string * Z) (s : server) : nat :=
  List.length (filter (post_is key) (posts_of s)).

Definition count_in {R : Type} (hit : R -> bool) (t : option (table R)) : nat :=
  List.length (filter hit (rows (or_empty t))).

(** A seeded tuple as a row, before the engine gives it an id. *)
Definition as_product (c : string * string * Z * Z) : product :=
  let '(n, ds, p, q) := c in mkProduct 0 n ds p q.

Definition as_post (c : string * string * Z) : post :=
  let '(t, ct, u) := c in mkPost 0 t ct u.

(** * More of the code *)

(** ** db/core.py: clean_db *)

(** [cursor.execute(f"DROP DATABASE IF EXISTS {self.database}")]: a DDL
    statement, durable as soon as it has run. *)
Definition cursor_execute_drop_database (env : Env) : py unit :=
  fun f =>
    match execute_error env (executed f) with
    | Some e =>
        (Raise (Error e),
         mkFrame (committed f) (connection f) (cursor f) (S (executed f)) (trace f))
    | None =>
        (Return tt,
         mkFrame None (Some None) (Some (mkReply 0 None)) (S (executed f)) (trace f))
    end.

(** A method of the manager called from inside another method: it works on
    the engine's durable state with a frame of its own. *)
Definition call_method {A : Type} (m : server -> call A) : py A :=
  fun f =>
    let c := m (committed f) in
    (result c,
     mkFrame (db_after c) (connection f) (cursor f) (executed f)
             (trace f ++ events c)).

(** [env] is the environment of [clean_db]'s own connection, [env_init] the
    one of the [initialize_database] it calls. *)
Definition clean_db_py (env env_init : Env) : py (option bool) :=
  try_finally
    (try_except
       (connection <- mysql_connect env false ;;
        connected <- is_connected (connected_at_start env) ;;
        if connected then
          connection_cursor env ;;
          cursor_execute_drop_database env ;;
          connection_commit env ;;
          initialize_success <- call_method (initialize_database env_init) ;;
          ret initialize_success
        else ret None)
       (fun e => ret (Some false)))
    (bound <- connection_in_locals ;;
     connected <- (if bound then is_connected (connected_at_exit env) else ret false) ;;
     if connected then cursor_close ;; connection_close else ret tt).

Definition clean_db (env env_init : Env) (s : server) : call (option bool) :=
  run (clean_db_py env env_init) s.

(** ** db/core.py: from_env *)

Module Config.

Record DatabaseManager : Type := mkManager {
  host : string;
  port : Z;
  user : string;
  password : string;
  database : string
}.

(** [if not value]: [None] and the empty string are false. *)
Definition set_and_not_empty (value : option string) : option string :=
  match value with
  | Some (String c s) => Some (String c s)
  | _ => None
  end.

(** [getenv] is [os.getenv] once [load_dotenv()] has run; [int] is
    Python's [int] on a string, [None] where it raises ValueError.  The
    result is the manager, or the message of the ValueError raised. *)
Definition from_env (int : string -> option Z) (getenv : string -> option string)
  : string + DatabaseManager :=
  let host := getenv "DB_HOST" in
  let port_str := getenv "DB_PORT" in
  let user := getenv "DB_USER" in
  let password := getenv "DB_PASSWORD" in
  let database := getenv "DB_NAME" in
  match set_and_not_empty host with
  | None => inl "DB_HOST environment variable must be set"
  | Some host =>
  match set_and_not_empty port_str with
  | None => inl "DB_PORT environment variable must be set"
  | Some port_str =>
  match set_and_not_empty user with
  | None => inl "DB_USER environment variable must be set"
  | Some user =>
  match set_and_not_empty password with
  | None => inl "DB_PASSWORD environment variable must be set"
  | Some password =>
  match set_and_not_empty database with
  | None => inl "DB_NAME environment variable must be set"
  | Some database =>
  match int port_str with
  | None => inl "DB_PORT must be a valid integer"
  | Some port => inr (mkManager host port user password database)
  end end end end end end.

End Config.

(** ** Sequences of method calls *)

(** A procedure that calls methods of the manager one after the other. *)
Definition proc (A : Type) : Type := server -> call A.

Definition done {A : Type} (a : A) : proc A := fun s => mkCall (Return a) s [].

(** [c] and then [k] on its value; an exception of [c] ends the sequence. *)
Definition and_then {A B : Type} (c : proc A) (k : A -> proc B) : proc B :=
  fun s =>
    let c1 := c s in
    match result c1 with
    | Return a =>
        let c2 := k a (db_after c1) in
        mkCall (result c2) (db_after c2) (events c1 ++ events c2)
    | Raise e => mkCall (Raise e) (db_after c1) (events c1)
    end.

(** ** routes: the handlers, as called with a validated model *)

(** The dictionaries the handlers return. *)
Inductive body : Type :=
| Message (text : string)                  (* {"message": text} *)
| Rows (key : string) (l : list row)       (* {key: [row, ...]} *)
| Item (key : string) (r : option row).    (* {key: row} or {key: None} *)

Module RoutesUsers.

Record User : Type := {
  name : string;
  email : string;
  password : string
}.

Definition list_users (env : Env) : proc body :=
  and_then (get_all_users env) (fun users => done (Rows "users" users)).

Definition get_user (env : Env) (user_id : Z) : proc body :=
  and_then (get_user_by_id env user_id) (fun user => done (Item "user" user)).

Definition create_user (env : Env) (user : User) : proc body :=
  and_then (create_user env (name user) (email user) (password user))
           (fun _ => done (Message "User created")).

Definition update_user (env : Env) (user_id : Z) (user : User) : proc body :=
  let data := [("name", VStr (name user)); ("email", VStr (email user));
               ("password", VStr (password user))] in
  and_then (update_user env user_id data) (fun _ => done (Message "User updated")).

End RoutesUsers.

Module RoutesProduct.

(** [price] is in hundredths. *)
Record Product : Type := {
  name : string;
  description : string;
  price : Z;
  quantity : Z
}.

Definition list_products (env : Env) : proc body :=
  and_then (get_all_products env) (fun products => done (Rows "Products" products)).

Definition get_product (env : Env) (product_id : Z) : proc body :=
  and_then (get_product env product_id) (fun product => done (Item "Product" product)).

(** The facade is called without [is_admin], which defaults to [False]. *)
Definition create_product (env : Env) (product : Product) : proc body :=
  and_then (create_product env (name product) (description product) (price product)
                           (quantity product) false)
           (fun _ => done (Message "Product created")).

Definition update_product (env : Env) (product_id : Z) (product : Product) : proc body :=
  and_then (update_product env product_id (name product) (description product)
                           (price product) (quantity product))
           (fun _ => done (Message "Product updated")).

Definition delete_product (env : Env) (product_id : Z) : proc body :=
  and_then (delete_product env product_id) (fun _ => done (Message "Product deleted")).

End RoutesProduct.

Module RoutesPosts.

(** [created_at] and [updated_at] are timestamps no handler reads.  The
    handlers [update_post] and [delete_post] call methods that [PostCRUD]
    does not define; they are left out. *)
Record Post : Type := {
  post_id : Z;
  title : string;
  content : string;
  user_id : Z;
  created_at : Z;
  updated_at : Z
}.

Definition list_posts (env : Env) : proc body :=
  and_then (get_all_posts env) (fun posts => done (Rows "posts" posts)).

Definition get_post (env : Env) (post_id : Z) : proc body :=
  and_then (get_post_by_id env post_id) (fun post => done (Item "post" post)).

Definition create_post (env : Env) (post : Post) : proc body :=
  and_then (create_post env (title post) (content post) (user_id post))
           (fun _ => done (Message "Post created")).

Definition get_posts_by_user (env : Env) (user_id : Z) : proc body :=
  and_then (get_posts_by_user_id env user_id) (fun posts => done (Rows "posts" posts)).

End RoutesPosts.

(** ** init_db.py *)

Module Cli.

(** The flags of the command line. *)
Record Args : Type := {
  clean : bool;
  status : bool;
  force : bool
}.

(** What [input(...).lower().strip()] yields: the answer in lower case
    without surrounding blanks, or a KeyboardInterrupt. *)
Inductive typed : Type :=
| Answer (confirm : string)
| KeyboardInterrupt.

(** The environments of the method calls of one run of the script. *)
Record Infra : Type := {
  at_count_users : Env;       (* get_all_users in clean_and_reinitialize *)
  at_count_products : Env;    (* get_all_products in clean_and_reinitialize *)
  at_clean : Env;             (* clean_db's own connection *)
  at_initialize : Env;        (* initialize_database *)
  at_status_users : Env;      (* get_all_users in check_database_status *)
  at_status_products : Env    (* get_all_products in check_database_status *)
}.

Definition initialize_database (infra : Infra) : proc (option bool) :=
  and_then (initialize_database (at_initialize infra)) (fun success => done success).

(** [confirm not in ["yes", "y"]] *)
Definition declined (confirm : string) : bool :=
  negb (String.eqb confirm "yes" || String.eqb confirm "y").

Definition clean_and_reinitialize (infra : Infra) (args : Args) (keyboard : typed)
  : proc (option bool) :=
  and_then (get_all_users (at_count_users infra)) (fun users =>
  and_then (get_all_products (at_count_products infra)) (fun products =>
    if negb (force args) then
      match keyboard with
      | Answer confirm =>
          if declined confirm then done (Some false)
          else
            and_then (clean_db (at_clean infra) (at_initialize infra))
                     (fun success => done success)
      | KeyboardInterrupt => done (Some false)
      end
    else
      and_then (clean_db (at_clean infra) (at_initialize infra))
               (fun success => done success))).

(** [try: ... except Exception as e: log]: nothing gets out. *)
Definition swallow {A : Type} (c : proc A) : proc unit :=
  fun s =>
    let c1 := c s in
    mkCall (Return tt) (db_after c1) (events c1).

Definition check_database_status (infra : Infra) : proc unit :=
  swallow
    (and_then (get_all_users (at_status_users infra)) (fun users =>
     and_then (get_all_products (at_status_products infra)) (fun products =>
       done tt))).

(** Truth value of the result of an operation: [None] is false. *)
Definition succeeded (success : option bool) : bool :=
  match success with
  | Some true => true
  | _ => false
  end.

(** [sys.exit(code)] ends the run; an exception that reaches the last
    [except Exception] clause ends it with status 1. *)
Definition or_exit {A : Type} (c : proc A) (ok : A -> bool) (k : proc Z) : proc Z :=
  fun s =>
    let c1 := c s in
    match result c1 with
    | Return a =>
        if ok a then
          let c2 := k (db_after c1) in
          mkCall (result c2) (db_after c2) (events c1 ++ events c2)
        else mkCall (Return 1) (db_after c1) (events c1)
    | Raise _ => mkCall (Return 1) (db_after c1) (events c1)
    end.

(** The exit status of the script: 0 when [main] returns. *)
Definition main (int : string -> option Z) (getenv : string -> option string)
    (infra : Infra) (args : Args) (keyboard : typed) : proc Z :=
  match Config.from_env int getenv with
  | inl _ => done 1
  | inr db =>
      let report :=
        if status args
        then or_exit (check_database_status infra) (fun _ => true) (done 0)
        else done 0 in
      if clean args then
        or_exit (clean_and_reinitialize infra args keyboard) succeeded report
      else if negb (status args) then
        or_exit (initialize_database infra) succeeded report
      else report
  end.

End Cli.

(** * Vocabulary of the further properties *)

(** Nothing fails on the way of one statement: the connection opens, the
    cursor is created, the statement reaches the engine, and the commit or
    fetch goes through. *)
Definition undisturbed (env : Env) : Prop :=
  connect_error env = None /\ cursor_error env = None /\
  execute_error env 0 = None /\ finish_error env = None.

(** The row a cursor returns for a user. *)
Definition user_dict (id : Z) (name email password : string) : row :=
  [("id", VInt id); ("name", VStr name); ("email", VStr email);
   ("password", VStr password)].

(** [l] begins with [p]. *)
Definition prefix {A : Type} (p l : list A) : Prop := exists rest, l = (p ++ rest)%list.

(** What re-seeding must not touch in a user row. *)
Definition credentials (u : user) : Z * string * string :=
  (user_id u, user_email u, user_password u).

(** No row in any of the three tables. *)
Definition no_rows (s : server) : Prop :=
  users_of s = [] /\ products_of s = [] /\ posts_of s = [].

(** The same rows in the three tables. *)
Definition same_rows (s s' : server) : Prop :=
  users_of s' = users_of s /\ products_of s' = products_of s /\
  posts_of s' = posts_of s.

(** A decimal reader, used where an [int] is needed in examples. *)
Fixpoint digits (acc : Z) (s : string) : option Z :=
  match s with
  | EmptyString => Some acc
  | String c s' =>
      let n := Z.of_N (N_of_ascii c) in
      if (48 <=? n) && (n <=? 57) then digits (10 * acc + (n - 48)) s' else None
  end.

Definition decimal (s : string) : option Z :=
  match s with
  | EmptyString => None
  | _ => digits 0 s
  end.

(** A complete configuration, used in examples. *)
Definition example_getenv (key : string) : option string :=
  if String.eqb key "DB_HOST" then Some "localhost"
  else if String.eqb key "DB_PORT" then Some "3306"
  else if String.eqb key "DB_USER" then Some "app"
  else if String.eqb key "DB_PASSWORD" then Some "secret"
  else if String.eqb key "DB_NAME" then Some "appdb"
  else None.

(** The elements of [l] as rows numbered from [id] on; [i] counts them. *)
Fixpoint numbered {A B : Type} (f : Z -> nat -> A -> B) (id : Z) (i : nat)
    (l : list A) : list B :=
  match l with
  | [] => []
  | a :: l' => f id i a :: numbered f (id + 1) (S i) l'
  end.

(** The seed as it sits in tables that were empty: ids from 1 on. *)
Definition fresh_users (passwords : nat -> string) : list user :=
  numbered (fun id i c => mkUser id (fst c) (snd c) (passwords i)) 1 0 seeded_users.

Definition fresh_products : list product :=
  numbered (fun id _ c =>
              mkProduct id (fst (fst (fst c))) (snd (fst (fst c))) (snd (fst c)) (snd c))
           1 0 seeded_products.

Definition fresh_posts : list post :=
  numbered (fun id _ c => mkPost id (fst (fst c)) (snd (fst c)) (snd c)) 1 0 seeded_posts.

(** The tables of [seeded], written out. *)
Definition seeded_schema : schema := Eval vm_compute in tables_of seeded.

Definition calm_infra : Cli.Infra :=
  {| Cli.at_count_users := calm; Cli.at_count_products := calm;
     Cli.at_clean := calm; Cli.at_initialize := calm;
     Cli.at_status_users := calm; Cli.at_status_products := calm |}.

(** * Properties *)

(** ** The three primitives, path by path *)

Ltac unfold_py :=
  cbv [get_connection execute_query fetch_one fetch_all run
       get_connection_py execute_query_py fetch_one_py fetch_all_py
       bind ret raise try_except try_finally mysql_connect connection_cursor
       cursor_execute connection_commit cursor_fetchone cursor_fetchall fetch
       is_connected cursor_close connection_close session_view note
       committed connection cursor executed trace].

Lemma execute_query_eq (env : Env) (query : string) (params : option (list value))
    (s : server) :
  execute_query env query params s =
  if opens env s then
    match cursor_error env with
    | Some _ => without_cursor env false s
    | None =>
        match execute_error env 0, run_text query (sent params) s, finish_error env with
        | None, inr (_, s'), None => mkCall (Return true) s' (with_cursor env)
        | _, _, _ => mkCall (Return false) s (with_cursor env)
        end
    end
  else mkCall (Return false) s [].
Proof.
  unfold opens, without_cursor, with_cursor, sent.
  unfold_py.
  destruct (connect_error env); [reflexivity|].
  destruct s as [d|]; [|reflexivity].
  destruct (cursor_error env), (connected_at_exit env); try reflexivity;
    destruct (truthy params); cbv beta iota;
    destruct (execute_error env 0); try reflexivity;
    destruct (run_text query _ (Some d)) as [e|[r s']]; try reflexivity;
    destruct (finish_error env); reflexivity.
Qed.

Lemma fetch_one_eq (env : Env) (query : string) (params : option (list value))
    (s : server) :
  fetch_one env query params s =
  if opens env s then
    match cursor_error env with
    | Some _ => without_cursor env None s
    | None =>
        mkCall (Return (match rows_read env query params s with
                        | Some l => hd_error l
                        | None => None
                        end)) s (with_cursor env)
    end
  else mkCall (Return None) s [].
Proof.
  unfold opens, without_cursor, with_cursor, rows_read, sent.
  unfold_py.
  destruct (connect_error env); [reflexivity|].
  destruct s as [d|]; [|reflexivity].
  destruct (cursor_error env), (connected_at_exit env); try reflexivity;
    destruct (truthy params); cbv beta iota;
    destruct (execute_error env 0); try reflexivity;
    destruct (run_text query _ (Some d)) as [e|[[n [l|]] s']]; try reflexivity;
    destruct (finish_error env); reflexivity.
Qed.

Lemma fetch_all_eq (env : Env) (query : string) (params : option (list value))
    (s : server) :
  fetch_all env query params s =
  if opens env s then
    match cursor_error env with
    | Some _ => without_cursor env [] s
    | None =>
        mkCall (Return (match rows_read env query params s with
                        | Some l => l
                        | None => []
                        end)) s (with_cursor env)
    end
  else mkCall (Return []) s [].
Proof.
  unfold opens, without_cursor, with_cursor, rows_read, sent.
  unfold_py.
  destruct (connect_error env); [reflexivity|].
  destruct s as [d|]; [|reflexivity].
  destruct (cursor_error env), (connected_at_exit env); try reflexivity;
    destruct (truthy params); cbv beta iota;
    destruct (execute_error env 0); try reflexivity;
    destruct (run_text query _ (Some d)) as [e|[[n [l|]] s']]; try reflexivity;
    destruct (finish_error env); reflexivity.
Qed.

Lemma get_connection_eq (env : Env) (s : server) :
  get_connection env s =
  if opens env s then mkCall (Return (Some Connection)) s [ConnectionOpened]
  else mkCall (Return None) s [].
Proof.
  unfold opens. unfold_py.
  destruct (connect_error env); [reflexivity|].
  destruct s; reflexivity.
Qed.

(** The slip itself: cursor creation fails, the connection still answers
    connected, and the finally block raises instead of returning. *)
Lemma unbound_cursor_in_finally :
  result (execute_query cursor_refused "SELECT * FROM users" None seeded)
  = Raise (UnboundLocalError "cursor").
Proof. vm_compute. reflexivity. Qed.

(** ** get_connection *)

(** C7: [get_connection] never raises.  Whatever the engine does, it returns
    a value: [None] when connecting fails (engine unreachable, authentication
    rejected, or any other connection error, among them an unknown database),
    and a live connection otherwise.  The engine's state is not touched. *)
Theorem get_connection_never_raises (env : Env) (s : server) :
  (forall x, result (get_connection env s) <> Raise x) /\
  (forall e, connect_error env = Some e ->
     result (get_connection env s) = Return None) /\
  (s = None -> result (get_connection env s) = Return None) /\
  (connect_error env = None -> s <> None ->
     result (get_connection env s) = Return (Some Connection)) /\
  db_after (get_connection env s) = s.
Proof.
  rewrite get_connection_eq. unfold opens.
  repeat split.
  - intros x. destruct (connect_error env), s; discriminate.
  - intros e ->. reflexivity.
  - intros ->. destruct (connect_error env); reflexivity.
  - intros -> Hs. destruct s; [reflexivity | contradiction].
  - destruct (connect_error env), s; reflexivity.
Qed.

Lemma get_connection_never_raises_witness :
  result (get_connection unreachable seeded) = Return None /\
  result (get_connection access_denied seeded) = Return None /\
  result (get_connection calm seeded) = Return (Some Connection).
Proof.
  split; [|split].
  - exact (proj1 (proj2 (get_connection_never_raises unreachable seeded))
                 CR_CONN_HOST_ERROR eq_refl).
  - exact (proj1 (proj2 (get_connection_never_raises access_denied seeded))
                 ER_ACCESS_DENIED_ERROR eq_refl).
  - apply (get_connection_never_raises calm seeded); [reflexivity|].
    vm_compute. discriminate.
Defined.

(** ** Empty parameter tuple *)

(** C10: with the empty tuple as [params], each primitive does exactly what
    it does without [params]: the same result, the same engine state, the
    same acquisitions and releases. *)
Theorem empty_params_like_no_params (env : Env) (query : string) (s : server) :
  execute_query env query (Some []) s = execute_query env query None s /\
  fetch_one env query (Some []) s = fetch_one env query None s /\
  fetch_all env query (Some []) s = fetch_all env query None s.
Proof. repeat split; reflexivity. Qed.

(** ** Release of connection and cursor *)

(** C2, as stated, fails: when the link is lost while the statement runs,
    each primitive returns with its connection and cursor acquired and
    neither of them closed. *)
Lemma release_skipped_when_link_lost :
  ~ releases_what_it_acquired
      (execute_query link_lost_at_execute "DELETE FROM users WHERE id = %s"
                     (Some [VInt 1]) seeded) /\
  ~ releases_what_it_acquired
      (fetch_one link_lost_at_execute "SELECT * FROM users WHERE id = %s"
                 (Some [VInt 1]) seeded) /\
  ~ releases_what_it_acquired
      (fetch_all link_lost_at_execute "SELECT * FROM users" None seeded).
Proof.
  repeat split; intros [H _]; vm_compute in H;
    destruct H as [H|[H|[]]]; try discriminate; left; reflexivity.
Qed.

Ltac solve_scoped :=
  unfold scoped_release, without_cursor, with_cursor;
  repeat match goal with
         | |- context [opens ?e ?s] => destruct (opens e s)
         | |- context [cursor_error ?e] => destruct (cursor_error e)
         | |- context [connected_at_exit ?e] => destruct (connected_at_exit e)
         end;
  repeat split; intros; try discriminate;
  repeat match goal with
         | |- context [match ?x with _ => _ end] => destruct x
         end;
  cbn [events result];
  try reflexivity; try (eexists; reflexivity);
  try (cbn [In]; intuition discriminate).

(** C2, amended: [execute_query], [fetch_one] and [fetch_all] close the
    cursor and then the connection on every exit path (success, empty result,
    engine error) on which the cursor was created and the connection still
    answers connected in the finally block; when the connection could not be
    opened they acquire nothing and attempt no release; when the connection no
    longer answers connected at exit they close neither. *)
Theorem release_when_still_connected (env : Env) (query : string)
    (params : option (list value)) (s : server) :
  scoped_release env s (execute_query env query params s) /\
  scoped_release env s (fetch_one env query params s) /\
  scoped_release env s (fetch_all env query params s).
Proof.
  rewrite execute_query_eq, fetch_one_eq, fetch_all_eq.
  split; [|split]; solve_scoped.
Qed.

Lemma release_when_still_connected_witness :
  events (execute_query calm "UPDATE users SET  WHERE id = %s" (Some [VInt 1]) seeded)
  = [ConnectionOpened; CursorOpened; CursorClosed; ConnectionClosed] /\
  events (fetch_one unreachable "SELECT * FROM users" None seeded) = [] /\
  ~ In ConnectionClosed
       (events (fetch_all link_lost_at_execute "SELECT * FROM users" None seeded)).
Proof.
  split; [|split].
  - apply (release_when_still_connected calm "UPDATE users SET  WHERE id = %s"
             (Some [VInt 1]) seeded); reflexivity.
  - apply (release_when_still_connected unreachable "SELECT * FROM users" None seeded).
    reflexivity.
  - apply (release_when_still_connected link_lost_at_execute "SELECT * FROM users"
             None seeded); reflexivity.
Defined.

(** ** The boolean of execute_query *)

(** C4, as stated, fails in its last part: the boolean does tell a failed
    statement from one that affected no row.  On the seeded database a DELETE
    of an id that no row has affects zero rows and yields [True]; the
    statement with an empty SET list fails and yields [False]. *)
Lemma boolean_tells_failure_from_zero_rows :
  (exists s', run_text "DELETE FROM users WHERE id = %s" (Some [VInt 99]) seeded
              = inr (mkReply 0 None, s')) /\
  run_text "UPDATE users SET  WHERE id = %s" (Some [VInt 99]) seeded
  = inl ER_PARSE_ERROR /\
  result (execute_query calm "DELETE FROM users WHERE id = %s" (Some [VInt 99]) seeded)
  = Return true /\
  result (execute_query calm "UPDATE users SET  WHERE id = %s" (Some [VInt 99]) seeded)
  = Return false /\
  result (execute_query calm "DELETE FROM users WHERE id = %s" (Some [VInt 99]) seeded)
  <> result (execute_query calm "UPDATE users SET  WHERE id = %s" (Some [VInt 99]) seeded).
Proof.
  split; [|split; [|split; [|split]]].
  - eexists. vm_compute. reflexivity.
  - vm_compute. reflexivity.
  - vm_compute. reflexivity.
  - vm_compute. reflexivity.
  - vm_compute. discriminate.
Qed.

(** C4, amended: [execute_query] returns [True] exactly when the connection
    opens, the cursor is created, and the statement executes and commits
    without an engine error, whatever number of rows it affected (zero
    included); the engine then holds the statement's effect.  It returns
    [False], with the engine unchanged, when the connection could not be
    opened and when the statement or the commit fails.  So the boolean does
    not tell zero rows affected from a statement that changed rows, nor a
    failed statement from a failed connection; it does tell success from
    failure. *)
Theorem execute_query_boolean (env : Env) (query : string)
    (params : option (list value)) (s : server) :
  (result (execute_query env query params s) = Return true <->
   opens env s = true /\ cursor_error env = None /\
   exists r s', committed_reply env query params s = Some (r, s')) /\
  (forall r s', opens env s = true -> cursor_error env = None ->
     committed_reply env query params s = Some (r, s') ->
     result (execute_query env query params s) = Return true /\
     db_after (execute_query env query params s) = s') /\
  (opens env s = false ->
     result (execute_query env query params s) = Return false /\
     db_after (execute_query env query params s) = s) /\
  (opens env s = true -> cursor_error env = None ->
     committed_reply env query params s = None ->
     result (execute_query env query params s) = Return false /\
     db_after (execute_query env query params s) = s).
Proof.
  rewrite execute_query_eq. unfold committed_reply, without_cursor.
  destruct (opens env s), (cursor_error env), (connected_at_exit env),
    (execute_error env 0), (run_text query (sent params) s) as [e|[r s']],
    (finish_error env); cbn [result db_after];
    (split; [split; [intros H; try discriminate H; repeat split; eauto
                    | intros (H1 & H2 & r0 & s0 & H3); try discriminate; reflexivity]
            | repeat split; intros; try discriminate; try congruence]).
Qed.

Lemma execute_query_boolean_witness :
  result (execute_query calm "DELETE FROM users WHERE id = %s" (Some [VInt 99]) seeded)
  = Return true /\
  result (execute_query unreachable "DELETE FROM users WHERE id = %s" (Some [VInt 5]) seeded)
  = Return false /\
  result (execute_query calm "UPDATE users SET  WHERE id = %s" (Some [VInt 5]) seeded)
  = Return false.
Proof.
  split; [|split].
  - apply (execute_query_boolean calm "DELETE FROM users WHERE id = %s"
             (Some [VInt 99]) seeded).
    split; [reflexivity|]. split; [reflexivity|].
    eexists. eexists. vm_compute. reflexivity.
  - apply (proj1 (proj2 (proj2 (execute_query_boolean unreachable
             "DELETE FROM users WHERE id = %s" (Some [VInt 5]) seeded)))).
    reflexivity.
  - apply (proj2 (proj2 (proj2 (execute_query_boolean calm
             "UPDATE users SET  WHERE id = %s" (Some [VInt 5]) seeded))));
      reflexivity.
Defined.

(** ** Absent and empty results of the fetch primitives *)

(** C5: [fetch_one] and [fetch_all] raise to the caller in one run.  When the
    connection opens, [connection.cursor()] raises and the connection still
    answers connected, the except clause is on its way to return [None] or
    the empty list, but the finally block calls [cursor.close()] on a name
    that was never bound: the caller gets [UnboundLocalError] and the
    connection is not closed.  In every other run the two return, and they
    return [None] and the empty list alike when the connection does not open,
    when cursor creation fails on a lost link, when the statement or the
    fetch fails, and when no row matches.  The engine is left as it was in
    every run. *)
Theorem fetch_raises_when_cursor_unbound (env : Env) (query : string)
    (params : option (list value)) (s : server) :
  (opens env s = true -> cursor_slip env = true ->
     fetch_one env query params s
     = mkCall (Raise (UnboundLocalError "cursor")) s [ConnectionOpened] /\
     fetch_all env query params s
     = mkCall (Raise (UnboundLocalError "cursor")) s [ConnectionOpened]) /\
  (opens env s = false \/ cursor_slip env = false ->
     (exists r, result (fetch_one env query params s) = Return r) /\
     (exists l, result (fetch_all env query params s) = Return l) /\
     (opens env s = false \/ cursor_error env <> None \/
      rows_read env query params s = None \/
      rows_read env query params s = Some [] ->
      result (fetch_one env query params s) = Return None /\
      result (fetch_all env query params s) = Return [])) /\
  db_after (fetch_one env query params s) = s /\
  db_after (fetch_all env query params s) = s.
Proof.
  rewrite fetch_one_eq, fetch_all_eq. unfold cursor_slip, without_cursor.
  destruct (opens env s), (cursor_error env), (connected_at_exit env);
    cbn [result db_after];
    repeat split; intros; try discriminate;
    repeat match goal with
           | H : _ \/ _ |- _ => destruct H
           | H : rows_read _ _ _ _ = _ |- _ => rewrite H
           | H : None <> None |- _ => contradiction H; reflexivity
           end;
    try discriminate; try reflexivity; eexists; reflexivity.
Qed.

Lemma fetch_raises_when_cursor_unbound_witness :
  (* cursor creation fails, the connection still answers connected *)
  result (fetch_one cursor_refused "SELECT * FROM users WHERE id = %s" (Some [VInt 1]) seeded)
  = Raise (UnboundLocalError "cursor") /\
  result (fetch_all cursor_refused "SELECT * FROM users" None seeded)
  = Raise (UnboundLocalError "cursor") /\
  (* no row matches *)
  result (fetch_one calm "SELECT * FROM users WHERE id = %s" (Some [VInt 99]) seeded)
  = Return None /\
  (* the connection does not open *)
  result (fetch_all unreachable "SELECT * FROM users" None seeded) = Return [].
Proof.
  split; [|split; [|split]].
  - rewrite (proj1 (proj1 (fetch_raises_when_cursor_unbound cursor_refused
               "SELECT * FROM users WHERE id = %s" (Some [VInt 1]) seeded)
               eq_refl eq_refl)).
    reflexivity.
  - rewrite (proj2 (proj1 (fetch_raises_when_cursor_unbound cursor_refused
               "SELECT * FROM users" None seeded) eq_refl eq_refl)).
    reflexivity.
  - apply (proj2 (proj2 (proj1 (proj2 (fetch_raises_when_cursor_unbound calm
             "SELECT * FROM users WHERE id = %s" (Some [VInt 99]) seeded))
             (or_intror eq_refl)))).
    right. right. right. reflexivity.
  - apply (proj2 (proj2 (proj1 (proj2 (fetch_raises_when_cursor_unbound unreachable
             "SELECT * FROM users" None seeded)) (or_introl eq_refl)))).
    left. reflexivity.
Defined.

(** ** update_user with an empty field map *)

Lemma empty_update_rejected (params : option (list value)) (session : server) :
  run_text "UPDATE users SET  WHERE id = %s" params session = inl ER_PARSE_ERROR.
Proof. reflexivity. Qed.

(** C9: with an empty field map [update_user] sends
    [UPDATE users SET  WHERE id = %s], which the engine rejects as malformed.
    The call never returns [True] and the engine keeps its state, every row of
    the users table included; it returns [False] in every run in which the
    finally block finds its cursor. *)
Theorem update_user_empty_map (env : Env) (user_id : Z) (s : server) :
  update_user_query [] = "UPDATE users SET  WHERE id = %s" /\
  (forall session,
     run_text (update_user_query []) (Some (update_user_values user_id [])) session
     = inl ER_PARSE_ERROR) /\
  db_after (update_user env user_id [] s) = s /\
  result (update_user env user_id [] s) <> Return true /\
  (opens env s = false \/ cursor_slip env = false ->
   result (update_user env user_id [] s) = Return false).
Proof.
  split; [reflexivity|]. split; [intros; reflexivity|].
  unfold update_user. rewrite execute_query_eq.
  change (update_user_query []) with "UPDATE users SET  WHERE id = %s".
  rewrite empty_update_rejected.
  unfold cursor_slip, without_cursor.
  destruct (opens env s), (cursor_error env), (connected_at_exit env),
    (execute_error env 0); cbn [result db_after];
    repeat split; try discriminate; try reflexivity;
    intros [H|H]; try discriminate; reflexivity.
Qed.

Lemma update_user_empty_map_witness :
  result (update_user calm 1 [] seeded) = Return false /\
  db_after (update_user calm 1 [] seeded) = seeded.
Proof.
  split.
  - apply (proj2 (proj2 (proj2 (proj2 (update_user_empty_map calm 1 seeded))))).
    right. reflexivity.
  - apply (proj1 (proj2 (proj2 (update_user_empty_map calm 1 seeded)))).
Defined.

(** ** The authorization gate of create_product *)

Lemma varchar_str (v : string) (x : string) : varchar (VStr v) = inr x -> x = v.
Proof.
  unfold varchar. destruct (Z.of_nat (String.length v) <=? 255); congruence.
Qed.

Lemma text_str (v : string) (x : string) : text (VStr v) = inr x -> x = v.
Proof.
  unfold text. destruct (Z.of_nat (String.length v) <=? 65535); congruence.
Qed.

Lemma int_int (z x : Z) : int (VInt z) = inr x -> x = z.
Proof.
  unfold int. destruct ((-2147483648 <=? z) && (z <=? 2147483647)); congruence.
Qed.

Lemma decimal_dec (h x : Z) : decimal_10_2 (VDec h) = inr x -> x = h.
Proof.
  unfold decimal_10_2.
  destruct ((-9999999999 <=? h) && (h <=? 9999999999)); congruence.
Qed.

Ltac bindE_inv H :=
  repeat match type of H with
         | bindE ?x _ = inr _ =>
             let E := fresh "E" in
             destruct x eqn:E; cbn [bindE] in H; [discriminate H|]
         end.

(** A product row that the engine accepts goes to the end of the table under
    the next id; nothing else changes. *)
Lemma insert_product_inr (name description : string) (price quantity : Z)
    (d : schema) (r : reply) (d' : schema) :
  insert_product (VStr name) (VStr description) (VDec price) (VInt quantity) d
  = inr (r, d') ->
  exists t,
    products d = Some t /\
    d' = mkSchema (users d) (posts d)
           (Some (mkTable
                    (rows t ++ [mkProduct (auto_increment t) name description
                                          price quantity])
                    (auto_increment t + 1))).
Proof.
  unfold insert_product, with_table. intros H.
  destruct (products d) as [t|]; [|discriminate H].
  exists t. split; [reflexivity|].
  bindE_inv H.
  apply varchar_str in E. apply text_str in E0.
  apply decimal_dec in E1. apply int_int in E2. subst.
  destruct (existsb _ _); [discriminate H|].
  congruence.
Qed.

(** C1: without [is_admin], [create_product] raises the permission error
    before it touches the engine: no connection is opened and the engine,
    the products table included, is as before.  With [is_admin] it is the
    INSERT run by [execute_query]; when that returns [True] the products
    table has gained exactly the new row and nothing else has changed. *)
Theorem create_product_gate (env : Env) (name description : string)
    (price quantity : Z) (s : server) :
  create_product env name description price quantity false s
  = mkCall (Raise (PermissionError "Admin access required to create products")) s [] /\
  create_product env name description price quantity true s
  = execute_query env insert_product_text
      (Some [VStr name; VStr description; VDec price; VInt quantity]) s /\
  (result (create_product env name description price quantity true s) = Return true ->
   exists d t,
     s = Some d /\ products d = Some t /\
     db_after (create_product env name description price quantity true s)
     = Some (mkSchema (users d) (posts d)
               (Some (mkTable
                        (rows t ++ [mkProduct (auto_increment t) name description
                                              price quantity])
                        (auto_increment t + 1))))).
Proof.
  split; [reflexivity|]. split; [reflexivity|].
  unfold create_product. cbn [negb]. rewrite execute_query_eq.
  unfold without_cursor.
  destruct (opens env s); [|discriminate].
  destruct (cursor_error env);
    [destruct (connected_at_exit env); discriminate|].
  destruct (execute_error env 0); [discriminate|].
  destruct (run_text _ _ s) as [e|[r s']] eqn:Hrun; [discriminate|].
  destruct (finish_error env); [discriminate|].
  intros _. cbn [db_after].
  unfold run_text in Hrun.
  change (parse _) with (Some InsertProduct) in Hrun.
  cbn in Hrun.
  destruct s as [d|]; [|discriminate Hrun].
  destruct (insert_product _ _ _ _ d) as [e|[r0 d']] eqn:Hins;
    cbn in Hrun; [discriminate Hrun|].
  apply insert_product_inr in Hins. destruct Hins as (t & Ht & ->).
  exists d, t. repeat split; try assumption. congruence.
Qed.

Lemma create_product_gate_witness :
  exists d t,
    seeded = Some d /\ products d = Some t /\
    db_after (create_product calm "Pixel 9" "Android phone" 79900 10 true seeded)
    = Some (mkSchema (users d) (posts d)
              (Some (mkTable
                       (rows t ++ [mkProduct (auto_increment t) "Pixel 9"
                                             "Android phone" 79900 10])
                       (auto_increment t + 1)))).
Proof.
  apply (proj2 (proj2 (create_product_gate calm "Pixel 9" "Android phone"
                                           79900 10 seeded))).
  vm_compute. reflexivity.
Defined.

(** ** delete, then get *)

Lemma filter_out_then_in {R : Type} (hit : R -> bool) (l : list R) :
  filter hit (filter (fun x => negb (hit x)) l) = [].
Proof.
  induction l as [|x l IH]; [reflexivity|].
  cbn [filter]. destruct (hit x) eqn:E; cbn [negb filter]; [exact IH|].
  rewrite E. exact IH.
Qed.

(** A successful call of [execute_query] ran its statement on the session. *)
Lemma execute_query_true (env : Env) (query : string) (params : option (list value))
    (s : server) :
  result (execute_query env query params s) = Return true ->
  exists r, run_text query (sent params) s
            = inr (r, db_after (execute_query env query params s)).
Proof.
  rewrite execute_query_eq. unfold without_cursor.
  destruct (opens env s); [|discriminate].
  destruct (cursor_error env);
    [destruct (connected_at_exit env); discriminate|].
  destruct (execute_error env 0); [discriminate|].
  destruct (run_text _ _ s) as [e|[r s']]; [discriminate|].
  destruct (finish_error env); [discriminate|].
  intros _. exists r. reflexivity.
Qed.

(** What [fetch_one] and [fetch_all] can yield, given the rows they read. *)
Lemma fetch_one_cases (env : Env) (query : string) (params : option (list value))
    (s : server) (a : option row) :
  result (fetch_one env query params s) = Return a ->
  a = None \/ exists l, rows_read env query params s = Some l /\ a = hd_error l.
Proof.
  rewrite fetch_one_eq. unfold without_cursor.
  destruct (opens env s); [|cbn; intros [=]; now left].
  destruct (cursor_error env).
  - destruct (connected_at_exit env); cbn; [discriminate|intros [=]; now left].
  - cbn. destruct (rows_read env query params s) as [l|]; intros [=].
    + right. exists l. split; congruence.
    + now left.
Qed.

Lemma fetch_one_returns (env : Env) (query : string) (params : option (list value))
    (s : server) :
  opens env s = false \/ cursor_slip env = false ->
  exists a, result (fetch_one env query params s) = Return a.
Proof.
  rewrite fetch_one_eq. unfold cursor_slip, without_cursor.
  destruct (opens env s), (cursor_error env), (connected_at_exit env);
    cbn [result]; intros [H|H]; try discriminate; eexists; reflexivity.
Qed.

Lemma fetch_all_cases (env : Env) (query : string) (params : option (list value))
    (s : server) (l : list row) :
  result (fetch_all env query params s) = Return l ->
  l = [] \/ rows_read env query params s = Some l.
Proof.
  rewrite fetch_all_eq. unfold without_cursor.
  destruct (opens env s); [|cbn; intros [=]; now left].
  destruct (cursor_error env).
  - destruct (connected_at_exit env); cbn; [discriminate|intros [=]; now left].
  - cbn. destruct (rows_read env query params s) as [l'|]; intros [=].
    + right. congruence.
    + now left.
Qed.

Lemma rows_read_run (env : Env) (query : string) (params : option (list value))
    (s : server) (l : list row) :
  rows_read env query params s = Some l ->
  exists n s', run_text query (sent params) s = inr (mkReply n (Some l), s').
Proof.
  unfold rows_read.
  destruct (execute_error env 0); [discriminate|].
  destruct (run_text _ _ s) as [e|[[n [l'|]] s']]; try discriminate.
  destruct (finish_error env); [discriminate|].
  intros [= ->]. eauto.
Qed.

Lemma delete_users_inr (id : Z) (d : schema) (r : reply) (d' : schema) :
  delete_by_id Users (VInt id) d = inr (r, d') ->
  exists t,
    users d = Some t /\
    d' = mkSchema
           (Some (mkTable (filter (fun u => negb (id_is (VInt id) (user_id u))) (rows t))
                          (auto_increment t)))
           (posts d) (products d).
Proof.
  unfold delete_by_id, with_table. intros H.
  destruct (users d) as [t|]; [|discriminate H].
  exists t. split; [reflexivity|].
  destruct (existsb _ _); [discriminate H|]. congruence.
Qed.

Lemma delete_products_inr (id : Z) (d : schema) (r : reply) (d' : schema) :
  delete_by_id Products (VInt id) d = inr (r, d') ->
  exists t,
    products d = Some t /\
    d' = mkSchema (users d) (posts d)
           (Some (mkTable (filter (fun p => negb (id_is (VInt id) (product_id p))) (rows t))
                          (auto_increment t))).
Proof.
  unfold delete_by_id, with_table. intros H.
  destruct (products d) as [t|]; [|discriminate H].
  exists t. split; [reflexivity|]. congruence.
Qed.

(** The engine's state after a DELETE by id that [execute_query] reports
    as successful. *)
Lemma delete_user_true (env : Env) (id : Z) (s : server) :
  result (delete_user env id s) = Return true ->
  exists d t,
    s = Some d /\ users d = Some t /\
    db_after (delete_user env id s)
    = Some (mkSchema
              (Some (mkTable
                       (filter (fun u => negb (id_is (VInt id) (user_id u))) (rows t))
                       (auto_increment t)))
              (posts d) (products d)).
Proof.
  intros H. apply execute_query_true in H. destruct H as [r H].
  fold (delete_user env id s) in H.
  remember (db_after (delete_user env id s)) as s1 eqn:Hs1. clear Hs1.
  unfold run_text in H.
  change (parse _) with (Some (DeleteById Users)) in H.
  cbn [sent truthy placeholders Nat.eqb List.length run_stmt] in H.
  destruct s as [d|]; [|discriminate H].
  destruct (delete_by_id Users (VInt id) d) as [e|[r0 d0]] eqn:Hd;
    cbn [bindE fst snd] in H; [discriminate H|].
  apply delete_users_inr in Hd. destruct Hd as (t & Ht & ->).
  exists d, t. repeat split; try assumption. congruence.
Qed.

Lemma delete_product_true (env : Env) (id : Z) (s : server) :
  result (delete_product env id s) = Return true ->
  exists d t,
    s = Some d /\ products d = Some t /\
    db_after (delete_product env id s)
    = Some (mkSchema (users d) (posts d)
              (Some (mkTable
                       (filter (fun p => negb (id_is (VInt id) (product_id p))) (rows t))
                       (auto_increment t)))).
Proof.
  intros H. apply execute_query_true in H. destruct H as [r H].
  fold (delete_product env id s) in H.
  remember (db_after (delete_product env id s)) as s1 eqn:Hs1. clear Hs1.
  unfold run_text in H.
  change (parse _) with (Some (DeleteById Products)) in H.
  cbn [sent truthy placeholders Nat.eqb List.length run_stmt] in H.
  destruct s as [d|]; [|discriminate H].
  destruct (delete_by_id Products (VInt id) d) as [e|[r0 d0]] eqn:Hd;
    cbn [bindE fst snd] in H; [discriminate H|].
  apply delete_products_inr in Hd. destruct Hd as (t & Ht & ->).
  exists d, t. repeat split; try assumption. congruence.
Qed.

Lemma select_user_by_id_run (id : Z) (d : schema) (t : table user) (n : Z)
    (l : list row) (s' : server) :
  users d = Some t ->
  run_text "SELECT * FROM users WHERE id = %s" (sent (Some [VInt id])) (Some d)
  = inr (mkReply n (Some l), s') ->
  l = map user_row (filter (fun u => id_is (VInt id) (user_id u)) (rows t)).
Proof.
  intros Ht H. unfold run_text in H.
  change (parse _) with (Some (SelectById Users)) in H.
  cbn [sent truthy placeholders Nat.eqb List.length run_stmt select_from] in H.
  rewrite Ht in H. cbn [with_table bindE fst snd selected] in H.
  injection H as _ H _. symmetry. exact H.
Qed.

Lemma select_all_users_run (d : schema) (t : table user) (n : Z)
    (l : list row) (s' : server) :
  users d = Some t ->
  run_text "SELECT * FROM users" (sent None) (Some d) = inr (mkReply n (Some l), s') ->
  l = map user_row (rows t).
Proof.
  intros Ht H. unfold run_text in H.
  change (parse _) with (Some (SelectAll Users)) in H.
  cbn [sent truthy placeholders Nat.eqb List.length run_stmt select_from] in H.
  rewrite Ht in H. cbn [with_table bindE fst snd selected] in H.
  rewrite filter_true in H. injection H as _ H _. symmetry. exact H.
Qed.

Lemma select_product_by_id_run (id : Z) (d : schema) (t : table product) (n : Z)
    (l : list row) (s' : server) :
  products d = Some t ->
  run_text "SELECT * FROM products WHERE id = %s" (sent (Some [VInt id])) (Some d)
  = inr (mkReply n (Some l), s') ->
  l = map product_row (filter (fun p => id_is (VInt id) (product_id p)) (rows t)).
Proof.
  intros Ht H. unfold run_text in H.
  change (parse _) with (Some (SelectById Products)) in H.
  cbn [sent truthy placeholders Nat.eqb List.length run_stmt select_from] in H.
  rewrite Ht in H. cbn [with_table bindE fst snd selected] in H.
  injection H as _ H _. symmetry. exact H.
Qed.

Lemma select_all_products_run (d : schema) (t : table product) (n : Z)
    (l : list row) (s' : server) :
  products d = Some t ->
  run_text "SELECT * FROM products" (sent None) (Some d)
  = inr (mkReply n (Some l), s') ->
  l = map product_row (rows t).
Proof.
  intros Ht H. unfold run_text in H.
  change (parse _) with (Some (SelectAll Products)) in H.
  cbn [sent truthy placeholders Nat.eqb List.length run_stmt select_from] in H.
  rewrite Ht in H. cbn [with_table bindE fst snd selected] in H.
  rewrite filter_true in H. injection H as _ H _. symmetry. exact H.
Qed.

Lemma id_is_false (id x : Z) : negb (id_is (VInt id) x) = true -> x <> id.
Proof.
  cbn [id_is]. intros H ->. rewrite Z.eqb_refl in H. discriminate H.
Qed.

(** C8: once [delete_user] (or [delete_product]) has returned [True] for an
    id, a following get-by-id for that id never yields a row, and yields
    [None] in every run in which the finally block finds its cursor; and no
    row of a following get-all carries that id.  [PostCRUD] offers no
    delete. *)
Theorem deleted_row_is_gone (env1 env2 env3 : Env) (id : Z) (s : server) :
  (result (delete_user env1 id s) = Return true ->
   (forall r, result (get_user_by_id env2 id (db_after (delete_user env1 id s)))
              <> Return (Some r)) /\
   (opens env2 (db_after (delete_user env1 id s)) = false \/ cursor_slip env2 = false ->
    result (get_user_by_id env2 id (db_after (delete_user env1 id s))) = Return None) /\
   (forall l r,
      result (get_all_users env3 (db_after (delete_user env1 id s))) = Return l ->
      In r l -> row_get r "id" <> Some (VInt id))) /\
  (result (delete_product env1 id s) = Return true ->
   (forall r, result (get_product env2 id (db_after (delete_product env1 id s)))
              <> Return (Some r)) /\
   (opens env2 (db_after (delete_product env1 id s)) = false \/ cursor_slip env2 = false ->
    result (get_product env2 id (db_after (delete_product env1 id s))) = Return None) /\
   (forall l r,
      result (get_all_products env3 (db_after (delete_product env1 id s))) = Return l ->
      In r l -> row_get r "id" <> Some (VInt id))).
Proof.
  split; intros Hdel.
  - apply delete_user_true in Hdel. destruct Hdel as (d & t & -> & Ht & ->).
    match goal with |- context [Some ?x] =>
      match x with mkSchema _ _ _ => set (d' := x) end end.
    assert (Hone : forall a, result (get_user_by_id env2 id (Some d')) = Return a ->
                             a = None).
    { intros a Ha. apply fetch_one_cases in Ha.
      destruct Ha as [Ha|(l & Hl & ->)]; [exact Ha|].
      apply rows_read_run in Hl. destruct Hl as (n & s' & Hl).
      apply (select_user_by_id_run id d' _ n l s' eq_refl) in Hl.
      cbn [rows] in Hl. rewrite filter_out_then_in in Hl. subst l. reflexivity. }
    split; [|split].
    + intros r Hr. apply Hone in Hr. discriminate Hr.
    + intros Hok. destruct (fetch_one_returns env2 "SELECT * FROM users WHERE id = %s"
                              (Some [VInt id]) (Some d') Hok) as [a Ha].
      unfold get_user_by_id. rewrite Ha. f_equal. apply Hone. exact Ha.
    + intros l r Hl Hin. apply fetch_all_cases in Hl.
      destruct Hl as [->|Hl]; [destruct Hin|].
      apply rows_read_run in Hl. destruct Hl as (n & s' & Hl).
      apply (select_all_users_run d' _ n l s' eq_refl) in Hl.
      cbn [rows] in Hl. subst l.
      apply in_map_iff in Hin. destruct Hin as (u & <- & Hu).
      apply filter_In in Hu. destruct Hu as [_ Hu]. apply id_is_false in Hu.
      cbn. congruence.
  - apply delete_product_true in Hdel. destruct Hdel as (d & t & -> & Ht & ->).
    match goal with |- context [Some ?x] =>
      match x with mkSchema _ _ _ => set (d' := x) end end.
    assert (Hone : forall a, result (get_product env2 id (Some d')) = Return a ->
                             a = None).
    { intros a Ha. apply fetch_one_cases in Ha.
      destruct Ha as [Ha|(l & Hl & ->)]; [exact Ha|].
      apply rows_read_run in Hl. destruct Hl as (n & s' & Hl).
      apply (select_product_by_id_run id d' _ n l s' eq_refl) in Hl.
      cbn [rows] in Hl. rewrite filter_out_then_in in Hl. subst l. reflexivity. }
    split; [|split].
    + intros r Hr. apply Hone in Hr. discriminate Hr.
    + intros Hok. destruct (fetch_one_returns env2 "SELECT * FROM products WHERE id = %s"
                              (Some [VInt id]) (Some d') Hok) as [a Ha].
      unfold get_product. rewrite Ha. f_equal. apply Hone. exact Ha.
    + intros l r Hl Hin. apply fetch_all_cases in Hl.
      destruct Hl as [->|Hl]; [destruct Hin|].
      apply rows_read_run in Hl. destruct Hl as (n & s' & Hl).
      apply (select_all_products_run d' _ n l s' eq_refl) in Hl.
      cbn [rows] in Hl. subst l.
      apply in_map_iff in Hin. destruct Hin as (u & <- & Hu).
      apply filter_In in Hu. destruct Hu as [_ Hu]. apply id_is_false in Hu.
      cbn. congruence.
Qed.

Lemma deleted_row_is_gone_witness :
  result (get_user_by_id calm 5 (db_after (delete_user calm 5 seeded))) = Return None /\
  result (get_product calm 2 (db_after (delete_product calm 2 seeded))) = Return None.
Proof.
  split.
  - apply (proj1 (deleted_row_is_gone calm calm calm 5 seeded)).
    + vm_compute. reflexivity.
    + right. reflexivity.
  - apply (proj2 (deleted_row_is_gone calm calm calm 2 seeded)).
    + vm_compute. reflexivity.
    + right. reflexivity.
Defined.

(** ** The dynamic UPDATE of update_user *)

Lemma append_assoc (a b c : string) : ((a ++ b) ++ c)%string = (a ++ (b ++ c))%string.
Proof. induction a as [|x a IH]; [reflexivity|]. cbn. now rewrite IH. Qed.

Lemma ucol_of_name (c : ucol) : ucol_of (ucol_name c) = Some c.
Proof. destruct c; reflexivity. Qed.

Lemma ucol_of_some (k : string) (c : ucol) : ucol_of k = Some c -> k = ucol_name c.
Proof.
  unfold ucol_of.
  destruct (String.eqb k "id") eqn:E1;
    [intros [= <-]; now apply String.eqb_eq in E1|].
  destruct (String.eqb k "name") eqn:E2;
    [intros [= <-]; now apply String.eqb_eq in E2|].
  destruct (String.eqb k "email") eqn:E3;
    [intros [= <-]; now apply String.eqb_eq in E3|].
  destruct (String.eqb k "password") eqn:E4;
    [intros [= <-]; now apply String.eqb_eq in E4|].
  discriminate.
Qed.

Lemma columns_of_keys (ks : list string) :
  Forall (fun k => ucol_of k <> None) ks ->
  exists cols, ks = map ucol_name cols.
Proof.
  induction 1 as [|k ks Hk _ [cols ->]]; [now exists []|].
  destruct (ucol_of k) as [c|] eqn:E; [|contradiction].
  exists (c :: cols). cbn. f_equal. now apply ucol_of_some.
Qed.

Lemma lex_assignment (c : ucol) (rest : string) :
  lex EmptyString ((ucol_name c ++ " = %s") ++ rest)
  = TWord (ucol_name c) :: TEq :: TParam :: lex EmptyString rest.
Proof. destruct c; reflexivity. Qed.

Lemma lex_set_clause (cols : list ucol) (rest : string) :
  cols <> [] ->
  lex EmptyString
      (String.concat ", " (map (fun key => key ++ " = %s") (map ucol_name cols)) ++ rest)
  = (assignment_tokens cols ++ lex EmptyString rest)%list.
Proof.
  induction cols as [|c cols IH]; [congruence|]. intros _.
  destruct cols as [|c' cols].
  - cbn [map String.concat assignment_tokens]. rewrite lex_assignment. reflexivity.
  - change (String.concat ", " (map (fun key => key ++ " = %s")
                                    (map ucol_name (c :: c' :: cols))))
      with ((ucol_name c ++ " = %s") ++ ", " ++
            String.concat ", " (map (fun key => key ++ " = %s")
                                    (map ucol_name (c' :: cols))))%string.
    rewrite append_assoc, lex_assignment, append_assoc.
    change (lex EmptyString (", " ++ ?x)) with (TComma :: lex EmptyString x).
    rewrite IH by discriminate. reflexivity.
Qed.

Lemma assignment_tokens_cons (c c' : ucol) (cols : list ucol) :
  assignment_tokens (c :: c' :: cols)
  = TWord (ucol_name c) :: TEq :: TParam :: TComma :: assignment_tokens (c' :: cols).
Proof. reflexivity. Qed.

Lemma parse_assignments_comma (c : ucol) (rest : list token) :
  parse_assignments (TWord (ucol_name c) :: TEq :: TParam :: TComma :: rest)
  = match parse_assignments rest with
    | Some (l, tl) => Some ((c, EParam) :: l, tl)
    | None => None
    end.
Proof. cbn [parse_assignments expr_of]. rewrite ucol_of_name. reflexivity. Qed.

Lemma parse_assignment_tokens (cols : list ucol) (tl : list token) :
  cols <> [] ->
  (match tl with TComma :: _ => False | _ => True end) ->
  parse_assignments (assignment_tokens cols ++ tl)%list
  = Some (map (fun c => (c, EParam)) cols, tl).
Proof.
  induction cols as [|c cols IH]; [congruence|]. intros _ Htl.
  destruct cols as [|c' cols].
  - cbn [assignment_tokens app parse_assignments expr_of map].
    rewrite ucol_of_name. destruct tl as [|[] tl]; try reflexivity. destruct Htl.
  - rewrite assignment_tokens_cons. cbn [app].
    rewrite parse_assignments_comma, IH by (discriminate || exact Htl).
    reflexivity.
Qed.

(** For a non-empty map whose keys are column names, the engine reads the
    built text as one assignment [column = %s] per key, in map order. *)
Lemma parse_update_user_query (data : dict) (cols : list ucol) :
  cols <> [] ->
  keys data = map ucol_name cols ->
  parse (update_user_query data) = Some (UpdateUser (map (fun c => (c, EParam)) cols)).
Proof.
  intros Hne Hk. unfold parse, tokens, update_user_query, set_clause.
  rewrite Hk.
  change (lex EmptyString ("UPDATE users SET " ++ ?x))
    with (TWord "UPDATE" :: TWord "users" :: TWord "SET" :: lex EmptyString x).
  rewrite lex_set_clause by exact Hne.
  change (lex EmptyString " WHERE id = %s")
    with [TWord "WHERE"; TWord "id"; TEq; TParam].
  change (lookup_fixed (TWord "UPDATE" :: TWord "users" :: ?x) fixed_statements)
    with (@None stmt).
  cbv beta iota. unfold parse_update_users.
  change (String.eqb "UPDATE" "UPDATE" && String.eqb "users" "users"
          && String.eqb "SET" "SET") with true.
  cbv iota. rewrite parse_assignment_tokens by (exact Hne || exact I).
  reflexivity.
Qed.

Lemma set_ucol_same (c : ucol) (v : value) (u u' : user) :
  set_ucol c v u = inr u' -> ucol_value c u' = v.
Proof.
  destruct c; cbn [set_ucol]; intros H; bindE_inv H; injection H as <-;
    cbn [ucol_value user_id user_name user_email user_password].
  - destruct v; try discriminate E. apply int_int in E. now subst.
  - destruct v; try discriminate E. apply varchar_str in E. now subst.
  - destruct v; try discriminate E. apply varchar_str in E. now subst.
  - destruct v; try discriminate E. apply varchar_str in E. now subst.
Qed.

Lemma set_ucol_other (c c' : ucol) (v : value) (u u' : user) :
  c' <> c -> set_ucol c v u = inr u' -> ucol_value c' u' = ucol_value c' u.
Proof.
  intros Hc. destruct c; cbn [set_ucol]; intros H; bindE_inv H; injection H as <-;
    destruct c'; try reflexivity; contradiction.
Qed.

(** Columns that no assignment names keep their value. *)
Lemma assign_frame (cols : list ucol) :
  forall (vals : list value) (u u' : user),
    assign (map (fun c => (c, EParam)) cols) vals u = inr u' ->
    forall c, ~ In c cols -> ucol_value c u' = ucol_value c u.
Proof.
  induction cols as [|c0 cols IH]; intros vals u u' H c Hc.
  - cbn in H. congruence.
  - cbn [map assign] in H. destruct vals as [|v vals]; [discriminate H|].
    bindE_inv H.
    rewrite (IH vals u0 u' H c) by (intros Hin; apply Hc; now right).
    apply (set_ucol_other c0 c v u u0); [|exact E].
    intros ->. apply Hc. now left.
Qed.

(** Each named column receives the value bound to it. *)
Lemma assign_sets (cols : list ucol) :
  forall (vals : list value) (u u' : user),
    NoDup cols ->
    assign (map (fun c => (c, EParam)) cols) vals u = inr u' ->
    forall c v, In (c, v) (combine cols vals) -> ucol_value c u' = v.
Proof.
  induction cols as [|c0 cols IH]; intros vals u u' Hnd H c v Hin.
  - destruct Hin.
  - cbn [map assign] in H. destruct vals as [|v0 vals]; [destruct Hin|].
    bindE_inv H. inversion Hnd as [|? ? Hnotin Hnd']; subst.
    destruct Hin as [[= <- <-]|Hin].
    + rewrite (assign_frame cols vals u0 u' H c0 Hnotin).
      apply (set_ucol_same c0 v0 u u0 E).
    + apply (IH vals u0 u' Hnd' H c v Hin).
Qed.

Lemma update_rows_each (l : list (ucol * expr)) (vals : list value) (id : value)
    (us new : list user) :
  update_rows l vals id us = inr new ->
  Forall2 (fun u u' => if id_is id (user_id u) then assign l vals u = inr u' else u' = u)
          us new.
Proof.
  revert new. induction us as [|u us IH]; intros new H.
  - cbn in H. injection H as <-. constructor.
  - cbn [update_rows] in H.
    destruct (if id_is id (user_id u) then assign l vals u else inr u)
      as [e|u'] eqn:Eu; cbn [bindE] in H; [discriminate H|].
    destruct (update_rows l vals id us) as [e|rest] eqn:Er;
      cbn [bindE] in H; [discriminate H|].
    injection H as <-. constructor; [|now apply IH].
    destruct (id_is id (user_id u)); congruence.
Qed.

Lemma split_last_snoc (l : list value) (x : value) :
  split_last (l ++ [x])%list = Some (l, x).
Proof. unfold split_last. now rewrite rev_unit, rev_involutive. Qed.

Lemma sent_snoc (l : list value) (x : value) :
  sent (Some (l ++ [x])%list) = Some (l ++ [x])%list.
Proof. destruct l; reflexivity. Qed.

Lemma combine_keys_values (data : dict) : combine (keys data) (values data) = data.
Proof.
  induction data as [|[k v] data IH]; [reflexivity|].
  cbn. f_equal. exact IH.
Qed.

Lemma in_combine_names (cols : list ucol) (vals : list value) (k : string) (v : value) :
  In (k, v) (combine (map ucol_name cols) vals) ->
  exists c, k = ucol_name c /\ In (c, v) (combine cols vals).
Proof.
  revert vals. induction cols as [|c cols IH]; intros [|v0 vals] H; try destruct H.
  - injection H as <- <-. exists c. split; [reflexivity|now left].
  - destruct (IH vals H) as (c1 & -> & Hin). exists c1. split; [reflexivity|now right].
Qed.

Lemma count_params_all (cols : list ucol) :
  count_params (map (fun c => (c, EParam)) cols) = List.length cols.
Proof. induction cols as [|c cols IH]; [reflexivity|]. cbn. now rewrite IH. Qed.

(** C6, as stated, fails for field names that are not column names: the key
    is pasted into the statement as it is, so the one key
    [name = email, password] makes the engine assign two columns.  The update
    succeeds and changes the column [name], which is no key of the map. *)
Lemma raw_key_changes_unsupplied_column :
  update_user_query raw_key_map
  = "UPDATE users SET name = email, password = %s WHERE id = %s" /\
  result (update_user calm 2 raw_key_map seeded) = Return true /\
  ~ In "name" (keys raw_key_map) /\
  result (get_user_by_id calm 2 seeded)
  = Return (Some [("id", VInt 2); ("name", VStr "Jane Smith");
                  ("email", VStr "jane.smith@example.com");
                  ("password", VStr "0123456789abcdef")]) /\
  result (get_user_by_id calm 2 (db_after (update_user calm 2 raw_key_map seeded)))
  = Return (Some [("id", VInt 2); ("name", VStr "jane.smith@example.com");
                  ("email", VStr "jane.smith@example.com");
                  ("password", VStr "s3cret-pw")]).
Proof.
  split; [reflexivity|]. split; [vm_compute; reflexivity|].
  split; [cbn; intros [H|[]]; discriminate H|].
  split; vm_compute; reflexivity.
Qed.

(** C6, amended: for every user id and every non-empty field map whose keys
    are column names of the users table, [update_user] builds the text
    [UPDATE users SET k1 = %s, ..., kn = %s WHERE id = %s], which the engine
    reads as one assignment per key in map order, and binds the map's values
    followed by the id.  When the call returns [True], every row with that id
    has the supplied values in the supplied columns and its other columns as
    before, every other row is as before, and the other tables and the id
    counter are untouched. *)
Theorem update_user_changes_supplied_columns (env : Env) (uid : Z) (data : dict)
    (s : server) :
  data <> [] ->
  NoDup (keys data) ->
  Forall (fun k => ucol_of k <> None) (keys data) ->
  update_user_query data
  = ("UPDATE users SET "
     ++ String.concat ", " (map (fun key => key ++ " = %s") (keys data))
     ++ " WHERE id = %s")%string /\
  (exists cols,
     keys data = map ucol_name cols /\
     parse (update_user_query data)
     = Some (UpdateUser (map (fun c => (c, EParam)) cols))) /\
  update_user_values uid data = (values data ++ [VInt uid])%list /\
  (result (update_user env uid data s) = Return true ->
   exists d t new,
     s = Some d /\ users d = Some t /\
     db_after (update_user env uid data s)
     = Some (mkSchema (Some (mkTable new (auto_increment t))) (posts d) (products d)) /\
     Forall2 (updated_as uid data) (rows t) new).
Proof.
  intros Hne Hnd Hcols.
  destruct (columns_of_keys _ Hcols) as [cols Hk].
  assert (Hcne : cols <> []).
  { intros ->. destruct data; [congruence|discriminate Hk]. }
  pose proof (parse_update_user_query data cols Hcne Hk) as Hparse.
  split; [reflexivity|]. split; [now exists cols|]. split; [reflexivity|].
  intros H. apply execute_query_true in H. destruct H as [r H].
  fold (update_user env uid data s) in H.
  remember (db_after (update_user env uid data s)) as s1 eqn:Hs1. clear Hs1.
  unfold update_user_values in H. rewrite sent_snoc in H.
  unfold run_text in H. rewrite Hparse in H.
  assert (Hlen : Nat.eqb (placeholders (UpdateUser (map (fun c => (c, EParam)) cols)))
                         (List.length (values data ++ [VInt uid])%list) = true).
  { cbn [placeholders]. rewrite count_params_all, length_app. cbn [List.length].
    unfold values. rewrite length_map, <- (length_map fst data).
    fold (keys data). rewrite Hk, length_map, Nat.add_1_r. apply Nat.eqb_refl. }
  destruct (values data ++ [VInt uid])%list as [|v0 args] eqn:Eargs.
  { destruct (values data); discriminate Eargs. }
  rewrite Hlen in H. rewrite <- Eargs in H. clear Hlen.
  destruct s as [d|]; [|discriminate H].
  cbn [run_stmt] in H. unfold update_users, with_table in H.
  destruct (users d) as [t|] eqn:Ht; [|discriminate H].
  rewrite split_last_snoc in H.
  destruct (update_rows _ (values data) (VInt uid) (rows t)) as [e|new] eqn:Hnew;
    cbn [bindE] in H; [discriminate H|].
  destruct (negb (distinct Z.eqb (map user_id new))); [discriminate H|].
  destruct (negb (distinct String.eqb (map user_email new))); [discriminate H|].
  destruct (moved_while_referenced d (rows t) new); [discriminate H|].
  cbn [bindE fst snd] in H. injection H as _ <-.
  exists d, t, new.
  split; [reflexivity|]. split; [exact Ht|]. split; [reflexivity|].
  apply update_rows_each in Hnew.
  assert (Hndc : NoDup cols).
  { rewrite Hk in Hnd. revert Hnd. clear. induction cols as [|c cols IH].
    - constructor.
    - cbn [map]. intros H. inversion H as [|? ? Hn Hd]; subst.
      constructor; [|now apply IH].
      intros Hin. apply Hn. now apply in_map. }
  eapply Forall2_impl; [|exact Hnew].
  intros u u' Hu. unfold updated_as. cbn [id_is] in Hu.
  destruct (Z.eqb (user_id u) uid); [|exact Hu].
  split.
  - intros k v Hin. rewrite <- (combine_keys_values data), Hk in Hin.
    apply in_combine_names in Hin. destruct Hin as (c & -> & Hin).
    exists c. split; [apply ucol_of_name|].
    apply (assign_sets cols (values data) u u' Hndc Hu c v Hin).
  - intros c Hc. apply (assign_frame cols (values data) u u' Hu c).
    intros Hin. apply Hc. rewrite Hk. now apply in_map.
Qed.

Lemma update_user_changes_supplied_columns_witness :
  exists d t new,
    seeded = Some d /\ users d = Some t /\
    db_after (update_user calm 2 [("name", VStr "Jane Doe"); ("password", VStr "correct horse")]
                          seeded)
    = Some (mkSchema (Some (mkTable new (auto_increment t))) (posts d) (products d)) /\
    Forall2 (updated_as 2 [("name", VStr "Jane Doe"); ("password", VStr "correct horse")])
            (rows t) new.
Proof.
  apply (update_user_changes_supplied_columns calm 2
           [("name", VStr "Jane Doe"); ("password", VStr "correct horse")] seeded).
  - discriminate.
  - repeat constructor; cbn; intuition discriminate.
  - repeat constructor; discriminate.
  - vm_compute. reflexivity.
Defined.

(** ** initialize_database, run twice *)

(** When [initialize_database] returns [True], every statement of the
    bootstrap ran and the engine holds their combined effect. *)
Lemma initialize_database_true (env : Env) (s : server) :
  result (initialize_database env s) = Return (Some true) ->
  run_scripts bootstrap (random_passwords env) s
  = inr (db_after (initialize_database env s)).
Proof.
  cbv [initialize_database run initialize_database_py bootstrap run_scripts
       bind ret try_except try_finally mysql_connect connection_cursor
       cursor_execute_script connection_commit connection_in_locals
       is_connected cursor_close connection_close session_view note
       committed connection cursor executed trace bindE
       load_users_db_data load_products_db_data load_posts_db_data
       implicit_commit].
  repeat match goal with
         | |- context [match connect_error env with _ => _ end] =>
             destruct (connect_error env)
         | |- context [match cursor_error env with _ => _ end] =>
             destruct (cursor_error env)
         | |- context [match finish_error env with _ => _ end] =>
             destruct (finish_error env)
         | |- context [if connected_at_start env then _ else _] =>
             destruct (connected_at_start env)
         | |- context [if connected_at_exit env then _ else _] =>
             destruct (connected_at_exit env)
         | |- context [match execute_error env ?n with _ => _ end] =>
             destruct (execute_error env n)
         | |- context [match run_script ?st ?pw ?x with _ => _ end] =>
             destruct (run_script st pw x)
         end;
    cbn [result db_after]; intros H; try discriminate H; reflexivity.
Qed.

(** The bootstrap, cut at its three seeding statements. *)
Lemma bootstrap_inr (pw : nat -> string) (s s' : server) :
  run_scripts bootstrap pw s = inr s' ->
  exists tu d2 d3,
    upsert_users seeded_users pw 0 (or_empty (users (tables_of s))) = inr tu /\
    insert_products seeded_products
      (mkSchema (Some tu) (Some (or_empty (posts (tables_of s))))
                (Some (or_empty (products (tables_of s))))) = inr d2 /\
    insert_posts seeded_posts d2 = inr d3 /\
    s' = Some d3.
Proof.
  unfold bootstrap, load_users_db_data, load_products_db_data, load_posts_db_data.
  intros H.
  assert (Hgen : forall tu0 tp0 tpr0,
            run_scripts [InsertUsersOnDuplicateKeyUpdateName seeded_users;
                         InsertProducts seeded_products; InsertPosts seeded_posts]
                        pw (Some (mkSchema (Some tu0) (Some tp0) (Some tpr0))) = inr s' ->
            exists tu d2 d3,
              upsert_users seeded_users pw 0 tu0 = inr tu /\
              insert_products seeded_products
                (mkSchema (Some tu) (Some tp0) (Some tpr0)) = inr d2 /\
              insert_posts seeded_posts d2 = inr d3 /\ s' = Some d3).
  { clear. intros tu0 tp0 tpr0 H.
    cbn [run_scripts run_script] in H. unfold with_database, with_table in H.
    cbn [users posts products bindE] in H.
    destruct (upsert_users seeded_users pw 0 tu0) as [e|tu] eqn:Eu;
      cbn [bindE posts products] in H; [discriminate H|].
    destruct (insert_products seeded_products _) as [e|d2] eqn:Ep;
      cbn [bindE] in H; [discriminate H|].
    destruct (insert_posts seeded_posts d2) as [e|d3] eqn:Eo;
      cbn [bindE] in H; [discriminate H|].
    exists tu, d2, d3. repeat split; try assumption. congruence. }
  destruct s as [[[tu0|] [tp0|] [tpr0|]]|];
    cbn [run_scripts run_script with_database bindE users posts products
         empty_schema] in H;
    try discriminate H; apply Hgen in H; exact H.
Qed.

(** *** Users: the upsert *)

Lemma rename_email (n e : string) (u : user) :
  user_email (rename n e u) = user_email u.
Proof. unfold rename. now destruct (String.eqb (user_email u) e). Qed.

Lemma rename_emails (n e : string) (l : list user) :
  map user_email (map (rename n e) l) = map user_email l.
Proof.
  rewrite map_map. apply map_ext. intros u. apply rename_email.
Qed.

Lemma email_taken (e : string) (l : list user) :
  existsb (fun u => String.eqb (user_email u) e) l = true <->
  In e (map user_email l).
Proof.
  rewrite existsb_exists, in_map_iff. split.
  - intros (u & Hu & He). apply String.eqb_eq in He. now exists u.
  - intros (u & He & Hu). exists u. split; [exact Hu|]. now apply String.eqb_eq.
Qed.

Lemma upsert_user_inr (n e p : string) (t t' : table user) :
  upsert_user n e p t = inr t' ->
  (In e (map user_email (rows t)) /\ rows t' = map (rename n e) (rows t)) \/
  (~ In e (map user_email (rows t)) /\
   rows t' = (rows t ++ [mkUser (auto_increment t) n e p])%list).
Proof.
  unfold upsert_user. intros H. bindE_inv H.
  apply varchar_str in E, E0, E1. subst.
  destruct (existsb (fun u => String.eqb (user_email u) e) (rows t)) eqn:Ex.
  - left. split; [now apply email_taken|]. injection H as <-. reflexivity.
  - right. split.
    + intros Hin. apply email_taken in Hin. congruence.
    + destruct (existsb _ _) in H; [discriminate H|]. injection H as <-. reflexivity.
Qed.

(** The UNIQUE(email) invariant survives the upsert. *)
Lemma upsert_user_unique (n e p : string) (t t' : table user) :
  NoDup (map user_email (rows t)) ->
  upsert_user n e p t = inr t' ->
  NoDup (map user_email (rows t')).
Proof.
  intros Hnd H. apply upsert_user_inr in H.
  destruct H as [[_ ->]|[Hnot ->]].
  - now rewrite rename_emails.
  - rewrite map_app. apply NoDup_app; [exact Hnd|repeat constructor; intros []|].
    intros a Ha [<-|[]]. contradiction.
Qed.

Lemma upsert_user_named (n e p : string) (t t' : table user) :
  upsert_user n e p t = inr t' -> named n e (rows t').
Proof.
  intros H. apply upsert_user_inr in H.
  destruct H as [[Hin ->]|[Hnot ->]]; split.
  - now rewrite rename_emails.
  - intros u Hu He. apply in_map_iff in Hu. destruct Hu as (u0 & <- & _).
    unfold rename in *. destruct (String.eqb (user_email u0) e) eqn:E.
    + reflexivity.
    + apply String.eqb_neq in E. contradiction.
  - rewrite map_app. apply in_or_app. right. now left.
  - intros u Hu He. apply in_app_or in Hu. destruct Hu as [Hu|[<-|[]]].
    + exfalso. apply Hnot. rewrite <- He. now apply in_map.
    + reflexivity.
Qed.

Lemma upsert_user_keeps_named (n e n' e' p : string) (t t' : table user) :
  e' <> e -> named n e (rows t) ->
  upsert_user n' e' p t = inr t' -> named n e (rows t').
Proof.
  intros Hne [Hin Hnm] H. apply upsert_user_inr in H.
  destruct H as [[_ ->]|[_ ->]]; split.
  - now rewrite rename_emails.
  - intros u Hu He. apply in_map_iff in Hu. destruct Hu as (u0 & <- & Hu0).
    unfold rename in *. destruct (String.eqb (user_email u0) e') eqn:E.
    + apply String.eqb_eq in E. cbn in He. congruence.
    + now apply Hnm.
  - rewrite map_app. apply in_or_app. now left.
  - intros u Hu He. apply in_app_or in Hu. destruct Hu as [Hu|[<-|[]]].
    + now apply Hnm.
    + cbn in He. congruence.
Qed.

Lemma upsert_users_unique (l : list (string * string)) (pw : nat -> string) :
  forall (i : nat) (t t' : table user),
    NoDup (map user_email (rows t)) ->
    upsert_users l pw i t = inr t' ->
    NoDup (map user_email (rows t')).
Proof.
  induction l as [|[n e] l IH]; intros i t t' Hnd H.
  - cbn in H. congruence.
  - cbn [upsert_users] in H. bindE_inv H.
    apply (IH (S i) t0 t'); [|exact H].
    now apply (upsert_user_unique n e (pw i) t t0).
Qed.

Lemma upsert_users_named (l : list (string * string)) (pw : nat -> string) :
  forall (i : nat) (t t' : table user),
    NoDup (map snd l) ->
    upsert_users l pw i t = inr t' ->
    (forall n e, named n e (rows t) -> ~ In e (map snd l) -> named n e (rows t')) /\
    (forall n e, In (n, e) l -> named n e (rows t')).
Proof.
  induction l as [|[n0 e0] l IH]; intros i t t' Hnd H.
  - cbn in H. injection H as <-. split; [auto|intros n e []].
  - cbn [upsert_users] in H. bindE_inv H.
    inversion Hnd as [|? ? Hnot Hnd']; subst.
    destruct (IH (S i) t0 t' Hnd' H) as [Hkeep Hall].
    split.
    + intros n e Hn Hout. apply Hkeep.
      * apply (upsert_user_keeps_named n e n0 e0 (pw i) t t0); [|exact Hn|exact E].
        intros ->. apply Hout. now left.
      * intros Hin. apply Hout. now right.
    + intros n e [[= <- <-]|Hin].
      * apply Hkeep; [|exact Hnot].
        apply (upsert_user_named n0 e0 (pw i) t t0 E).
      * now apply Hall.
Qed.

Lemma no_row (e : string) (l : list user) :
  ~ In e (map user_email l) ->
  filter (fun u => String.eqb (user_email u) e) l = [].
Proof.
  induction l as [|x l IH]; intros Hn; [reflexivity|].
  cbn [filter]. destruct (String.eqb (user_email x) e) eqn:Ex.
  - apply String.eqb_eq in Ex. exfalso. apply Hn. left. exact Ex.
  - apply IH. intros Hin. apply Hn. now right.
Qed.

(** Under UNIQUE(email), a row for [e] is the only one. *)
Lemma unique_row (e : string) (l : list user) :
  NoDup (map user_email l) ->
  In e (map user_email l) ->
  exists u, filter (fun u => String.eqb (user_email u) e) l = [u] /\ In u l.
Proof.
  induction l as [|u l IH]; intros Hnd Hin; [destruct Hin|].
  cbn [map] in Hnd. inversion Hnd as [|? ? Hnot Hnd']; subst.
  cbn [filter]. destruct (String.eqb (user_email u) e) eqn:E.
  - apply String.eqb_eq in E. exists u. split; [|now left].
    f_equal. apply no_row. now rewrite <- E.
  - destruct Hin as [He|Hin].
    + apply String.eqb_neq in E. contradiction.
    + destruct (IH Hnd' Hin) as (u0 & Hf & Hu0). exists u0. split; [exact Hf|now right].
Qed.

(** When every email of the statement is taken, the upsert adds no row. *)
Lemma upsert_users_no_new_row (l : list (string * string)) (pw : nat -> string) :
  forall (i : nat) (t t' : table user),
    (forall e, In e (map snd l) -> In e (map user_email (rows t))) ->
    upsert_users l pw i t = inr t' ->
    map user_email (rows t') = map user_email (rows t).
Proof.
  induction l as [|[n e] l IH]; intros i t t' Hall H.
  - cbn in H. congruence.
  - cbn [upsert_users] in H. bindE_inv H.
    apply upsert_user_inr in E.
    destruct E as [[_ E]|[Hnot _]].
    + rewrite (IH (S i) t0 t'); [rewrite E; apply rename_emails| |exact H].
      intros e' He'. rewrite E, rename_emails. apply Hall. now right.
    + exfalso. apply Hnot, Hall. now left.
Qed.

(** *** Products and posts: plain inserts *)

Lemma insert_post_inr (title content : string) (uid : Z)
    (d : schema) (r : reply) (d' : schema) :
  insert_post (VStr title) (VStr content) (VInt uid) d = inr (r, d') ->
  exists t,
    posts d = Some t /\
    d' = mkSchema (users d)
           (Some (mkTable (rows t ++ [mkPost (auto_increment t) title content uid])
                          (auto_increment t + 1)))
           (products d).
Proof.
  unfold insert_post, with_table. intros H.
  destruct (posts d) as [t|]; [|discriminate H].
  exists t. split; [reflexivity|].
  bindE_inv H.
  apply varchar_str in E. apply text_str in E0. apply int_int in E1. subst.
  destruct (negb _); [discriminate H|].
  destruct (existsb _ _); [discriminate H|].
  congruence.
Qed.

Lemma insert_products_count (l : list (string * string * Z * Z)) :
  forall d d',
    insert_products l d = inr d' ->
    users d' = users d /\ posts d' = posts d /\
    forall key,
      count_in (product_is key) (products d')
      = (count_in (product_is key) (products d)
         + List.length (filter (fun c => product_is key (as_product c)) l))%nat.
Proof.
  induction l as [|[[[n ds] p] q] l IH]; intros d d' H.
  - cbn in H. injection H as <-. repeat split. intros key. cbn. lia.
  - cbn [insert_products] in H.
    destruct (insert_product _ _ _ _ d) as [e|[r d1]] eqn:E1;
      cbn [bindE snd] in H; [discriminate H|].
    apply insert_product_inr in E1. destruct E1 as (t & Ht & ->).
    destruct (IH _ _ H) as (Hu & Hp & Hc). cbn [users posts products] in *.
    repeat split; try assumption. intros key. rewrite Hc, Ht.
    unfold count_in. cbn [or_empty rows filter as_product].
    rewrite filter_app, length_app. cbn [filter].
    change (product_is key (mkProduct (auto_increment t) n ds p q))
      with (product_is key (mkProduct 0 n ds p q)).
    destruct (product_is key (mkProduct 0 n ds p q)); cbn [List.length]; lia.
Qed.

Lemma insert_posts_count (l : list (string * string * Z)) :
  forall d d',
    insert_posts l d = inr d' ->
    users d' = users d /\ products d' = products d /\
    forall key,
      count_in (post_is key) (posts d')
      = (count_in (post_is key) (posts d)
         + List.length (filter (fun c => post_is key (as_post c)) l))%nat.
Proof.
  induction l as [|[[ti ct] u] l IH]; intros d d' H.
  - cbn in H. injection H as <-. repeat split. intros key. cbn. lia.
  - cbn [insert_posts] in H.
    destruct (insert_post _ _ _ d) as [e|[r d1]] eqn:E1;
      cbn [bindE snd] in H; [discriminate H|].
    apply insert_post_inr in E1. destruct E1 as (t & Ht & ->).
    destruct (IH _ _ H) as (Hu & Hp & Hc). cbn [users posts products] in *.
    repeat split; try assumption. intros key. rewrite Hc, Ht.
    unfold count_in. cbn [or_empty rows filter as_post].
    rewrite filter_app, length_app. cbn [filter].
    change (post_is key (mkPost (auto_increment t) ti ct u))
      with (post_is key (mkPost 0 ti ct u)).
    destruct (post_is key (mkPost 0 ti ct u)); cbn [List.length]; lia.
Qed.

Lemma seeded_emails_distinct : NoDup (map snd seeded_users).
Proof. repeat constructor; cbn; intuition discriminate. Qed.

Lemma seeded_product_once (key : string * string * Z * Z) :
  In key seeded_products ->
  List.length (filter (fun c => product_is key (as_product c)) seeded_products) = 1%nat.
Proof.
  intros H. repeat (destruct H as [<-|H]; [vm_compute; reflexivity|]). destruct H.
Qed.

Lemma seeded_post_once (key : string * string * Z) :
  In key seeded_posts ->
  List.length (filter (fun c => post_is key (as_post c)) seeded_posts) = 1%nat.
Proof.
  intros H. repeat (destruct H as [<-|H]; [vm_compute; reflexivity|]). destruct H.
Qed.

(** One successful run of [initialize_database]. *)
Lemma initialize_database_once (env : Env) (s : server) :
  result (initialize_database env s) = Return (Some true) ->
  (NoDup (map user_email (users_of s)) ->
   NoDup (map user_email (users_of (db_after (initialize_database env s))))) /\
  (forall n e, In (n, e) seeded_users ->
     named n e (users_of (db_after (initialize_database env s)))) /\
  ((forall e, In e (map snd seeded_users) -> In e (map user_email (users_of s))) ->
   map user_email (users_of (db_after (initialize_database env s)))
   = map user_email (users_of s)) /\
  (forall key, In key seeded_products ->
     count_products key (db_after (initialize_database env s))
     = S (count_products key s)) /\
  (forall key, In key seeded_posts ->
     count_posts key (db_after (initialize_database env s))
     = S (count_posts key s)).
Proof.
  intros H. apply initialize_database_true in H. apply bootstrap_inr in H.
  destruct H as (tu & d2 & d3 & Hu & Hp & Ho & ->).
  apply insert_products_count in Hp. destruct Hp as (Hu2 & Hp2 & Hc2).
  apply insert_posts_count in Ho. destruct Ho as (Hu3 & Hp3 & Hc3).
  cbn [users posts products] in *.
  unfold users_of, count_products, count_posts, products_of, posts_of.
  cbn [tables_of]. rewrite Hu3, Hu2. cbn [or_empty].
  split; [|split; [|split; [|split]]].
  - intros Hnd. apply (upsert_users_unique _ _ _ _ _ Hnd Hu).
  - intros n e Hin.
    apply (proj2 (upsert_users_named _ _ _ _ _ seeded_emails_distinct Hu) n e Hin).
  - intros Hall. apply (upsert_users_no_new_row _ _ _ _ _ Hall Hu).
  - intros key Hin. specialize (Hc2 key). unfold count_in in Hc2.
    rewrite Hp3, Hc2, (seeded_product_once key Hin). cbn [or_empty]. lia.
  - intros key Hin. specialize (Hc3 key). unfold count_in in Hc3.
    rewrite Hc3, Hp2, (seeded_post_once key Hin). cbn [or_empty]. lia.
Qed.

(** C3: when [initialize_database] succeeds twice in a row, starting from
    any state that respects the UNIQUE(email) constraint, the users table
    holds exactly one row for each seeded email, with the seeded name, and
    the second call has added no user row; each seeded product and each
    seeded post has one more row after the second call than after the
    first, so at least two. *)
Theorem initialize_database_twice (env1 env2 : Env) (s : server) :
  NoDup (map user_email (users_of s)) ->
  result (initialize_database env1 s) = Return (Some true) ->
  result (initialize_database env2 (db_after (initialize_database env1 s)))
  = Return (Some true) ->
  (forall name email, In (name, email) seeded_users ->
     exists u,
       filter (fun u => String.eqb (user_email u) email)
              (users_of (db_after (initialize_database env2
                                     (db_after (initialize_database env1 s)))))
       = [u] /\ user_name u = name) /\
  map user_email (users_of (db_after (initialize_database env2
                                        (db_after (initialize_database env1 s)))))
  = map user_email (users_of (db_after (initialize_database env1 s))) /\
  (forall key, In key seeded_products ->
     count_products key (db_after (initialize_database env2
                                     (db_after (initialize_database env1 s))))
     = S (count_products key (db_after (initialize_database env1 s))) /\
     (1 <= count_products key (db_after (initialize_database env1 s)))%nat) /\
  (forall key, In key seeded_posts ->
     count_posts key (db_after (initialize_database env2
                                  (db_after (initialize_database env1 s))))
     = S (count_posts key (db_after (initialize_database env1 s))) /\
     (1 <= count_posts key (db_after (initialize_database env1 s)))%nat).
Proof.
  intros Hnd H1 H2.
  destruct (initialize_database_once env1 s H1) as (U1 & N1 & _ & P1 & O1).
  destruct (initialize_database_once env2 _ H2) as (U2 & N2 & E2 & P2 & O2).
  split; [|split; [|split]].
  - intros name email Hin. destruct (N2 name email Hin) as [Hrow Hname].
    destruct (unique_row email _ (U2 (U1 Hnd)) Hrow) as (u & Hf & Hu).
    exists u. split; [exact Hf|]. apply Hname; [exact Hu|].
    assert (Hin' : In u (filter (fun u => String.eqb (user_email u) email)
                          (users_of (db_after (initialize_database env2
                             (db_after (initialize_database env1 s))))))).
    { rewrite Hf. now left. }
    apply filter_In in Hin'. now apply String.eqb_eq.
  - apply E2. intros e He. apply in_map_iff in He. destruct He as ([n e'] & <- & Hin).
    exact (proj1 (N1 n e' Hin)).
  - intros key Hin. split; [now apply P2|]. rewrite (P1 key Hin). lia.
  - intros key Hin. split; [now apply O2|]. rewrite (O1 key Hin). lia.
Qed.

Lemma initialize_database_twice_witness :
  count_products ("Dell XPS 13", "Ultra-portable laptop with Intel i7, 16GB RAM, 1TB SSD",
                  129900, 40)
                 (db_after (initialize_database calm
                              (db_after (initialize_database calm None))))
  = S (count_products
         ("Dell XPS 13", "Ultra-portable laptop with Intel i7, 16GB RAM, 1TB SSD",
          129900, 40)
         (db_after (initialize_database calm None))) /\
  map user_email (users_of (db_after (initialize_database calm
                                        (db_after (initialize_database calm None)))))
  = map user_email (users_of (db_after (initialize_database calm None))).
Proof.
  assert (H : NoDup (map user_email (users_of None))) by constructor.
  assert (H1 : result (initialize_database calm None) = Return (Some true))
    by (vm_compute; reflexivity).
  assert (H2 : result (initialize_database calm (db_after (initialize_database calm None)))
               = Return (Some true))
    by (vm_compute; reflexivity).
  split.
  - apply (proj1 (proj2 (proj2 (initialize_database_twice calm calm None H H1 H2)))).
    right. left. reflexivity.
  - apply (proj1 (proj2 (initialize_database_twice calm calm None H H1 H2))).
Defined.

(** * Further properties *)

(** ** Helpers on the primitives *)

Lemma execute_query_not_true (env : Env) (query : string)
    (params : option (list value)) (s : server) :
  result (execute_query env query params s) <> Return true ->
  db_after (execute_query env query params s) = s.
Proof.
  rewrite execute_query_eq. unfold without_cursor.
  destruct (opens env s); [|reflexivity].
  destruct (cursor_error env); [destruct (connected_at_exit env); reflexivity|].
  destruct (execute_error env 0); [reflexivity|].
  destruct (run_text _ _ s) as [e|[r s']]; [reflexivity|].
  destruct (finish_error env); [reflexivity|].
  cbn. congruence.
Qed.

Lemma undisturbed_opens (env : Env) (d : schema) :
  undisturbed env -> opens env (Some d) = true.
Proof. intros (H & _). unfold opens. now rewrite H. Qed.

Lemma fetch_one_undisturbed (env : Env) (query : string)
    (params : option (list value)) (d : schema) (n : Z) (l : list row) (s' : server) :
  undisturbed env ->
  run_text query (sent params) (Some d) = inr (mkReply n (Some l), s') ->
  result (fetch_one env query params (Some d)) = Return (hd_error l).
Proof.
  intros Hq Hrun. rewrite fetch_one_eq, (undisturbed_opens env d Hq).
  destruct Hq as (_ & Hc & He & Hf). rewrite Hc. unfold rows_read.
  now rewrite He, Hrun, Hf.
Qed.

Lemma fetch_all_undisturbed (env : Env) (query : string)
    (params : option (list value)) (d : schema) (n : Z) (l : list row) (s' : server) :
  undisturbed env ->
  run_text query (sent params) (Some d) = inr (mkReply n (Some l), s') ->
  result (fetch_all env query params (Some d)) = Return l.
Proof.
  intros Hq Hrun. rewrite fetch_all_eq, (undisturbed_opens env d Hq).
  destruct Hq as (_ & Hc & He & Hf). rewrite Hc. unfold rows_read.
  now rewrite He, Hrun, Hf.
Qed.

Lemma calm_undisturbed : undisturbed calm.
Proof. repeat split. Qed.

(** ** create_user and get_user_by_email *)

Lemma insert_user_inr (name email password : string) (d : schema) (r : reply)
    (d' : schema) :
  insert_user (VStr name) (VStr email) (VStr password) d = inr (r, d') ->
  exists t,
    users d = Some t /\
    ~ In email (map user_email (rows t)) /\
    d' = mkSchema
           (Some (mkTable (rows t ++ [mkUser (auto_increment t) name email password])
                          (auto_increment t + 1)))
           (posts d) (products d).
Proof.
  unfold insert_user, with_table. intros H.
  destruct (users d) as [t|]; [|discriminate H].
  exists t. split; [reflexivity|].
  bindE_inv H. apply varchar_str in E, E0, E1. subst.
  destruct (existsb (fun u => String.eqb (user_email u) email) (rows t)) eqn:Ex;
    [discriminate H|].
  destruct (existsb _ _) in H; [discriminate H|].
  split; [|congruence].
  intros Hin. apply email_taken in Hin. congruence.
Qed.

Lemma create_user_true (env : Env) (name email password : string) (s : server) :
  result (create_user env name email password s) = Return true ->
  exists d t,
    s = Some d /\ users d = Some t /\
    ~ In email (map user_email (rows t)) /\
    db_after (create_user env name email password s)
    = Some (mkSchema
              (Some (mkTable
                       (rows t ++ [mkUser (auto_increment t) name email password])
                       (auto_increment t + 1)))
              (posts d) (products d)).
Proof.
  intros H. apply execute_query_true in H. destruct H as [r H].
  fold (create_user env name email password s) in H.
  remember (db_after (create_user env name email password s)) as s1 eqn:Hs1.
  clear Hs1. unfold run_text in H.
  change (parse _) with (Some InsertUser) in H.
  cbn [sent truthy placeholders Nat.eqb List.length run_stmt] in H.
  destruct s as [d|]; [|discriminate H].
  destruct (insert_user _ _ _ d) as [e|[r0 d0]] eqn:Hd;
    cbn [bindE fst snd] in H; [discriminate H|].
  apply insert_user_inr in Hd. destruct Hd as (t & Ht & Hnew & ->).
  exists d, t. repeat split; try assumption. congruence.
Qed.

Lemma select_user_by_email_run (email : string) (d : schema) (t : table user)
    (p : option (list value)) :
  users d = Some t ->
  p = Some [VStr email] ->
  run_text "SELECT * FROM users WHERE email = %s" (sent p) (Some d)
  = inr (selected (map user_row
                       (filter (fun u => String.eqb (user_email u) email) (rows t))),
         Some d).
Proof.
  intros Ht ->. unfold run_text.
  change (parse _) with (Some SelectUserByEmail).
  cbn [sent truthy placeholders Nat.eqb List.length run_stmt select_from].
  rewrite Ht. reflexivity.
Qed.

(** X1: After [create_user] has returned [True], [get_user_by_email] for that
    email yields the new user or nothing, never another row; it yields the new
    user, with the name, email and password given, when nothing fails on the
    way. *)
Theorem created_user_is_found_by_email (env1 env2 : Env) (name email password : string)
    (s : server) :
  result (create_user env1 name email password s) = Return true ->
  exists id,
    (forall a,
       result (get_user_by_email env2 email
                 (db_after (create_user env1 name email password s))) = Return a ->
       a = None \/ a = Some (user_dict id name email password)) /\
    (undisturbed env2 ->
     result (get_user_by_email env2 email
               (db_after (create_user env1 name email password s)))
     = Return (Some (user_dict id name email password))).
Proof.
  intros H. apply create_user_true in H. destruct H as (d & t & -> & Ht & Hnew & ->).
  exists (auto_increment t).
  match goal with |- context [Some ?x] =>
    match x with mkSchema _ _ _ => set (d' := x) end end.
  pose proof (select_user_by_email_run email d' _ (Some [VStr email]) eq_refl eq_refl)
    as Hrun.
  cbn [rows] in Hrun. rewrite filter_app, (no_row email _ Hnew) in Hrun.
  cbn [filter app] in Hrun. rewrite String.eqb_refl in Hrun.
  cbn [map user_email user_row user_id user_name user_password] in Hrun.
  split.
  - intros a Ha. apply fetch_one_cases in Ha.
    destruct Ha as [Ha|(l & Hl & ->)]; [now left|].
    apply rows_read_run in Hl. destruct Hl as (n & s' & Hl).
    fold (sent (Some [VStr email])) in Hl. rewrite Hrun in Hl.
    injection Hl as _ <- _. right. reflexivity.
  - intros Hq. unfold get_user_by_email.
    rewrite (fetch_one_undisturbed env2 _ _ d' _ _ _ Hq Hrun). reflexivity.
Qed.

Lemma created_user_is_found_by_email_witness :
  exists id,
    result (get_user_by_email calm "eve@example.com"
              (db_after (create_user calm "Eve" "eve@example.com" "longenough" seeded)))
    = Return (Some (user_dict id "Eve" "eve@example.com" "longenough")).
Proof.
  destruct (created_user_is_found_by_email calm calm "Eve" "eve@example.com"
              "longenough" seeded) as (id & _ & H).
  - vm_compute. reflexivity.
  - exists id. apply H. exact calm_undisturbed.
Defined.

(** X2: [create_user] with an email that a row of the users table already has
    never returns [True], and the engine keeps its state: the email column is
    UNIQUE. *)
Theorem create_user_taken_email (env : Env) (name email password : string)
    (s : server) :
  In email (map user_email (users_of s)) ->
  result (create_user env name email password s) <> Return true /\
  db_after (create_user env name email password s) = s.
Proof.
  intros Hin.
  assert (Hno : result (create_user env name email password s) <> Return true).
  { intros H. apply create_user_true in H.
    destruct H as (d & t & -> & Ht & Hnew & _).
    apply Hnew. unfold users_of in Hin. cbn [tables_of] in Hin.
    now rewrite Ht in Hin. }
  split; [exact Hno|]. now apply execute_query_not_true.
Qed.

Lemma create_user_taken_email_witness :
  result (create_user calm "Johnny" "john.doe@example.com" "longenough" seeded)
  <> Return true /\
  db_after (create_user calm "Johnny" "john.doe@example.com" "longenough" seeded)
  = seeded.
Proof.
  apply (create_user_taken_email calm "Johnny" "john.doe@example.com" "longenough" seeded).
  vm_compute. left. reflexivity.
Defined.

(** ** Posts and their foreign key *)

Lemma user_exists_in (d : schema) (id : Z) :
  user_exists d id = true <-> In id (map user_id (users_of (Some d))).
Proof.
  unfold user_exists, users_of. cbn [tables_of].
  destruct (users d) as [t|]; cbn [or_empty rows empty_table].
  - rewrite existsb_exists, in_map_iff. split.
    + intros (u & Hu & He). apply Z.eqb_eq in He. now exists u.
    + intros (u & He & Hu). exists u. split; [exact Hu|]. now apply Z.eqb_eq.
  - split; [discriminate|intros []].
Qed.

Lemma referenced_in (d : schema) (id : Z) :
  referenced d id = true <-> In id (map post_user_id (posts_of (Some d))).
Proof.
  unfold referenced, posts_of. cbn [tables_of].
  destruct (posts d) as [t|]; cbn [or_empty rows empty_table].
  - rewrite existsb_exists, in_map_iff. split.
    + intros (u & Hu & He). apply Z.eqb_eq in He. now exists u.
    + intros (u & He & Hu). exists u. split; [exact Hu|]. now apply Z.eqb_eq.
  - split; [discriminate|intros []].
Qed.

Lemma create_post_true (env : Env) (title content : string) (uid : Z) (s : server) :
  result (create_post env title content uid s) = Return true ->
  exists d t,
    s = Some d /\ posts d = Some t /\
    In uid (map user_id (users_of s)) /\
    db_after (create_post env title content uid s)
    = Some (mkSchema (users d)
              (Some (mkTable (rows t ++ [mkPost (auto_increment t) title content uid])
                             (auto_increment t + 1)))
              (products d)).
Proof.
  intros H. apply execute_query_true in H. destruct H as [r H].
  fold (create_post env title content uid s) in H.
  remember (db_after (create_post env title content uid s)) as s1 eqn:Hs1.
  clear Hs1. unfold run_text in H.
  change (parse _) with (Some InsertPost) in H.
  cbn [sent truthy placeholders Nat.eqb List.length run_stmt] in H.
  destruct s as [d|]; [|discriminate H].
  destruct (insert_post _ _ _ d) as [e|[r0 d0]] eqn:Hd;
    cbn [bindE fst snd] in H; [discriminate H|].
  assert (Hex : user_exists d uid = true).
  { unfold insert_post, with_table in Hd.
    destruct (posts d); [|discriminate Hd]. bindE_inv Hd.
    apply int_int in E1. subst.
    destruct (user_exists d uid); [reflexivity|discriminate Hd]. }
  apply insert_post_inr in Hd. destruct Hd as (t & Ht & ->).
  exists d, t. repeat split; try assumption.
  - now apply user_exists_in.
  - congruence.
Qed.

(** X3: [create_post] for a [user_id] that no row of the users table has never
    returns [True], and the engine keeps its state: no post is created. *)
Theorem create_post_needs_user (env : Env) (title content : string) (uid : Z)
    (s : server) :
  ~ In uid (map user_id (users_of s)) ->
  result (create_post env title content uid s) <> Return true /\
  db_after (create_post env title content uid s) = s.
Proof.
  intros Hno.
  assert (H : result (create_post env title content uid s) <> Return true).
  { intros H. apply create_post_true in H.
    destruct H as (d & t & _ & _ & Hin & _). contradiction. }
  split; [exact H|]. now apply execute_query_not_true.
Qed.

Lemma create_post_needs_user_witness :
  result (create_post calm "Hello" "A first post" 42 seeded) <> Return true /\
  db_after (create_post calm "Hello" "A first post" 42 seeded) = seeded.
Proof.
  apply (create_post_needs_user calm "Hello" "A first post" 42 seeded).
  vm_compute. intuition discriminate.
Defined.

Lemma select_posts_by_user_run (uid : Z) (d : schema) (t : table post)
    (p : option (list value)) :
  posts d = Some t ->
  p = Some [VInt uid] ->
  run_text "SELECT * FROM posts WHERE user_id = %s" (sent p) (Some d)
  = inr (selected (map post_row
                       (filter (fun r => Z.eqb (post_user_id r) uid) (rows t))),
         Some d).
Proof.
  intros Ht ->. unfold run_text.
  change (parse _) with (Some SelectPostsByUserId).
  cbn [sent truthy placeholders Nat.eqb List.length run_stmt select_from].
  rewrite Ht. reflexivity.
Qed.

Lemma posts_by_user_cases (env : Env) (uid : Z) (s : server) (l : list row) :
  result (get_posts_by_user_id env uid s) = Return l ->
  l = [] \/
  l = map post_row (filter (fun r => Z.eqb (post_user_id r) uid) (posts_of s)).
Proof.
  intros H. apply fetch_all_cases in H. destruct H as [->|H]; [now left|].
  apply rows_read_run in H. destruct H as (n & s' & H).
  unfold run_text in H.
  change (parse _) with (Some SelectPostsByUserId) in H.
  cbn [sent truthy placeholders Nat.eqb List.length run_stmt select_from] in H.
  destruct s as [d|]; [|discriminate H].
  unfold with_table in H. unfold posts_of. cbn [tables_of].
  destruct (posts d) as [t|]; [|discriminate H].
  cbn [bindE fst snd selected or_empty] in H. injection H as _ <- _. now right.
Qed.

(** X4: [get_posts_by_user_id] returns posts of that user only: every row it
    returns carries the [user_id] asked for.  When nothing fails on the way
    and the posts table exists, it returns all posts of the user, in table
    order. *)
Theorem posts_by_user_are_that_users (env : Env) (uid : Z) (s : server) :
  (forall l r,
     result (get_posts_by_user_id env uid s) = Return l -> In r l ->
     row_get r "user_id" = Some (VInt uid)) /\
  (undisturbed env ->
   forall d t, s = Some d -> posts d = Some t ->
   result (get_posts_by_user_id env uid s)
   = Return (map post_row (filter (fun r => Z.eqb (post_user_id r) uid) (rows t)))).
Proof.
  split.
  - intros l r Hl Hin. apply posts_by_user_cases in Hl.
    destruct Hl as [->| ->]; [destruct Hin|].
    apply in_map_iff in Hin. destruct Hin as (p & <- & Hp).
    apply filter_In in Hp. destruct Hp as [_ Hp]. apply Z.eqb_eq in Hp.
    cbn. now rewrite Hp.
  - intros Hq d t -> Ht. unfold get_posts_by_user_id.
    apply (fetch_all_undisturbed env _ _ d (-1) _ (Some d) Hq).
    now apply select_posts_by_user_run.
Qed.

Lemma posts_by_user_are_that_users_witness :
  result (get_posts_by_user_id calm 3 (Some seeded_schema))
  = Return (map post_row
                (filter (fun r => Z.eqb (post_user_id r) 3)
                        (rows (or_empty (posts seeded_schema))))).
Proof.
  apply (proj2 (posts_by_user_are_that_users calm 3 (Some seeded_schema))
               calm_undisturbed seeded_schema (or_empty (posts seeded_schema)) eq_refl).
  reflexivity.
Defined.

(** X5: After [create_post] has returned [True], [get_posts_by_user_id] for the
    author, when nothing fails on the way, returns the author's earlier posts
    followed by the new one. *)
Theorem created_post_is_listed (env1 env2 : Env) (title content : string) (uid : Z)
    (s : server) :
  result (create_post env1 title content uid s) = Return true ->
  undisturbed env2 ->
  exists id,
    result (get_posts_by_user_id env2 uid (db_after (create_post env1 title content uid s)))
    = Return (map post_row (filter (fun r => Z.eqb (post_user_id r) uid) (posts_of s))
              ++ [post_row (mkPost id title content uid)])%list.
Proof.
  intros H Hq. apply create_post_true in H.
  destruct H as (d & t & -> & Ht & _ & ->). exists (auto_increment t).
  match goal with |- context [Some ?x] =>
    match x with mkSchema _ _ _ => set (d' := x) end end.
  rewrite (proj2 (posts_by_user_are_that_users env2 uid (Some d')) Hq d' _ eq_refl eq_refl).
  cbn [rows]. rewrite filter_app, map_app. cbn [filter post_user_id].
  rewrite Z.eqb_refl. unfold posts_of. cbn [tables_of]. rewrite Ht. reflexivity.
Qed.

Lemma created_post_is_listed_witness :
  exists id,
    result (get_posts_by_user_id calm 2
              (db_after (create_post calm "Hello" "A first post" 2 seeded)))
    = Return (map post_row (filter (fun r => Z.eqb (post_user_id r) 2) (posts_of seeded))
              ++ [post_row (mkPost id "Hello" "A first post" 2)])%list.
Proof.
  apply (created_post_is_listed calm calm "Hello" "A first post" 2 seeded).
  - vm_compute. reflexivity.
  - exact calm_undisturbed.
Defined.

(** X6: [delete_user] for a user who is the author of a post never returns
    [True], and the engine keeps its state: the posts table refers to the
    users table and nothing cascades. *)
Theorem delete_user_with_posts (env : Env) (id : Z) (s : server) :
  In id (map user_id (users_of s)) ->
  In id (map post_user_id (posts_of s)) ->
  result (delete_user env id s) <> Return true /\
  db_after (delete_user env id s) = s.
Proof.
  intros Hu Hp.
  assert (H : result (delete_user env id s) <> Return true).
  { intros H. apply execute_query_true in H. destruct H as [r H].
    unfold run_text in H.
    change (parse _) with (Some (DeleteById Users)) in H.
    cbn [sent truthy placeholders Nat.eqb List.length run_stmt] in H.
    destruct s as [d|]; [|discriminate H].
    unfold delete_by_id, with_table in H.
    unfold users_of in Hu. cbn [tables_of] in Hu.
    destruct (users d) as [t|]; [|discriminate H]. cbn [or_empty] in Hu.
    assert (Hex : existsb (fun u => id_is (VInt id) (user_id u) && referenced d (user_id u))
                          (rows t) = true).
    { apply existsb_exists. apply in_map_iff in Hu. destruct Hu as (u & <- & Hin).
      exists u. split; [exact Hin|]. cbn [id_is]. rewrite Z.eqb_refl.
      now apply referenced_in. }
    rewrite Hex in H. discriminate H. }
  split; [exact H|]. now apply execute_query_not_true.
Qed.

Lemma delete_user_with_posts_witness :
  result (delete_user calm 1 seeded) <> Return true /\
  db_after (delete_user calm 1 seeded) = seeded.
Proof.
  apply (delete_user_with_posts calm 1 seeded); vm_compute; left; reflexivity.
Defined.

(** ** update_product, and what a delete leaves *)

Lemma update_product_true (env : Env) (pid : Z) (name description : string)
    (price quantity : Z) (s : server) :
  result (update_product env pid name description price quantity s) = Return true ->
  products_of (db_after (update_product env pid name description price quantity s))
  = map (fun r => if Z.eqb (product_id r) pid
                  then mkProduct pid name description price quantity else r)
        (products_of s) /\
  users_of (db_after (update_product env pid name description price quantity s))
  = users_of s /\
  posts_of (db_after (update_product env pid name description price quantity s))
  = posts_of s.
Proof.
  intros H. apply execute_query_true in H. destruct H as [r H].
  fold (update_product env pid name description price quantity s) in H.
  remember (db_after (update_product env pid name description price quantity s))
    as s1 eqn:Hs1. clear Hs1.
  unfold run_text in H. change (parse _) with (Some UpdateProduct) in H.
  cbn [sent truthy placeholders Nat.eqb List.length run_stmt] in H.
  destruct s as [d|]; [|discriminate H].
  unfold update_products, with_table in H.
  destruct (products d) as [t|] eqn:Ht; [|discriminate H].
  assert (Hsame : forall l : list product,
            (forall r, In r l -> Z.eqb (product_id r) pid = false) ->
            map (fun r => if Z.eqb (product_id r) pid
                          then mkProduct pid name description price quantity else r) l
            = l).
  { induction l as [|x l IH]; intros Hall; [reflexivity|].
    cbn [map]. rewrite (Hall x) by now left. f_equal. apply IH.
    intros y Hy. apply Hall. now right. }
  destruct (existsb (fun r => id_is (VInt pid) (product_id r)) (rows t)) eqn:Ex.
  - match type of H with
    | bindE ?x _ = _ => destruct x as [e|[r0 d0]] eqn:Hin
    end; cbn [bindE fst snd] in H; [discriminate H|].
    injection H as _ <-.
    bindE_inv Hin. apply varchar_str in E. apply text_str in E0.
    apply decimal_dec in E1. apply int_int in E2. subst.
    injection Hin as _ <-.
    unfold products_of, users_of, posts_of. cbn [tables_of products users posts or_empty rows].
    rewrite Ht. cbn [or_empty]. repeat split.
    apply map_ext. intros a. cbn [id_is].
    destruct (Z.eqb (product_id a) pid) eqn:Ea; [|reflexivity].
    apply Z.eqb_eq in Ea. now rewrite Ea.
  - cbn [bindE fst snd] in H. injection H as _ <-. repeat split.
    unfold products_of. cbn [tables_of]. rewrite Ht. cbn [or_empty].
    symmetry. apply Hsame. intros y Hy.
    destruct (Z.eqb (product_id y) pid) eqn:Ey; [|reflexivity].
    assert (Hex : existsb (fun x => id_is (VInt pid) (product_id x)) (rows t) = true).
    { apply existsb_exists. exists y. split; [exact Hy|exact Ey]. }
    congruence.
Qed.

(** X7: When [update_product] returns [True], every product row with that id
    carries the four new values under the same id, every other product row is
    as before, and the users and posts tables are untouched.  A call for an
    id that no row has changes nothing. *)
Theorem update_product_replaces_one (env : Env) (pid : Z) (name description : string)
    (price quantity : Z) (s : server) :
  result (update_product env pid name description price quantity s) = Return true ->
  products_of (db_after (update_product env pid name description price quantity s))
  = map (fun r => if Z.eqb (product_id r) pid
                  then mkProduct pid name description price quantity else r)
        (products_of s) /\
  users_of (db_after (update_product env pid name description price quantity s))
  = users_of s /\
  posts_of (db_after (update_product env pid name description price quantity s))
  = posts_of s /\
  (~ In pid (map product_id (products_of s)) ->
   products_of (db_after (update_product env pid name description price quantity s))
   = products_of s).
Proof.
  intros H. destruct (update_product_true env pid name description price quantity s H)
    as (Hp & Hu & Ho).
  repeat split; try assumption.
  intros Hno. rewrite Hp. clear -Hno.
  induction (products_of s) as [|x l IH]; [reflexivity|].
  cbn [map] in *. destruct (Z.eqb (product_id x) pid) eqn:E.
  - apply Z.eqb_eq in E. exfalso. apply Hno. now left.
  - f_equal. apply IH. intros Hin. apply Hno. now right.
Qed.

Lemma update_product_replaces_one_witness :
  products_of (db_after (update_product calm 2 "Dell XPS 15" "Larger laptop" 159900 12 seeded))
  = map (fun r => if Z.eqb (product_id r) 2
                  then mkProduct 2 "Dell XPS 15" "Larger laptop" 159900 12 else r)
        (products_of seeded).
Proof.
  apply (update_product_replaces_one calm 2 "Dell XPS 15" "Larger laptop" 159900 12 seeded).
  vm_compute. reflexivity.
Defined.

(** X8: When [delete_user] or [delete_product] returns [True], the table has
    lost exactly the rows with that id: the other rows stay, in order, and
    the other two tables are untouched. *)
Theorem delete_removes_only_that_id (env : Env) (id : Z) (s : server) :
  (result (delete_user env id s) = Return true ->
   users_of (db_after (delete_user env id s))
   = filter (fun u => negb (Z.eqb (user_id u) id)) (users_of s) /\
   products_of (db_after (delete_user env id s)) = products_of s /\
   posts_of (db_after (delete_user env id s)) = posts_of s) /\
  (result (delete_product env id s) = Return true ->
   products_of (db_after (delete_product env id s))
   = filter (fun p => negb (Z.eqb (product_id p) id)) (products_of s) /\
   users_of (db_after (delete_product env id s)) = users_of s /\
   posts_of (db_after (delete_product env id s)) = posts_of s).
Proof.
  split; intros H.
  - apply delete_user_true in H. destruct H as (d & t & -> & Ht & ->).
    unfold users_of, products_of, posts_of. cbn [tables_of users posts products].
    rewrite Ht. repeat split.
  - apply delete_product_true in H. destruct H as (d & t & -> & Ht & ->).
    unfold users_of, products_of, posts_of. cbn [tables_of users posts products].
    rewrite Ht. repeat split.
Qed.

Lemma delete_removes_only_that_id_witness :
  users_of (db_after (delete_user calm 5 seeded))
  = filter (fun u => negb (Z.eqb (user_id u) 5)) (users_of seeded) /\
  products_of (db_after (delete_product calm 2 seeded))
  = filter (fun p => negb (Z.eqb (product_id p) 2)) (products_of seeded).
Proof.
  split.
  - apply (proj1 (delete_removes_only_that_id calm 5 seeded)). vm_compute. reflexivity.
  - apply (proj2 (delete_removes_only_that_id calm 2 seeded)). vm_compute. reflexivity.
Defined.

(** ** The handlers of routes *)

Lemma execute_query_returns (env : Env) (query : string)
    (params : option (list value)) (s : server) :
  opens env s = false \/ cursor_slip env = false ->
  exists b, result (execute_query env query params s) = Return b.
Proof.
  rewrite execute_query_eq. unfold cursor_slip, without_cursor.
  destruct (opens env s), (cursor_error env), (connected_at_exit env),
    (execute_error env 0), (run_text query (sent params) s) as [e|[r s']],
    (finish_error env); cbn [result];
    intros [H|H]; try discriminate H; eexists; reflexivity.
Qed.

(** A handler that answers with a fixed message after one facade call. *)
Lemma and_then_message {A : Type} (c : proc A) (text : string) (s : server) :
  db_after (and_then c (fun _ => done (Message text)) s) = db_after (c s) /\
  (forall b, result (and_then c (fun _ => done (Message text)) s) = Return b ->
             b = Message text) /\
  (forall a, result (c s) = Return a ->
             result (and_then c (fun _ => done (Message text)) s)
             = Return (Message text)).
Proof.
  unfold and_then, done. destruct (result (c s)) as [a|e]; cbn [result db_after].
  - repeat split; congruence.
  - repeat split; congruence.
Qed.

(** The engine's state after an UPDATE built from a map of column names
    that [execute_query] reports as successful. *)
Lemma update_user_true (env : Env) (uid : Z) (data : dict) (cols : list ucol)
    (s : server) :
  cols <> [] ->
  keys data = map ucol_name cols ->
  result (update_user env uid data s) = Return true ->
  exists d t new,
    s = Some d /\ users d = Some t /\
    db_after (update_user env uid data s)
    = Some (mkSchema (Some (mkTable new (auto_increment t))) (posts d) (products d)) /\
    Forall2 (fun u u' =>
               if Z.eqb (user_id u) uid
               then assign (map (fun c => (c, EParam)) cols) (values data) u = inr u'
               else u' = u)
            (rows t) new.
Proof.
  intros Hcne Hk H.
  pose proof (parse_update_user_query data cols Hcne Hk) as Hparse.
  apply execute_query_true in H. destruct H as [r H].
  fold (update_user env uid data s) in H.
  remember (db_after (update_user env uid data s)) as s1 eqn:Hs1. clear Hs1.
  unfold update_user_values in H. rewrite sent_snoc in H.
  unfold run_text in H. rewrite Hparse in H.
  assert (Hlen : Nat.eqb (placeholders (UpdateUser (map (fun c => (c, EParam)) cols)))
                         (List.length (values data ++ [VInt uid])%list) = true).
  { cbn [placeholders]. rewrite count_params_all, length_app. cbn [List.length].
    unfold values. rewrite length_map, <- (length_map fst data).
    fold (keys data). rewrite Hk, length_map, Nat.add_1_r. apply Nat.eqb_refl. }
  destruct (values data ++ [VInt uid])%list as [|v0 args] eqn:Eargs.
  { destruct (values data); discriminate Eargs. }
  rewrite Hlen in H. rewrite <- Eargs in H. clear Hlen.
  destruct s as [d|]; [|discriminate H].
  cbn [run_stmt] in H. unfold update_users, with_table in H.
  destruct (users d) as [t|] eqn:Ht; [|discriminate H].
  rewrite split_last_snoc in H.
  destruct (update_rows _ (values data) (VInt uid) (rows t)) as [e|new] eqn:Hnew;
    cbn [bindE] in H; [discriminate H|].
  destruct (negb (distinct Z.eqb (map user_id new))); [discriminate H|].
  destruct (negb (distinct String.eqb (map user_email new))); [discriminate H|].
  destruct (moved_while_referenced d (rows t) new); [discriminate H|].
  cbn [bindE fst snd] in H. injection H as _ <-.
  exists d, t, new.
  split; [reflexivity|]. split; [exact Ht|]. split; [reflexivity|].
  apply update_rows_each in Hnew. exact Hnew.
Qed.

Lemma set_text_column (c : ucol) (v : string) (u u' : user) :
  set_ucol c (VStr v) u = inr u' ->
  u' = match c with
       | UId => u'
       | UName => mkUser (user_id u) v (user_email u) (user_password u)
       | UEmail => mkUser (user_id u) (user_name u) v (user_password u)
       | UPassword => mkUser (user_id u) (user_name u) (user_email u) v
       end.
Proof.
  destruct c; cbn [set_ucol]; intros H; [reflexivity| | |];
    bindE_inv H; apply varchar_str in E; subst; congruence.
Qed.

Lemma Forall2_same {A : Type} (R : A -> A -> Prop) (l : list A) :
  (forall a, R a a) -> Forall2 R l l.
Proof. intros H. induction l; constructor; auto. Qed.

(** X9: The handler of PUT /users/{user_id} can only rewrite name, email and
    password of the users with that id: after it, every row of the users
    table is as before or is the row of that id with the three values of the
    request, and the products and posts tables are as before.  Its answer,
    when it answers, is "User updated", whether or not a row was updated. *)
Theorem update_user_handler_scope (env : Env) (uid : Z) (user : RoutesUsers.User)
    (s : server) :
  Forall2 (fun u u' =>
             u' = u \/
             (user_id u = uid /\
              u' = mkUser uid (RoutesUsers.name user) (RoutesUsers.email user)
                          (RoutesUsers.password user)))
          (users_of s) (users_of (db_after (RoutesUsers.update_user env uid user s))) /\
  products_of (db_after (RoutesUsers.update_user env uid user s)) = products_of s /\
  posts_of (db_after (RoutesUsers.update_user env uid user s)) = posts_of s /\
  (forall b, result (RoutesUsers.update_user env uid user s) = Return b ->
             b = Message "User updated") /\
  (opens env s = false \/ cursor_slip env = false ->
   result (RoutesUsers.update_user env uid user s) = Return (Message "User updated")).
Proof.
  destruct user as [n e p]. unfold RoutesUsers.update_user.
  cbn [RoutesUsers.name RoutesUsers.email RoutesUsers.password].
  set (data := [("name", VStr n); ("email", VStr e); ("password", VStr p)]).
  destruct (and_then_message (update_user env uid data) "User updated" s)
    as (Hdb & Hmsg & Hret).
  rewrite Hdb.
  assert (Hrows :
    Forall2 (fun u u' => u' = u \/ (user_id u = uid /\ u' = mkUser uid n e p))
            (users_of s) (users_of (db_after (update_user env uid data s))) /\
    products_of (db_after (update_user env uid data s)) = products_of s /\
    posts_of (db_after (update_user env uid data s)) = posts_of s).
  { destruct (result (update_user env uid data s)) as [[|]|x] eqn:Hres.
    - destruct (update_user_true env uid data [UName; UEmail; UPassword] s)
        as (d & t & new & -> & Ht & -> & Hnew);
        [discriminate|reflexivity|exact Hres|].
      unfold users_of, products_of, posts_of. cbn [tables_of users posts products].
      rewrite Ht. cbn [or_empty rows]. repeat split.
      eapply Forall2_impl; [|exact Hnew].
      intros u u'. cbv beta. destruct (Z.eqb (user_id u) uid) eqn:Eu;
        intros Hu; [|left; exact Hu].
      right. apply Z.eqb_eq in Eu. split; [exact Eu|].
      cbn [map values data snd assign] in Hu.
      bindE_inv Hu.
      apply set_text_column in E, E0, E1. subst u0 u1 u2.
      cbn [user_id user_name user_email user_password] in Hu. congruence.
    - unfold update_user in *.
      rewrite (execute_query_not_true env _ _ s) by congruence.
      repeat split. apply Forall2_same. now left.
    - unfold update_user in *.
      rewrite (execute_query_not_true env _ _ s) by congruence.
      repeat split. apply Forall2_same. now left. }
  destruct Hrows as (Hu & Hp & Ho).
  repeat split; try assumption.
  intros Hok. destruct (execute_query_returns env (update_user_query data)
                          (Some (update_user_values uid data)) s Hok) as [b Hb].
  apply (Hret b). exact Hb.
Qed.

Lemma update_user_handler_scope_witness :
  result (RoutesUsers.update_user calm 2
            {| RoutesUsers.name := "Jane Doe"; RoutesUsers.email := "jane@example.com";
               RoutesUsers.password := "longenough" |} seeded)
  = Return (Message "User updated").
Proof.
  apply (update_user_handler_scope calm 2 _ seeded). right. reflexivity.
Defined.

(** X10: The handler of POST /products never creates a product: it calls
    [create_product] without [is_admin], so the call raises the permission
    error out of the handler before any connection is opened, and the engine
    keeps its state. *)
Theorem create_product_handler_is_denied (env : Env) (product : RoutesProduct.Product)
    (s : server) :
  RoutesProduct.create_product env product s
  = mkCall (Raise (PermissionError "Admin access required to create products")) s [].
Proof. reflexivity. Qed.

(** X11: The handler of POST /users answers "User created" whatever the insert
    did: it never reports a failure.  With an email that is already taken it
    gives that answer although the engine keeps its state. *)
Theorem create_user_handler_hides_failure (env : Env) (user : RoutesUsers.User)
    (s : server) :
  (forall b, result (RoutesUsers.create_user env user s) = Return b ->
             b = Message "User created") /\
  (opens env s = false \/ cursor_slip env = false ->
   result (RoutesUsers.create_user env user s) = Return (Message "User created")) /\
  (In (RoutesUsers.email user) (map user_email (users_of s)) ->
   db_after (RoutesUsers.create_user env user s) = s).
Proof.
  unfold RoutesUsers.create_user.
  destruct (and_then_message
              (create_user env (RoutesUsers.name user) (RoutesUsers.email user)
                           (RoutesUsers.password user)) "User created" s)
    as (Hdb & Hmsg & Hret).
  split; [exact Hmsg|]. split.
  - intros Hok.
    destruct (execute_query_returns env
                "INSERT INTO users (name, email, password) VALUES (%s, %s, %s)"
                (Some [VStr (RoutesUsers.name user); VStr (RoutesUsers.email user);
                       VStr (RoutesUsers.password user)]) s Hok) as [b Hb].
    apply (Hret b). exact Hb.
  - intros Hin. rewrite Hdb. apply execute_query_not_true.
    intros H. apply create_user_true in H.
    destruct H as (d & t & -> & Ht & Hnew & _).
    apply Hnew. unfold users_of in Hin. cbn [tables_of] in Hin.
    now rewrite Ht in Hin.
Qed.

Lemma create_user_handler_hides_failure_witness :
  result (RoutesUsers.create_user calm
            {| RoutesUsers.name := "Johnny"; RoutesUsers.email := "john.doe@example.com";
               RoutesUsers.password := "longenough" |} seeded)
  = Return (Message "User created") /\
  db_after (RoutesUsers.create_user calm
              {| RoutesUsers.name := "Johnny"; RoutesUsers.email := "john.doe@example.com";
                 RoutesUsers.password := "longenough" |} seeded)
  = seeded.
Proof.
  split.
  - apply (create_user_handler_hides_failure calm _ seeded). right. reflexivity.
  - apply (create_user_handler_hides_failure calm _ seeded).
    vm_compute. left. reflexivity.
Defined.

(** ** initialize_database: failure, outcomes, existing rows *)

Lemma ddl_same_rows (st : script) (pw : nat -> string) (s s' : server) :
  implicit_commit st = true \/ st = UseDatabase ->
  run_script st pw s = inr s' ->
  same_rows s s'.
Proof.
  unfold same_rows, users_of, products_of, posts_of.
  intros [Hst | ->] H.
  - destruct st; try discriminate Hst; cbn [run_script] in H;
      unfold with_database in H;
      destruct s as [[[tu|] [tp|] [tpr|]]|];
      cbn [bindE users posts products] in H;
      try discriminate H; injection H as <-; repeat split.
  - cbn [run_script] in H. destruct s; [|discriminate H]. injection H as <-.
    repeat split.
Qed.

Ltac unfold_bootstrap :=
  cbv [initialize_database run initialize_database_py
       bind ret try_except try_finally mysql_connect connection_cursor
       cursor_execute_script connection_commit connection_in_locals
       is_connected cursor_close connection_close session_view note
       committed connection cursor executed trace
       load_users_db_data load_products_db_data load_posts_db_data
       implicit_commit].

Ltac split_bootstrap env :=
  repeat match goal with
         | |- context [match connect_error env with _ => _ end] =>
             destruct (connect_error env) eqn:?
         | |- context [match cursor_error env with _ => _ end] =>
             destruct (cursor_error env) eqn:?
         | |- context [match finish_error env with _ => _ end] =>
             destruct (finish_error env) eqn:?
         | |- context [if connected_at_start env then _ else _] =>
             destruct (connected_at_start env) eqn:?
         | |- context [if connected_at_exit env then _ else _] =>
             destruct (connected_at_exit env) eqn:?
         | |- context [match execute_error env ?n with _ => _ end] =>
             destruct (execute_error env n)
         | |- context [match run_script ?st ?pw ?x with _ => _ end] =>
             destruct (run_script st pw x) eqn:?
         end.

Ltac ddl_steps :=
  repeat match goal with
         | H : run_script ?st _ _ = inr _ |- _ =>
             apply ddl_same_rows in H;
             [|solve [left; reflexivity | right; reflexivity]]
         end.

Lemma initialize_database_failed (env : Env) (s : server) :
  result (initialize_database env s) <> Return (Some true) ->
  same_rows s (db_after (initialize_database env s)).
Proof.
  assert (Hrefl : same_rows s s) by (repeat split).
  unfold_bootstrap. split_bootstrap env; cbn [result db_after];
    intros Hneq; try (exfalso; apply Hneq; reflexivity);
    try exact Hrefl; ddl_steps; unfold same_rows in *;
    repeat match goal with H : _ /\ _ |- _ => destruct H end;
    repeat split; congruence.
Qed.

(** X12: When [initialize_database] does not return [True], whether it returns
    [False] or [None] or raises, the rows of the three tables are those it
    found: the seed rows are committed together or not at all.  (Missing
    tables may have been created, empty.) *)
Theorem initialize_database_all_or_nothing (env : Env) (s : server) :
  result (initialize_database env s) <> Return (Some true) ->
  same_rows s (db_after (initialize_database env s)).
Proof. exact (initialize_database_failed env s). Qed.

Lemma initialize_database_all_or_nothing_witness :
  same_rows seeded (db_after (initialize_database link_lost_at_execute seeded)).
Proof.
  apply (initialize_database_all_or_nothing link_lost_at_execute seeded).
  vm_compute. discriminate.
Defined.

(** X13: No [mysql.connector.Error] gets out of [initialize_database]: the only
    exception it can raise is the UnboundLocalError of its finally block.
    When connecting fails it returns [False] without touching anything.  It
    returns [None], neither [True] nor [False], exactly when the connection
    opens but answers not connected both after connecting and at exit. *)
Theorem initialize_database_outcomes (env : Env) (s : server) :
  (forall x, result (initialize_database env s) = Raise x ->
             x = UnboundLocalError "cursor") /\
  (forall e, connect_error env = Some e ->
             initialize_database env s = mkCall (Return (Some false)) s []) /\
  (result (initialize_database env s) = Return None <->
   connect_error env = None /\ connected_at_start env = false /\
   connected_at_exit env = false).
Proof.
  unfold_bootstrap. split_bootstrap env; cbn [result db_after];
    (split; [intros x Hx; try discriminate Hx; congruence|]);
    (split; [intros e0 He0; try discriminate He0; reflexivity|]);
    (split; [intros Hn; try discriminate Hn; repeat split; reflexivity
            |intros (H1 & H2 & H3); try discriminate; reflexivity]).
Qed.

Lemma initialize_database_outcomes_witness :
  initialize_database unreachable seeded = mkCall (Return (Some false)) seeded [] /\
  result (initialize_database
            (mkEnv None false None (fun _ => None) None false (fun _ => "")) seeded)
  = Return None.
Proof.
  split.
  - apply (proj1 (proj2 (initialize_database_outcomes unreachable seeded))
                 CR_CONN_HOST_ERROR).
    reflexivity.
  - apply (proj2 (proj2 (initialize_database_outcomes
             (mkEnv None false None (fun _ => None) None false (fun _ => "")) seeded))).
    repeat split.
Defined.

Lemma prefix_refl {A : Type} (l : list A) : prefix l l.
Proof. exists []. now rewrite app_nil_r. Qed.

Lemma prefix_trans {A : Type} (a b c : list A) : prefix a b -> prefix b c -> prefix a c.
Proof. intros [x ->] [y ->]. exists (x ++ y)%list. now rewrite app_assoc. Qed.

Lemma prefix_app {A : Type} (l r : list A) : prefix l (l ++ r)%list.
Proof. now exists r. Qed.

Lemma rename_credentials (n e : string) (l : list user) :
  map credentials (map (rename n e) l) = map credentials l.
Proof.
  rewrite map_map. apply map_ext. intros u. unfold rename, credentials.
  now destruct (String.eqb (user_email u) e).
Qed.

Lemma upsert_users_credentials (l : list (string * string)) (pw : nat -> string) :
  forall (i : nat) (t t' : table user),
    upsert_users l pw i t = inr t' ->
    prefix (map credentials (rows t)) (map credentials (rows t')).
Proof.
  induction l as [|[n e] l IH]; intros i t t' H.
  - cbn in H. injection H as <-. apply prefix_refl.
  - cbn [upsert_users] in H. bindE_inv H.
    apply (prefix_trans _ (map credentials (rows t0))); [|now apply (IH (S i))].
    apply upsert_user_inr in E. destruct E as [[_ ->]|[_ ->]].
    + rewrite rename_credentials. apply prefix_refl.
    + rewrite map_app. apply prefix_app.
Qed.

Lemma insert_products_prefix (l : list (string * string * Z * Z)) :
  forall d d',
    insert_products l d = inr d' ->
    prefix (rows (or_empty (products d))) (rows (or_empty (products d'))).
Proof.
  induction l as [|[[[n ds] p] q] l IH]; intros d d' H.
  - cbn in H. injection H as <-. apply prefix_refl.
  - cbn [insert_products] in H.
    destruct (insert_product _ _ _ _ d) as [e|[r d1]] eqn:E1;
      cbn [bindE snd] in H; [discriminate H|].
    apply insert_product_inr in E1. destruct E1 as (t & Ht & ->).
    apply IH in H. cbn [products or_empty rows] in H. rewrite Ht. cbn [or_empty].
    eapply prefix_trans; [apply prefix_app|exact H].
Qed.

Lemma insert_posts_prefix (l : list (string * string * Z)) :
  forall d d',
    insert_posts l d = inr d' ->
    prefix (rows (or_empty (posts d))) (rows (or_empty (posts d'))).
Proof.
  induction l as [|[[ti ct] u] l IH]; intros d d' H.
  - cbn in H. injection H as <-. apply prefix_refl.
  - cbn [insert_posts] in H.
    destruct (insert_post _ _ _ d) as [e|[r d1]] eqn:E1;
      cbn [bindE snd] in H; [discriminate H|].
    apply insert_post_inr in E1. destruct E1 as (t & Ht & ->).
    apply IH in H. cbn [posts or_empty rows] in H. rewrite Ht. cbn [or_empty].
    eapply prefix_trans; [apply prefix_app|exact H].
Qed.

(** X14: A successful [initialize_database] removes nothing: the users it found
    are still there, in order, with their id, email and password (only the
    name of a seeded email may change), and the products and posts it found
    are an unchanged beginning of the tables it leaves. *)
Theorem initialize_database_keeps_rows (env : Env) (s : server) :
  result (initialize_database env s) = Return (Some true) ->
  prefix (map credentials (users_of s))
         (map credentials (users_of (db_after (initialize_database env s)))) /\
  prefix (products_of s) (products_of (db_after (initialize_database env s))) /\
  prefix (posts_of s) (posts_of (db_after (initialize_database env s))).
Proof.
  intros H. apply initialize_database_true in H. apply bootstrap_inr in H.
  destruct H as (tu & d2 & d3 & Hu & Hp & Ho & ->).
  pose proof (insert_products_prefix _ _ _ Hp) as Pp.
  pose proof (insert_posts_prefix _ _ _ Ho) as Po.
  apply insert_products_count in Hp. destruct Hp as (Hu2 & Hp2 & _).
  apply insert_posts_count in Ho. destruct Ho as (Hu3 & Hp3 & _).
  cbn [users posts products or_empty] in *.
  unfold users_of, products_of, posts_of. cbn [tables_of].
  rewrite Hu3, Hu2, Hp3. cbn [or_empty].
  split; [|split].
  - apply (upsert_users_credentials _ _ _ _ _ Hu).
  - exact Pp.
  - rewrite Hp2 in Po. cbn [or_empty] in Po. exact Po.
Qed.

Lemma initialize_database_keeps_rows_witness :
  prefix (products_of seeded) (products_of (db_after (initialize_database calm seeded))).
Proof.
  apply (initialize_database_keeps_rows calm seeded). vm_compute. reflexivity.
Defined.

(** ** clean_db *)

Lemma upsert_user_counter (n e p : string) (t t' : table user) :
  upsert_user n e p t = inr t' -> auto_increment t' = auto_increment t + 1.
Proof.
  unfold upsert_user. intros H. bindE_inv H.
  destruct (existsb _ _) in H; [injection H as <-; reflexivity|].
  destruct (existsb _ _) in H; [discriminate H|]. injection H as <-. reflexivity.
Qed.

(** Seeding users whose emails are all new appends them under the next ids. *)
Lemma upsert_users_fresh (l : list (string * string)) (pw : nat -> string) :
  forall (i : nat) (t t' : table user),
    NoDup (map snd l) ->
    (forall e, In e (map snd l) -> ~ In e (map user_email (rows t))) ->
    upsert_users l pw i t = inr t' ->
    rows t'
    = (rows t ++ numbered (fun id i c => mkUser id (fst c) (snd c) (pw i))
                          (auto_increment t) i l)%list.
Proof.
  induction l as [|[n e] l IH]; intros i t t' Hnd Hnew H.
  - cbn in H. injection H as <-. cbn. now rewrite app_nil_r.
  - cbn [upsert_users] in H. bindE_inv H.
    inversion Hnd as [|? ? Hnot Hnd']; subst.
    pose proof (upsert_user_counter _ _ _ _ _ E) as Hc.
    apply upsert_user_inr in E. destruct E as [[Hin _]|[_ Hrows]].
    { exfalso. apply (Hnew e); [now left|exact Hin]. }
    rewrite (IH (S i) t0 t' Hnd'); [|clear IH|exact H].
    + rewrite Hrows, Hc, <- app_assoc. reflexivity.
    + intros e' He' Hin. rewrite Hrows, map_app in Hin.
      apply in_app_or in Hin. destruct Hin as [Hin|[<-|[]]].
      * apply (Hnew e'); [now right|exact Hin].
      * contradiction.
Qed.

Lemma insert_products_fresh (l : list (string * string * Z * Z)) :
  forall d d' t (i : nat),
    insert_products l d = inr d' ->
    products d = Some t ->
    rows (or_empty (products d'))
    = (rows t ++ numbered (fun id (_ : nat) c =>
                             mkProduct id (fst (fst (fst c))) (snd (fst (fst c)))
                                       (snd (fst c)) (snd c))
                          (auto_increment t) i l)%list.
Proof.
  induction l as [|[[[n ds] p] q] l IH]; intros d d' t i H Ht.
  - cbn in H. injection H as <-. rewrite Ht. cbn. now rewrite app_nil_r.
  - cbn [insert_products] in H.
    destruct (insert_product _ _ _ _ d) as [e|[r d1]] eqn:E1;
      cbn [bindE snd] in H; [discriminate H|].
    apply insert_product_inr in E1. destruct E1 as (t0 & Ht0 & ->).
    rewrite Ht in Ht0. injection Ht0 as <-.
    eapply (IH _ _ _ (S i)) in H; [|cbn [products posts]; reflexivity].
    rewrite H. cbn [rows auto_increment numbered fst snd].
    rewrite <- app_assoc. reflexivity.
Qed.

Lemma insert_posts_fresh (l : list (string * string * Z)) :
  forall d d' t (i : nat),
    insert_posts l d = inr d' ->
    posts d = Some t ->
    rows (or_empty (posts d'))
    = (rows t ++ numbered (fun id (_ : nat) c =>
                             mkPost id (fst (fst c)) (snd (fst c)) (snd c))
                          (auto_increment t) i l)%list.
Proof.
  induction l as [|[[ti ct] u] l IH]; intros d d' t i H Ht.
  - cbn in H. injection H as <-. rewrite Ht. cbn. now rewrite app_nil_r.
  - cbn [insert_posts] in H.
    destruct (insert_post _ _ _ d) as [e|[r d1]] eqn:E1;
      cbn [bindE snd] in H; [discriminate H|].
    apply insert_post_inr in E1. destruct E1 as (t0 & Ht0 & ->).
    rewrite Ht in Ht0. injection Ht0 as <-.
    eapply (IH _ _ _ (S i)) in H; [|cbn [products posts]; reflexivity].
    rewrite H. cbn [rows auto_increment numbered fst snd].
    rewrite <- app_assoc. reflexivity.
Qed.

(** A successful bootstrap of a server without the database. *)
Lemma initialize_database_from_nothing (env : Env) :
  result (initialize_database env None) = Return (Some true) ->
  users_of (db_after (initialize_database env None))
  = fresh_users (random_passwords env) /\
  products_of (db_after (initialize_database env None)) = fresh_products /\
  posts_of (db_after (initialize_database env None)) = fresh_posts.
Proof.
  intros H. apply initialize_database_true in H. apply bootstrap_inr in H.
  destruct H as (tu & d2 & d3 & Hu & Hp & Ho & ->).
  cbn [tables_of empty_schema users posts products or_empty] in *.
  apply upsert_users_fresh in Hu;
    [|exact seeded_emails_distinct|intros e _ []].
  pose proof (insert_products_fresh _ _ _ _ 0%nat Hp eq_refl) as Fp.
  apply insert_products_count in Hp. destruct Hp as (Hu2 & Hp2 & _).
  pose proof (insert_posts_fresh _ _ _ _ 0%nat Ho Hp2) as Fo.
  apply insert_posts_count in Ho. destruct Ho as (Hu3 & Hp3 & _).
  cbn [users posts products] in *.
  unfold users_of, products_of, posts_of. cbn [tables_of].
  rewrite Hu3, Hu2, Hp3. cbn [or_empty].
  split; [exact Hu|]. split; [exact Fp|exact Fo].
Qed.

Lemma initialize_database_raise (env : Env) (s : server) (x : exn) :
  result (initialize_database env s) = Raise x -> x = UnboundLocalError "cursor".
Proof.
  unfold_bootstrap. split_bootstrap env; cbn [result];
    intros Hx; try discriminate Hx; congruence.
Qed.

Ltac unfold_clean :=
  cbv [clean_db run clean_db_py bind ret try_except try_finally mysql_connect
       connection_cursor cursor_execute_drop_database connection_commit call_method
       connection_in_locals is_connected cursor_close connection_close session_view
       note committed connection cursor executed trace].

Ltac split_clean env :=
  repeat match goal with
         | |- context [match connect_error env with _ => _ end] =>
             destruct (connect_error env)
         | |- context [match cursor_error env with _ => _ end] =>
             destruct (cursor_error env)
         | |- context [match finish_error env with _ => _ end] =>
             destruct (finish_error env)
         | |- context [if connected_at_start env then _ else _] =>
             destruct (connected_at_start env)
         | |- context [if connected_at_exit env then _ else _] =>
             destruct (connected_at_exit env)
         | |- context [match execute_error env ?n with _ => _ end] =>
             destruct (execute_error env n)
         end.

(** The three ways [clean_db] can leave the engine. *)
Lemma clean_db_cases (env env_init : Env) (s : server) :
  (db_after (clean_db env env_init s) = s /\
   result (clean_db env env_init s) <> Return (Some true)) \/
  (db_after (clean_db env env_init s) = None /\
   result (clean_db env env_init s) <> Return (Some true)) \/
  (db_after (clean_db env env_init s) = db_after (initialize_database env_init None) /\
   (result (clean_db env env_init s) = Return (Some true) <->
    result (initialize_database env_init None) = Return (Some true))).
Proof.
  pose proof (initialize_database_raise env_init None) as Hraise.
  unfold_clean. split_clean env; cbn [result db_after];
    try (left; split; [reflexivity|discriminate]);
    try (right; left; split; [reflexivity|discriminate]);
    right; right;
    destruct (result (initialize_database env_init None)) as [[[|]|]|x] eqn:Hinit;
    try (rewrite (Hraise x eq_refl));
    cbv beta iota zeta delta [committed connection cursor executed trace];
    split_clean env; cbn [result db_after];
    (split; [reflexivity|split; intros H; try discriminate H; reflexivity]).
Qed.

(** X15: When [clean_db] returns [True], the three tables hold the seed and
    nothing else, under ids counted from 1: no row from before the drop is
    left. *)
Theorem clean_db_leaves_only_the_seed (env env_init : Env) (s : server) :
  result (clean_db env env_init s) = Return (Some true) ->
  users_of (db_after (clean_db env env_init s))
  = fresh_users (random_passwords env_init) /\
  products_of (db_after (clean_db env env_init s)) = fresh_products /\
  posts_of (db_after (clean_db env env_init s)) = fresh_posts.
Proof.
  intros H.
  destruct (clean_db_cases env env_init s) as [[_ Hn]|[[_ Hn]|[Hdb Hiff]]];
    try contradiction.
  rewrite Hdb. apply initialize_database_from_nothing. now apply Hiff.
Qed.

Lemma clean_db_leaves_only_the_seed_witness :
  users_of (db_after (clean_db calm calm
                        (db_after (create_user calm "Eve" "eve@example.com"
                                               "longenough" seeded))))
  = fresh_users (random_passwords calm).
Proof.
  apply (clean_db_leaves_only_the_seed calm calm). vm_compute. reflexivity.
Defined.

(** X16: [clean_db] never leaves old rows beside the seed.  After it, whatever
    it returned or raised, either the engine is as it was (the DROP did not
    run), or the three tables are empty or missing (the DROP ran, the seed was
    not committed), or it returned [True] and they hold exactly the seed. *)
Theorem clean_db_old_or_empty_or_seed (env env_init : Env) (s : server) :
  db_after (clean_db env env_init s) = s \/
  no_rows (db_after (clean_db env env_init s)) \/
  (result (clean_db env env_init s) = Return (Some true) /\
   users_of (db_after (clean_db env env_init s))
   = fresh_users (random_passwords env_init) /\
   products_of (db_after (clean_db env env_init s)) = fresh_products /\
   posts_of (db_after (clean_db env env_init s)) = fresh_posts).
Proof.
  destruct (clean_db_cases env env_init s) as [[Hs _]|[[Hs _]|[Hdb Hiff]]].
  - now left.
  - right. left. rewrite Hs. repeat split.
  - destruct (result (initialize_database env_init None)) as [[[|]|]|x] eqn:Hinit.
    + right. right. split; [now apply Hiff|]. rewrite Hdb.
      now apply initialize_database_from_nothing.
    + right. left. rewrite Hdb.
      destruct (initialize_database_failed env_init None) as (H1 & H2 & H3);
        [congruence|]. repeat split; assumption.
    + right. left. rewrite Hdb.
      destruct (initialize_database_failed env_init None) as (H1 & H2 & H3);
        [congruence|]. repeat split; assumption.
    + right. left. rewrite Hdb.
      destruct (initialize_database_failed env_init None) as (H1 & H2 & H3);
        [congruence|]. repeat split; assumption.
Qed.

(** ** from_env *)

Lemma set_and_not_empty_some (v : option string) (x : string) :
  Config.set_and_not_empty v = Some x -> v = Some x /\ x <> "".
Proof.
  destruct v as [[|c s]|]; cbn; intros H; try discriminate H.
  injection H as <-. split; [reflexivity|discriminate].
Qed.

Lemma set_and_not_empty_none (v : option string) :
  Config.set_and_not_empty v = None -> v = None \/ v = Some "".
Proof. destruct v as [[|c s]|]; cbn; intros H; try discriminate H; auto. Qed.

(** X17: [from_env] builds a manager only from a complete configuration: each of
    DB_HOST, DB_PORT, DB_USER, DB_PASSWORD and DB_NAME is set and not empty,
    DB_PORT reads as an integer, and the manager carries exactly these
    values.  When it raises instead, one of the five is unset or empty, or
    DB_PORT does not read as an integer. *)
Theorem from_env_needs_every_setting (int : string -> option Z)
    (getenv : string -> option string) :
  (forall m, Config.from_env int getenv = inr m ->
     getenv "DB_HOST" = Some (Config.host m) /\ Config.host m <> "" /\
     (exists p, getenv "DB_PORT" = Some p /\ p <> "" /\ int p = Some (Config.port m)) /\
     getenv "DB_USER" = Some (Config.user m) /\ Config.user m <> "" /\
     getenv "DB_PASSWORD" = Some (Config.password m) /\ Config.password m <> "" /\
     getenv "DB_NAME" = Some (Config.database m) /\ Config.database m <> "") /\
  (forall msg, Config.from_env int getenv = inl msg ->
     (exists key,
        In key ["DB_HOST"; "DB_PORT"; "DB_USER"; "DB_PASSWORD"; "DB_NAME"] /\
        (getenv key = None \/ getenv key = Some "")) \/
     (exists p, getenv "DB_PORT" = Some p /\ int p = None)).
Proof.
  unfold Config.from_env.
  destruct (Config.set_and_not_empty (getenv "DB_HOST")) as [h|] eqn:Eh.
  2:{ split; [discriminate|]. intros msg _. left. exists "DB_HOST".
      split; [cbn; auto|]. now apply set_and_not_empty_none. }
  destruct (Config.set_and_not_empty (getenv "DB_PORT")) as [p|] eqn:Ep.
  2:{ split; [discriminate|]. intros msg _. left. exists "DB_PORT".
      split; [cbn; auto|]. now apply set_and_not_empty_none. }
  destruct (Config.set_and_not_empty (getenv "DB_USER")) as [u|] eqn:Eu.
  2:{ split; [discriminate|]. intros msg _. left. exists "DB_USER".
      split; [cbn; auto|]. now apply set_and_not_empty_none. }
  destruct (Config.set_and_not_empty (getenv "DB_PASSWORD")) as [w|] eqn:Ew.
  2:{ split; [discriminate|]. intros msg _. left. exists "DB_PASSWORD".
      split; [cbn; auto 6|]. now apply set_and_not_empty_none. }
  destruct (Config.set_and_not_empty (getenv "DB_NAME")) as [n|] eqn:En.
  2:{ split; [discriminate|]. intros msg _. left. exists "DB_NAME".
      split; [cbn; auto 6|]. now apply set_and_not_empty_none. }
  apply set_and_not_empty_some in Eh, Ep, Eu, Ew, En.
  destruct Eh as [Eh Eh'], Ep as [Ep Ep'], Eu as [Eu Eu'], Ew as [Ew Ew'],
    En as [En En'].
  destruct (int p) as [z|] eqn:Ez.
  - split; [|discriminate]. intros m [= <-]. cbn.
    repeat split; try assumption. exists p. repeat split; assumption.
  - split; [discriminate|]. intros msg _. right. exists p. split; assumption.
Qed.

Lemma from_env_needs_every_setting_witness :
  example_getenv "DB_HOST" = Some "localhost" /\
  exists p, example_getenv "DB_PORT" = Some p /\ p <> "" /\ decimal p = Some 3306.
Proof.
  destruct (proj1 (from_env_needs_every_setting decimal example_getenv)
                  (Config.mkManager "localhost" 3306 "app" "secret" "appdb") eq_refl)
    as (Hh & _ & Hp & _).
  split; [exact Hh|exact Hp].
Defined.

(** ** init_db.py *)

Lemma fetch_all_reads_only (env : Env) (query : string) (params : option (list value))
    (s : server) :
  db_after (fetch_all env query params s) = s.
Proof.
  rewrite fetch_all_eq. unfold without_cursor.
  destruct (opens env s), (cursor_error env), (connected_at_exit env); reflexivity.
Qed.

Lemma counting_reads_only {A : Type} (infra_users infra_products : Env)
    (k : list row -> list row -> proc A) (s : server) :
  (forall users products, db_after (k users products s) = s) ->
  db_after (and_then (get_all_users infra_users) (fun users =>
            and_then (get_all_products infra_products) (fun products =>
              k users products)) s) = s.
Proof.
  intros Hk. unfold and_then, get_all_users, get_all_products.
  destruct (result (fetch_all infra_users _ _ s)) as [users|e];
    cbn [db_after result]; rewrite ?fetch_all_reads_only; [|reflexivity].
  destruct (result (fetch_all infra_products _ _ s)) as [products|e];
    cbn [db_after result]; rewrite ?fetch_all_reads_only; [|reflexivity].
  apply Hk.
Qed.

(** X18: Without [--force], [clean_and_reinitialize] leaves the engine as it is
    unless the answer is "yes" or "y": on any other answer, and on a keyboard
    interrupt, it never calls [clean_db], the engine keeps its state, the
    function returns [False] when it returns, and [main --clean] ends with
    status 1. *)
Theorem declined_clean_touches_nothing (int : string -> option Z)
    (getenv : string -> option string) (infra : Cli.Infra) (args : Cli.Args)
    (keyboard : Cli.typed) (s : server) :
  Cli.force args = false ->
  (keyboard = Cli.KeyboardInterrupt \/
   exists confirm, keyboard = Cli.Answer confirm /\ confirm <> "yes" /\ confirm <> "y") ->
  db_after (Cli.clean_and_reinitialize infra args keyboard s) = s /\
  (forall r, result (Cli.clean_and_reinitialize infra args keyboard s) = Return r ->
             r = Some false) /\
  (Cli.clean args = true ->
   result (Cli.main int getenv infra args keyboard s) = Return 1 /\
   db_after (Cli.main int getenv infra args keyboard s) = s).
Proof.
  intros Hforce Hkey.
  assert (Hbody : Cli.clean_and_reinitialize infra args keyboard s
                  = and_then (get_all_users (Cli.at_count_users infra)) (fun users =>
                    and_then (get_all_products (Cli.at_count_products infra))
                             (fun products => done (Some false))) s).
  { unfold Cli.clean_and_reinitialize. rewrite Hforce. cbn [negb].
    destruct Hkey as [->|(confirm & -> & Hy & Hn)]; [reflexivity|].
    unfold Cli.declined.
    apply String.eqb_neq in Hy, Hn. rewrite Hy, Hn. reflexivity. }
  assert (Hdb : db_after (Cli.clean_and_reinitialize infra args keyboard s) = s).
  { rewrite Hbody. apply counting_reads_only. reflexivity. }
  assert (Hres : forall r, result (Cli.clean_and_reinitialize infra args keyboard s)
                           = Return r -> r = Some false).
  { rewrite Hbody. unfold and_then, done.
    destruct (result (get_all_users _ s)); cbn [result db_after]; [|discriminate].
    destruct (result (get_all_products _ _)); cbn [result]; [|discriminate].
    congruence. }
  split; [exact Hdb|]. split; [exact Hres|].
  intros Hclean. unfold Cli.main.
    destruct (Config.from_env int getenv) as [msg|db]; [split; reflexivity|].
    rewrite Hclean. unfold Cli.or_exit. rewrite Hdb.
    destruct (result (Cli.clean_and_reinitialize infra args keyboard s)) as [r|e] eqn:Er;
      [|split; reflexivity].
    rewrite (Hres r eq_refl). cbn. split; reflexivity.
Qed.

Lemma declined_clean_touches_nothing_witness :
  result (Cli.main decimal example_getenv calm_infra
            {| Cli.clean := true; Cli.status := false; Cli.force := false |}
            (Cli.Answer "no") seeded) = Return 1 /\
  db_after (Cli.main decimal example_getenv calm_infra
              {| Cli.clean := true; Cli.status := false; Cli.force := false |}
              (Cli.Answer "no") seeded) = seeded.
Proof.
  apply (declined_clean_touches_nothing decimal example_getenv calm_infra
           {| Cli.clean := true; Cli.status := false; Cli.force := false |}
           (Cli.Answer "no") seeded).
  - reflexivity.
  - right. exists "no". repeat split; discriminate.
  - reflexivity.
Defined.

Lemma check_database_status_reads_only (infra : Cli.Infra) (s : server) :
  result (Cli.check_database_status infra s) = Return tt /\
  db_after (Cli.check_database_status infra s) = s.
Proof.
  unfold Cli.check_database_status, Cli.swallow. cbn [result db_after].
  split; [reflexivity|]. apply counting_reads_only. reflexivity.
Qed.

(** X19: What [main] does to the engine without [--clean].  With an incomplete
    configuration it ends with status 1 before any connection is opened.
    With [--status] alone it only reads: the engine keeps its state and the
    status is 0 even when the engine cannot be reached.  With no flag it runs
    [initialize_database] and ends with status 0 exactly when that returned
    [True]; [False], [None] and an exception all give status 1. *)
Theorem main_without_clean (int : string -> option Z) (getenv : string -> option string)
    (infra : Cli.Infra) (args : Cli.Args) (keyboard : Cli.typed) (s : server) :
  (forall msg, Config.from_env int getenv = inl msg ->
     Cli.main int getenv infra args keyboard s = mkCall (Return 1) s []) /\
  (forall db, Config.from_env int getenv = inr db ->
     Cli.clean args = false -> Cli.status args = true ->
     result (Cli.main int getenv infra args keyboard s) = Return 0 /\
     db_after (Cli.main int getenv infra args keyboard s) = s) /\
  (forall db, Config.from_env int getenv = inr db ->
     Cli.clean args = false -> Cli.status args = false ->
     db_after (Cli.main int getenv infra args keyboard s)
     = db_after (initialize_database (Cli.at_initialize infra) s) /\
     (result (Cli.main int getenv infra args keyboard s) = Return 0 <->
      result (initialize_database (Cli.at_initialize infra) s) = Return (Some true)) /\
     (result (initialize_database (Cli.at_initialize infra) s) <> Return (Some true) ->
      result (Cli.main int getenv infra args keyboard s) = Return 1)).
Proof.
  unfold Cli.main. split; [|split].
  - intros msg ->. reflexivity.
  - intros db -> -> ->. cbn [negb]. unfold Cli.or_exit.
    destruct (check_database_status_reads_only infra s) as [Hr Hd].
    rewrite Hr, Hd. cbn. split; reflexivity.
  - intros db -> -> ->. cbn [negb].
    unfold Cli.or_exit, Cli.initialize_database, and_then, done.
    destruct (result (initialize_database (Cli.at_initialize infra) s))
      as [[[|]|]|e]; cbn [result db_after Cli.succeeded];
      (split; [reflexivity|]);
      (split; [split; intros H; try discriminate H; reflexivity|]);
      intros H; try reflexivity; exfalso; apply H; reflexivity.
Qed.

Lemma main_without_clean_witness :
  result (Cli.main decimal example_getenv calm_infra
            {| Cli.clean := false; Cli.status := true; Cli.force := false |}
            (Cli.Answer "") seeded) = Return 0 /\
  Cli.main decimal (fun _ => None) calm_infra
           {| Cli.clean := false; Cli.status := false; Cli.force := false |}
           (Cli.Answer "") seeded = mkCall (Return 1) seeded [].
Proof.
  split.
  - apply (proj1 (proj2 (main_without_clean decimal example_getenv calm_infra
             {| Cli.clean := false; Cli.status := true; Cli.force := false |}
             (Cli.Answer "") seeded))
             (Config.mkManager "localhost" 3306 "app" "secret" "appdb"));
      reflexivity.
  - apply (proj1 (main_without_clean decimal (fun _ => None) calm_infra
             {| Cli.clean := false; Cli.status := false; Cli.force := false |}
             (Cli.Answer "") seeded)
             "DB_HOST environment variable must be set").
    reflexivity.
Defined.
